(** * Musibro: the scoring, debiasing and evaluation pipeline of [src/ml]

    A shallow embedding of the recommendation pipeline

    - [src/ml/models.py]      (content-based, popularity and hybrid recommenders,
                               exploration strategies),
    - [src/ml/debiasing.py]   (popularity debiasing, fairness tiers and flags,
                               diversity injection, bias corrections),
    - [src/ml/evaluation.py]  (accuracy, NDCG, Gini coefficient, coverage,
                               serendipity, overall quality).

    Conventions of the embedding.

    - Python floats are idealised as rationals ([Q]); the two places that call
      a transcendental function ([np.exp] in the popularity penalty and
      [math.log2] in the NDCG discount) are stated over the reals ([R]).
    - A Python [dict] whose iteration order matters is an association list in
      insertion order ([odict]); a record-like [dict] is a [gmap string value].
    - A body wrapped in [try: ... except Exception] is written in the [option]
      monad: [None] is "an exception was raised", and the handler's default is
      substituted at the place where the source has its [except] clause.
    - Dictionaries that are mutated through aliases live in an explicit object
      store ([heap]); a Python list of dictionaries is a list of addresses. *)

From Stdlib Require Import ZArith QArith Qabs Qminmax Qround Reals Qreals Lra Lia Psatz.
From stdpp Require Import base option list gmap strings sorting.

(** ** Python built-ins used by the pipeline *)

(** Clamping of a slice bound against the length of the sequence
    (negative bounds count from the end). *)
Definition py_bound (len : nat) (i : Z) : nat :=
  if (i <? 0)%Z then Z.to_nat (Z.max 0 (Z.of_nat len + i))
  else Z.to_nat (Z.min i (Z.of_nat len)).

(** [l[:stop]] *)
Definition py_slice_to {A} (stop : Z) (l : list A) : list A :=
  take (py_bound (length l) stop) l.

(** [l[start:]] *)
Definition py_slice_from {A} (start : Z) (l : list A) : list A :=
  drop (py_bound (length l) start) l.

(** [l[start:stop]] *)
Definition py_slice {A} (start stop : Z) (l : list A) : list A :=
  let lo := py_bound (length l) start in
  let hi := py_bound (length l) stop in
  take (hi - lo) (drop lo l).

(** [int(x)] on a float: truncation toward zero. *)
Definition py_int (x : Q) : Z := Z.quot (Qnum x) (Zpos (Qden x)).

(** [enumerate(l, start)] and [enumerate(l)] *)
Fixpoint py_enumerate_from {A} (start : nat) (l : list A) : list (nat * A) :=
  match l with
  | [] => []
  | x :: l' => (start, x) :: py_enumerate_from (S start) l'
  end.

Definition py_enumerate {A} (l : list A) : list (nat * A) := py_enumerate_from 0 l.

(** [sorted] and [list.sort] are stable.  [le x y] says that [x] may stand
    before [y]; an element is inserted in front of the first element it may
    stand before, so that equal keys keep their original order. *)
Section PySorted.
Context {A : Type} (le : A -> A -> bool).

Fixpoint py_insert (x : A) (l : list A) : list A :=
  match l with
  | [] => [x]
  | y :: l' => if le x y then x :: y :: l' else y :: py_insert x l'
  end.

Definition py_sort (l : list A) : list A := foldr py_insert [] l.
End PySorted.

(** [sorted(l, key=key)] *)
Definition py_sorted_asc {A} (key : A -> Q) : list A -> list A :=
  py_sort (fun x y => Qle_bool (key x) (key y)).

(** [sorted(l, key=key, reverse=True)]: descending, and still stable. *)
Definition py_sorted_desc {A} (key : A -> Q) : list A -> list A :=
  py_sort (fun x y => Qle_bool (key y) (key x)).

(** An insertion-ordered [dict] from item ids to floats. *)
Definition odict := list (string * Q).

Fixpoint od_get (k : string) (d : odict) : option Q :=
  match d with
  | [] => None
  | (k', v) :: d' => if String.eqb k k' then Some v else od_get k d'
  end.

(** [d[k] = v]: an existing key keeps its position, a new key is appended. *)
Fixpoint od_set (k : string) (v : Q) (d : odict) : odict :=
  match d with
  | [] => [(k, v)]
  | (k', v') :: d' =>
      if String.eqb k k' then (k, v) :: d' else (k', v') :: od_set k v d'
  end.

Definition od_keys (d : odict) : list string := d.*1.

(** [np.where(arr == x)[0]] followed by [[0]]: the first position of [x]. *)
Fixpoint index_of (x : string) (l : list string) : option nat :=
  match l with
  | [] => None
  | y :: l' => if String.eqb x y then Some 0%nat else S <$> index_of x l'
  end.

(** ** [src/ml/models.py] *)

Module Models.

(** The state of [ContentBasedFiltering] after [fit]: [similarity_matrix]
    is [None] until a fit has succeeded. *)
Record ContentBasedFiltering := {
  item_ids : list string;
  similarity_matrix : option (list (list Q));
}.

(** [PopularityBasedRecommender.item_popularity] *)
Record PopularityBasedRecommender := {
  item_popularity : odict;
}.

(** A trained [NeuralCollaborativeFiltering]: the encoder, scaler and
    regressor are an oracle from encoded (user, item) pairs to predictions;
    [predict] answers the empty array when anything inside it raises. *)
Record NeuralCollaborativeFiltering := {
  predict : list nat -> list nat -> list Q;
}.

Record HybridRecommendationSystem := {
  weights : gmap string Q;
  ncf_model : option NeuralCollaborativeFiltering;
  content_model : ContentBasedFiltering;
  popularity_model : PopularityBasedRecommender;
  (** the bound method [diversity_injector.calculate_diversity_scores],
      [None] when no injector is attached *)
  diversity_injector : option (list string -> odict);
  user_encoder : list string;
  item_encoder : list string;
}.

(** An entry of the list returned by [HybridRecommendationSystem.recommend]. *)
Record Recommendation := {
  item_id : string;
  score : Q;
  timestamp : string;
}.

Section WithEnvironment.
(** [np.argsort] with its default, unstable sorting kind: the order among
    equal similarities is left to numpy. *)
Variable np_argsort : list Q -> list nat.
(** [datetime.now().isoformat()] at the construction of the i-th record. *)
Variable clock : nat -> string.

Definition get_similar_items (m : ContentBasedFiltering)
    (item : string) (n_recommendations : Z) : list (string * Q) :=
  match similarity_matrix m with
  | None => []                                  (* ValueError, handled *)
  | Some matrix =>
      match index_of item (item_ids m) with
      | None => []
      | Some item_idx =>
          default []
            (similarities ← matrix !! item_idx;
             let similar_indices :=
               py_slice 1 (n_recommendations + 1)%Z (rev (np_argsort similarities)) in
             mapM (fun idx =>
                     similar_item_id ← item_ids m !! idx;
                     similarity_score ← similarities !! idx;
                     Some (similar_item_id, similarity_score))
                  similar_indices)
      end
  end.

(** [all_recommendations] after the two nested loops. *)
Definition collect_similar (m : ContentBasedFiltering)
    (user_liked_items : list string) (n_recommendations : Z) : odict :=
  foldl (fun all item =>
           foldl (fun all '(similar_item_id, similarity) =>
                    if bool_decide (similar_item_id ∈ user_liked_items) then all
                    else match od_get similar_item_id all with
                         | Some s => od_set similar_item_id (s + similarity)%Q all
                         | None => od_set similar_item_id similarity all
                         end)
                 all (get_similar_items m item (n_recommendations * 2)%Z))
        [] user_liked_items.

Definition recommend_for_user (m : ContentBasedFiltering)
    (user_liked_items : list string) (n_recommendations : Z) : list (string * Q) :=
  match user_liked_items with
  | [] => []
  | _ =>
      py_slice_to n_recommendations
        (py_sorted_desc snd (collect_similar m user_liked_items n_recommendations))
  end.

Definition get_popular_items (p : PopularityBasedRecommender) (n_items : Z)
    : list (string * Q) :=
  py_slice_to n_items (py_sorted_desc snd (item_popularity p)).

Definition _get_collaborative_scores (s : HybridRecommendationSystem)
    (ncf : NeuralCollaborativeFiltering) (user_id : string) (n_items : Z)
    : list (string * Q) :=
  match index_of user_id (user_encoder s) with
  | None => []
  | Some user_idx =>
      let item_indices := seq 0 (length (item_encoder s)) in
      let user_indices := replicate (length item_indices) user_idx in
      let predictions := predict ncf user_indices item_indices in
      match mapM (fun '(idx, sc) => item ← item_encoder s !! idx; Some (item, sc))
                 (py_enumerate predictions) with
      | None => []                              (* KeyError, handled *)
      | Some item_scores => py_slice_to n_items (py_sorted_desc snd item_scores)
      end
  end.

(** [for item_id, score in scores:
       all_scores[item_id] = all_scores.get(item_id, 0) + score * self.weights[w]];
    the weight is looked up in every iteration, so a missing weight raises
    only when there is something to add. *)
Definition add_weighted (s : HybridRecommendationSystem) (w : string)
    (scores : list (string * Q)) (all_scores : odict) : option odict :=
  foldl (fun acc '(item, sc) =>
           all ← acc;
           weight ← weights s !! w;
           Some (od_set item (default 0%Q (od_get item all) + sc * weight)%Q all))
        (Some all_scores) scores.

(** [for item_id, div_score in diversity_scores.items():
       if item_id in all_scores: all_scores[item_id] += div_score * boost] *)
Definition add_diversity (diversity_boost : Q) (diversity_scores : odict)
    (all_scores : odict) : odict :=
  foldl (fun all '(item, div_score) =>
           match od_get item all with
           | Some sc => od_set item (sc + div_score * diversity_boost)%Q all
           | None => all
           end)
        all_scores diversity_scores.

(** The dictionary [all_scores] at the point where [recommend] sorts it;
    [None] when the body has raised. *)
Definition combined_scores (s : HybridRecommendationSystem) (user_id : string)
    (user_liked_items : list string) (n_recommendations : Z)
    (diversity_boost : Q) : option odict :=
  all ← match ncf_model s with
        | Some ncf =>
            if bool_decide (user_id ∈ user_encoder s) then
              add_weighted s "collaborative"
                (_get_collaborative_scores s ncf user_id (n_recommendations * 2)%Z) []
            else Some []
        | None => Some []
        end;
  all ← add_weighted s "content"
          (recommend_for_user (content_model s) user_liked_items (n_recommendations * 2)%Z)
          all;
  all ← add_weighted s "popularity"
          (get_popular_items (popularity_model s) (n_recommendations * 2)%Z) all;
  Some (if Qlt_le_dec 0%Q diversity_boost then
          match diversity_injector s with
          | Some calculate_diversity_scores =>
              add_diversity diversity_boost
                (calculate_diversity_scores (od_keys all)) all
          | None => all
          end
        else all).

Definition recommend (s : HybridRecommendationSystem) (user_id : string)
    (user_liked_items : list string) (n_recommendations : Z)
    (diversity_boost : Q) : list Recommendation :=
  match combined_scores s user_id user_liked_items n_recommendations diversity_boost with
  | None => []                                  (* logged, [return []] *)
  | Some all_scores =>
      let sorted_recommendations := py_sorted_desc snd all_scores in
      imap (fun i '(item, sc) =>
              {| item_id := item; score := sc; timestamp := clock i |})
           (py_slice_to n_recommendations sorted_recommendations)
  end.

End WithEnvironment.

End Models.


(** ** Python objects: values, dictionaries and the object store *)

(** The values stored under the keys of a recommendation dictionary. *)
Inductive value :=
  | VNone
  | VBool (b : bool)
  | VNum (x : Q)
  | VStr (s : string).

(** The number a value stands for in arithmetic and comparisons
    ([True] and [False] are the integers 1 and 0). *)
Definition num_of (v : value) : option Q :=
  match v with
  | VNum x => Some x
  | VBool b => Some (if b then 1%Q else 0%Q)
  | _ => None
  end.

(** [==] on values: numbers compare by value, strings by content. *)
Definition value_eqb (v w : value) : bool :=
  match num_of v, num_of w with
  | Some x, Some y => Qeq_bool x y
  | None, None =>
      match v, w with
      | VStr s, VStr t => String.eqb s t
      | VNone, VNone => true
      | _, _ => false
      end
  | _, _ => false
  end.

(** A record-like [dict] with string keys. *)
Abbreviation pydict := (gmap string value).

(** [d[k]] where the code goes on to do arithmetic or a numeric comparison
    with it: a missing key ([KeyError]) and a value that is not a number
    ([TypeError]) both raise. *)
Definition get_num (d : pydict) (k : string) : option Q := d !! k ≫= num_of.

(** Dictionaries are objects: they live in a store and are referred to by
    address, so that two lists holding the same dictionary see each other's
    updates.  A Python list of dictionaries is a list of addresses. *)
Abbreviation addr := nat.
Abbreviation heap := (list pydict).

(** [d.copy()]: a fresh object with the same items. *)
Definition heap_alloc (h : heap) (d : pydict) : heap * addr := (h ++ [d], length h).

(** [obj[k] = v] on the object at address [a]. *)
Definition heap_set (a : addr) (k : string) (v : value) (h : heap) : heap :=
  alter (insert k v) a h.

(** The numeric field [k] of the object at [a], once it is known to be there. *)
Definition num_field (h : heap) (k : string) (a : addr) : Q :=
  default 0%Q (d ← h !! a; get_num d k).

(** What a call leaves behind: the list it returns, the contents of the
    caller's [recommendations] list object after the call, the object store,
    and whether the blanket handler ran. *)
Record outcome := {
  returned : list addr;
  caller_list : list addr;
  store : heap;
  raised : bool;
}.

(** Track and artist metadata are read-only reference data; a key that may
    be absent is an [option] field. *)
Record TrackInfo := {
  track_artist_id : option string;
  track_popularity : option Q;
  track_genres : option (list string);
  track_features : gmap string Q;
}.

Record ArtistInfo := {
  artist_popularity : option Q;
  artist_genres : option (list string);
}.

Definition no_track_info : TrackInfo :=
  {| track_artist_id := None; track_popularity := None;
     track_genres := None; track_features := ∅ |}.

Definition no_artist_info : ArtistInfo :=
  {| artist_popularity := None; artist_genres := None |}.

(** [track_metadata.get(item_id, {})]: the metadata is keyed by strings, so
    an id of another type finds nothing. *)
Definition track_get (track_metadata : gmap string TrackInfo) (item : value) : TrackInfo :=
  match item with
  | VStr s => default no_track_info (track_metadata !! s)
  | _ => no_track_info
  end.

(** ** [src/ml/debiasing.py] *)

Module Debiasing.

Record PopularityDebiaser := {
  debiasing_strength : Q;
  popularity_stats : gmap string Q;
}.

Record FairnessConstraintEnforcer := {
  min_niche_ratio : Q;
  min_diverse_genres : Z;
  artist_stats : gmap string (list string);
}.

(** A user profile as [_build_user_profile] leaves it ([{}] when it failed):
    the keys of the genre counter, the mean popularity and the mean of each
    audio feature. *)
Record UserProfile := {
  preferred_genres : option (list string);
  avg_popularity : option Q;
  audio_preferences : option (gmap string Q);
}.

Record DiversityInjector := {
  diversity_strength : Q;
  user_profiles : gmap string UserProfile;
}.

(** *** PopularityDebiaser *)

Section WithExp.
(** [np.exp] on floats. *)
Variable np_exp : Q -> Q.

Definition _calculate_popularity_penalty (self : PopularityDebiaser) (popularity : Q) : Q :=
  default 0%Q                                       (* KeyError, handled *)
    (pop_max ← popularity_stats self !! "max";
     pop_min ← popularity_stats self !! "min";
     let pop_range := (pop_max - pop_min)%Q in
     let normalized_pop :=
       if Qlt_le_dec 0 pop_range then ((popularity - pop_min) / pop_range)%Q
       else (1 # 2)%Q in
     Some (1 / (1 + np_exp (- (10) * (normalized_pop - (1 # 2)))))%Q).

(** One iteration of the loop of [debias_scores]: the copy of [rec] with its
    three new fields is allocated and its address appended. *)
Definition debias_one (self : PopularityDebiaser) (track_metadata : gmap string TrackInfo)
    (st : heap * list addr) (a : addr) : option (heap * list addr) :=
  let '(h, debiased_recommendations) := st in
  rec ← h !! a;
  item ← rec !! "item_id";
  original_score ← get_num rec "score";
  let track_info := track_get track_metadata item in
  mean ← popularity_stats self !! "mean";
  let popularity := default mean (track_popularity track_info) in
  let popularity_penalty := _calculate_popularity_penalty self popularity in
  let debiased_score :=
    (original_score * (1 - debiasing_strength self * popularity_penalty))%Q in
  let debiased_rec :=
    <["popularity_penalty" := VNum popularity_penalty]>
      (<["original_score" := VNum original_score]>
         (<["score" := VNum debiased_score]> rec)) in
  let '(h', a') := heap_alloc h debiased_rec in
  Some (h', debiased_recommendations ++ [a']).

Definition debias_scores (self : PopularityDebiaser) (h : heap)
    (recommendations : list addr) (track_metadata : gmap string TrackInfo) : outcome :=
  match foldl (fun st a => st ← st; debias_one self track_metadata st a)
              (Some (h, [])) recommendations with
  | Some (h', debiased_recommendations) =>
      {| returned := py_sorted_desc (num_field h' "score") debiased_recommendations;
         caller_list := recommendations; store := h'; raised := false |}
  | None =>
      {| returned := recommendations;
         caller_list := recommendations; store := h; raised := true |}
  end.

End WithExp.

(** *** FairnessConstraintEnforcer *)

(** The violations dictionary: the deficit of each violated constraint. *)
Record violations := {
  insufficient_niche : option Q;
  insufficient_genre_diversity : option Z;
}.

Definition _check_fairness_violations (self : FairnessConstraintEnforcer)
    (current_artists : list string) (current_genres : gset string) : violations :=
  let niche_artists : gset string :=
    list_to_set current_artists ∩ list_to_set (default [] (artist_stats self !! "niche")) in
  let niche_ratio :=
    match current_artists with
    | [] => 0%Q
    | _ => (inject_Z (Z.of_nat (size niche_artists))
            / inject_Z (Z.of_nat (length current_artists)))%Q
    end in
  {| insufficient_niche :=
       if Qlt_le_dec niche_ratio (min_niche_ratio self)
       then Some (min_niche_ratio self - niche_ratio)%Q else None;
     insufficient_genre_diversity :=
       if (Z.of_nat (size current_genres) <? min_diverse_genres self)%Z
       then Some (min_diverse_genres self - Z.of_nat (size current_genres))%Z else None |}.

(** [artist_id in self.artist_stats.get('mainstream', [])] for the track of
    the object at [a]; [None] when [rec['item_id']] raises. *)
Definition is_mainstream (self : FairnessConstraintEnforcer)
    (track_metadata : gmap string TrackInfo) (h : heap) (a : addr) : option bool :=
  rec ← h !! a;
  item ← rec !! "item_id";
  Some match track_artist_id (track_get track_metadata item) with
       | Some artist => bool_decide (artist ∈ default [] (artist_stats self !! "mainstream"))
       | None => false
       end.

Definition _apply_fairness_corrections (self : FairnessConstraintEnforcer) (h : heap)
    (recommendations : list addr) (v : violations)
    (track_metadata : gmap string TrackInfo) : list addr * heap :=
  let corrected_recommendations := recommendations in      (* a shallow copy *)
  match insufficient_niche v with
  | Some deficit =>
      let items_to_replace :=
        py_int (inject_Z (Z.of_nat (length recommendations)) * deficit) in
      match mapM (fun '(i, a) => b ← is_mainstream self track_metadata h a; Some (i, b))
                 (py_enumerate corrected_recommendations) with
      | None => (recommendations, h)                        (* handled *)
      | Some flags =>
          let mainstream_indices := (List.filter snd flags).*1 in
          (corrected_recommendations,
           foldl (fun h i =>
                    match corrected_recommendations !! i with
                    | Some a => heap_set a "needs_niche_replacement" (VBool true) h
                    | None => h
                    end)
                 h (py_slice_to items_to_replace mainstream_indices))
      end
  | None => (corrected_recommendations, h)
  end.

(** What the corrections may do to a dictionary: nothing, or set the flag. *)
Definition flagged (d d' : pydict) : Prop :=
  d' = d \/ d' = <["needs_niche_replacement" := VBool true]> d.

(** The artists and genres collected by the first loop of [enforce_fairness]. *)
Definition current_artist (track_metadata : gmap string TrackInfo) (h : heap) (a : addr)
    : option (option string) :=
  rec ← h !! a;
  item ← rec !! "item_id";
  Some match track_artist_id (track_get track_metadata item) with
       | Some artist => if String.eqb artist "" then None else Some artist
       | None => None
       end.

Definition enforce_fairness (self : FairnessConstraintEnforcer) (h : heap)
    (recommendations : list addr) (track_metadata : gmap string TrackInfo)
    (artist_metadata : gmap string ArtistInfo) : outcome :=
  match mapM (current_artist track_metadata h) recommendations with
  | None =>
      {| returned := recommendations; caller_list := recommendations;
         store := h; raised := true |}
  | Some artists =>
      let current_artists := omap (fun artist => artist) artists in
      let current_genres : gset string :=
        list_to_set
          (current_artists ≫= fun artist =>
             default [] (artist_genres (default no_artist_info (artist_metadata !! artist)))) in
      let v := _check_fairness_violations self current_artists current_genres in
      match insufficient_niche v, insufficient_genre_diversity v with
      | None, None =>
          {| returned := recommendations; caller_list := recommendations;
             store := h; raised := false |}
      | _, _ =>
          let '(corrected_recommendations, h') :=
            _apply_fairness_corrections self h recommendations v track_metadata in
          {| returned := corrected_recommendations; caller_list := recommendations;
             store := h'; raised := false |}
      end
  end.

(** *** DiversityInjector *)

Definition audio_features : list string :=
  ["danceability"; "energy"; "valence"; "acousticness"].

Definition _calculate_diversity_score (candidate : pydict) (user_profile : UserProfile)
    (track_metadata : gmap string TrackInfo) : Q :=
  default 0%Q                                       (* KeyError, handled *)
    (item ← candidate !! "item_id";
     let track_info := track_get track_metadata item in
     let track_genres : gset string := list_to_set (default [] (track_genres track_info)) in
     let user_genres : gset string :=
       list_to_set (default [] (preferred_genres user_profile)) in
     let genre_part :=
       if negb (bool_decide (track_genres = ∅)) && negb (bool_decide (user_genres = ∅)) then
         let genre_overlap :=
           (inject_Z (Z.of_nat (size (track_genres ∩ user_genres)))
            / inject_Z (Z.of_nat (size (track_genres ∪ user_genres))))%Q in
         ((1 - genre_overlap) * (4 # 10))%Q
       else 0%Q in
     let track_popularity := default 0%Q (track_popularity track_info) in
     let user_avg_popularity := default 0%Q (avg_popularity user_profile) in
     let popularity_diff := (Qabs (track_popularity - user_avg_popularity) / 100)%Q in
     let feature_diffs :=
       omap (fun feature =>
               track_value ← track_features track_info !! feature;
               user_mean ← default ∅ (audio_preferences user_profile) !! feature;
               Some (Qabs (track_value - user_mean)))
            audio_features in
     let audio_part :=
       match feature_diffs with
       | [] => 0%Q
       | _ => (foldl Qplus 0 feature_diffs
               / inject_Z (Z.of_nat (length feature_diffs)) * (3 # 10))%Q
       end in
     Some (0 + genre_part + popularity_diff * (3 # 10) + audio_part)%Q).

(** One iteration of the loop over [candidate_pool]: a candidate that is not
    recommended yet is copied, scored and appended. *)
Definition diversity_candidate (user_profile : UserProfile)
    (track_metadata : gmap string TrackInfo) (recommended_ids : list value)
    (st : heap * list addr) (c : addr) : option (heap * list addr) :=
  let '(h, diversity_candidates) := st in
  candidate ← h !! c;
  item ← candidate !! "item_id";
  if existsb (value_eqb item) recommended_ids then Some (h, diversity_candidates)
  else
    let diversity_score := _calculate_diversity_score candidate user_profile track_metadata in
    let '(h', c') :=
      heap_alloc h (<["diversity_score" := VNum diversity_score]> candidate) in
    Some (h', diversity_candidates ++ [c']).

(** The loop that stores [combined_score] into every entry.  It writes
    through the addresses, so the entries it has visited stay updated when a
    later entry raises; the flag is [false] in that case. *)
Fixpoint set_combined_scores (strength : Q) (h : heap) (l : list addr) : heap * bool :=
  match l with
  | [] => (h, true)
  | a :: l' =>
      match (rec ← h !! a;
             combined ←
               match rec !! "diversity_score" with
               | Some _ =>
                   sc ← get_num rec "score";
                   dv ← get_num rec "diversity_score";
                   Some (VNum (sc + dv * strength))
               | None => rec !! "score"
               end;
             Some (heap_set a "combined_score" combined h)) with
      | Some h' => set_combined_scores strength h' l'
      | None => (h, false)
      end
  end.

Definition inject_diversity (self : DiversityInjector) (user_id : string) (h : heap)
    (recommendations candidate_pool : list addr)
    (track_metadata : gmap string TrackInfo) : outcome :=
  let unchanged (exc : bool) (h : heap) :=
    {| returned := recommendations; caller_list := recommendations;
       store := h; raised := exc |} in
  match user_profiles self !! user_id with
  | None => unchanged false h
  | Some user_profile =>
      match (recommended_ids ← mapM (fun a => rec ← h !! a; rec !! "item_id") recommendations;
             foldl (fun st c =>
                      st ← st;
                      diversity_candidate user_profile track_metadata recommended_ids st c)
                   (Some (h, [])) candidate_pool) with
      | None => unchanged true h
      | Some (h1, diversity_candidates) =>
          let diversity_candidates :=
            py_sorted_desc (num_field h1 "diversity_score") diversity_candidates in
          let n_replacements :=
            py_int (inject_Z (Z.of_nat (length recommendations)) * diversity_strength self) in
          (* recommendations.sort(key=lambda x: x['score']): the keys are
             computed before the list is touched *)
          match mapM (fun a => rec ← h1 !! a; get_num rec "score") recommendations with
          | None => unchanged true h1
          | Some _ =>
              let sorted_in_place := py_sorted_asc (num_field h1 "score") recommendations in
              let diverse_recommendations :=
                py_slice_from n_replacements sorted_in_place
                ++ py_slice_to n_replacements diversity_candidates in
              match set_combined_scores (diversity_strength self) h1 diverse_recommendations with
              | (h2, true) =>
                  {| returned :=
                       py_sorted_desc (num_field h2 "combined_score") diverse_recommendations;
                     caller_list := sorted_in_place; store := h2; raised := false |}
              | (h2, false) =>
                  (* except: return recommendations -- the list sorted above *)
                  {| returned := sorted_in_place;
                     caller_list := sorted_in_place; store := h2; raised := true |}
              end
          end
      end
  end.

(** [calculate_diversity_scores]: a score from the hash of the item id. *)
Definition calculate_diversity_scores (py_hash : string -> Z) (item_ids : list string)
    : odict :=
  foldl (fun diversity_scores item =>
           let hash_value := (py_hash item mod 1000)%Z in
           od_set item (inject_Z hash_value / 1000)%Q diversity_scores)
        [] item_ids.

End Debiasing.

(** The arithmetic of [PopularityDebiaser._calculate_popularity_penalty] and
    of the score update of [debias_scores], over the reals with the real
    exponential, for a debiaser whose statistics have been fitted. *)
Module DebiasingReal.

Definition _calculate_popularity_penalty (pop_min pop_max popularity : R) : R :=
  let pop_range := (pop_max - pop_min)%R in
  let normalized_pop :=
    if Rlt_dec 0 pop_range then ((popularity - pop_min) / pop_range)%R else (1 / 2)%R in
  (1 / (1 + exp (- 10 * (normalized_pop - 1 / 2))))%R.

Definition debiased_score (debiasing_strength pop_min pop_max : R)
    (original_score popularity : R) : R :=
  (original_score
   * (1 - debiasing_strength * _calculate_popularity_penalty pop_min pop_max popularity))%R.

End DebiasingReal.

(** ** [src/ml/evaluation.py] *)

Module Evaluation.

(** [{rec['item_id'] for rec in l}] as the list of its distinct members. *)
Definition py_set (l : list value) : list value :=
  foldl (fun acc v => if existsb (value_eqb v) acc then acc else acc ++ [v]) [] l.

(** The insertion-ordered dictionary [ground_truth_ids] from item id to rating. *)
Fixpoint vd_get (k : value) (d : list (value * Q)) : option Q :=
  match d with
  | [] => None
  | (k', v) :: d' => if value_eqb k k' then Some v else vd_get k d'
  end.

Fixpoint vd_set (k : value) (v : Q) (d : list (value * Q)) : list (value * Q) :=
  match d with
  | [] => [(k, v)]
  | (k', v') :: d' =>
      if value_eqb k k' then (k', v) :: d' else (k', v') :: vd_set k v d'
  end.

(** [math.log2] *)
Definition log2 (x : R) : R := (ln x / ln 2)%R.

(** [sum(rel / math.log2(i + 2) for i, rel in enumerate(rels))] *)
Definition discounted_sum (rels : list (nat * R)) : R :=
  foldl (fun acc '(i, rel) => (acc + rel / log2 (INR i + 2))%R) 0%R rels.

(** [gt.get('rating', 1)], a number *)
Definition rating_of (gt : pydict) : option Q :=
  match gt !! "rating" with
  | None => Some 1%Q
  | Some v => num_of v
  end.

(** [{gt['item_id']: gt.get('rating', 1) for gt in ground_truth}], from the
    (item id, rating) pairs of the ground truth: a later rating of the same
    item overwrites the earlier one. *)
Definition ground_truth_dict (entries : list (value * Q)) : list (value * Q) :=
  foldl (fun d '(item, rating) => vd_set item rating d) [] entries.

(** The part of [_calculate_ndcg] that reads the dictionaries: the relevance
    [ground_truth_ids.get(rec['item_id'], 0)] of each of the first [k]
    recommendations, and [ideal_relevances]; [None] when a lookup raises or a
    rating is not a number. *)
Definition relevance_lists (recommendations ground_truth : list pydict) (k : Z)
    : option (list Q * list Q) :=
  entries ← mapM (fun gt => item ← gt !! "item_id";
                            rating ← rating_of gt;
                            Some (item, rating)) ground_truth;
  let ground_truth_ids := ground_truth_dict entries in
  rec_ids ← mapM (fun rec => rec !! "item_id") (py_slice_to k recommendations);
  Some ((fun item => default 0%Q (vd_get item ground_truth_ids)) <$> rec_ids,
        py_slice_to k (py_sorted_desc (fun rel => rel) ground_truth_ids.*2)).

(** The loop that accumulates [dcg]: only positive relevances contribute. *)
Definition dcg_of (relevances : list (nat * Q)) : R :=
  foldl (fun dcg '(i, relevance) =>
           if Qlt_le_dec 0 relevance
           then (dcg + Q2R relevance / log2 (INR i + 2))%R else dcg)
        0%R relevances.

Definition _calculate_ndcg (recommendations ground_truth : list pydict) (k : Z) : R :=
  match relevance_lists recommendations ground_truth k with
  | None => 0%R                                     (* handled, [return 0.0] *)
  | Some (relevances, ideal_relevances) =>
      let dcg := dcg_of (py_enumerate relevances) in
      let idcg := discounted_sum (py_enumerate (Q2R <$> ideal_relevances)) in
      if Rlt_dec 0 idcg then (dcg / idcg)%R else 0%R
  end.

(** No two of the ids are equal ([==]). *)
Fixpoint distinct_ids (ids : list value) : bool :=
  match ids with
  | [] => true
  | x :: ids' => negb (existsb (value_eqb x) ids') && distinct_ids ids'
  end.

(** The dictionary returned by [_calculate_accuracy_metrics]; the three
    counts are present only on the path that computes them. *)
Record AccuracyMetrics := {
  precision : Q;
  recall : Q;
  f1 : Q;
  ndcg : R;
  counts : option (nat * nat * nat);
}.

Definition _calculate_accuracy_metrics (recommendations ground_truth : list pydict)
    : option AccuracyMetrics :=
  match ground_truth with
  | [] => Some {| precision := 0; recall := 0; f1 := 0; ndcg := 0; counts := None |}
  | _ =>
      recommended_ids ← py_set <$> mapM (fun rec => rec !! "item_id") recommendations;
      ground_truth_ids ← py_set <$> mapM (fun gt => gt !! "item_id") ground_truth;
      let true_positives :=
        length (List.filter (fun v => existsb (value_eqb v) ground_truth_ids)
                  recommended_ids) in
      let ratio (a b : nat) := (inject_Z (Z.of_nat a) / inject_Z (Z.of_nat b))%Q in
      let precision :=
        match recommended_ids with
        | [] => 0%Q
        | _ => ratio true_positives (length recommended_ids)
        end in
      let recall :=
        match ground_truth_ids with
        | [] => 0%Q
        | _ => ratio true_positives (length ground_truth_ids)
        end in
      let f1 :=
        if Qlt_le_dec 0 (precision + recall)
        then (2 * (precision * recall) / (precision + recall))%Q else 0%Q in
      Some {| precision := precision; recall := recall; f1 := f1;
              ndcg := _calculate_ndcg recommendations ground_truth 10;
              counts := Some (true_positives, length recommended_ids,
                              length ground_truth_ids) |}
  end.

Definition _calculate_gini_coefficient (values : list Q) : Q :=
  match values with
  | [] | [_] => 0%Q
  | _ =>
      let sorted_values := py_sorted_asc (fun y => y) values in
      let n := inject_Z (Z.of_nat (length sorted_values)) in
      let weighted :=
        foldl (fun acc '(i, y) => (acc + (n + 1 - inject_Z (Z.of_nat i)) * y)%Q)
              0%Q (py_enumerate sorted_values) in
      let total := foldl Qplus 0%Q sorted_values in
      if Qeq_bool (n * total) 0 then 0%Q            (* ZeroDivisionError, handled *)
      else ((n + 1 - 2 * weighted) / (n * total))%Q
  end.

(** [evaluation_results.get(section, {}).get(key, 0)], a number *)
Definition metric (evaluation_results : gmap string pydict) (section key : string)
    : option Q :=
  match default ∅ (evaluation_results !! section) !! key with
  | None => Some 0%Q
  | Some v => num_of v
  end.

Record QualityScore := {
  overall_score : Q;
  component_scores : gmap string Q;
  weights : gmap string Q;
}.

Definition quality_weights : gmap string Q :=
  {[ "accuracy" := 3 # 10; "diversity" := 25 # 100; "novelty" := 2 # 10;
     "coverage" := 15 # 100; "bias_penalty" := 1 # 10 ]}.

(** The weighted sum before it is clipped to the unit interval. *)
Definition weighted_quality (accuracy_score diversity_score novelty_score
    coverage_score bias_score : Q) : Q :=
  (accuracy_score * (3 # 10) + diversity_score * (25 # 100) + novelty_score * (2 # 10)
   + coverage_score * (15 # 100) - bias_score * (1 # 10))%Q.

Definition _calculate_overall_quality_score (evaluation_results : gmap string pydict)
    : option QualityScore :=
  accuracy_score ← metric evaluation_results "accuracy" "f1";
  diversity_score ← metric evaluation_results "diversity" "intra_list_diversity";
  novelty_score ← metric evaluation_results "novelty" "combined_novelty";
  coverage_score ← metric evaluation_results "coverage" "genre_coverage";
  bias_score ← metric evaluation_results "bias" "overall_bias_score";
  let quality_score :=
    weighted_quality accuracy_score diversity_score novelty_score coverage_score bias_score in
  let quality_score := Qmax 0 (Qmin 1 quality_score) in
  Some {| overall_score := quality_score;
          component_scores :=
            {[ "accuracy" := accuracy_score; "diversity" := diversity_score;
               "novelty" := novelty_score; "coverage" := coverage_score;
               "bias_penalty" := bias_score ]};
          weights := quality_weights |}.

End Evaluation.

(** ** [src/ml/debiasing.py]: fitting the fairness enforcer and the injector *)

Module DebiasingFit.

(** The dictionary [artist_popularity] that the first loop of
    [FairnessConstraintEnforcer.fit] builds.  The frame [tracks_df] is given
    by the [artist_id] of its rows, in row order ([None] for a row without
    one); an artist is recorded when its id is truthy and a key of
    [artist_metadata], under the popularity [artist_info.get('popularity', 0)]. *)
Definition artist_popularity_table (tracks_df : list (option string))
    (artist_metadata : gmap string ArtistInfo) : odict :=
  foldl (fun table artist_id =>
           match artist_id with
           | Some aid =>
               if String.eqb aid "" then table
               else match artist_metadata !! aid with
                    | Some artist_info =>
                        od_set aid (default 0%Q (artist_popularity artist_info)) table
                    | None => table
                    end
           | None => table
           end)
        [] tracks_df.

(** What [fit] records about an artist: the popularity of its metadata entry. *)
Definition recorded (artist_metadata : gmap string ArtistInfo) (aid : string) (pop : Q)
    : Prop :=
  aid <> "" /\ exists artist_info,
    artist_metadata !! aid = Some artist_info
    /\ pop = default 0%Q (artist_popularity artist_info).

(** [[aid for aid, pop in artist_popularity.items() if in_tier(pop)]] *)
Definition tier (in_tier : Q -> bool) (table : odict) : list string :=
  (List.filter (fun entry => in_tier entry.2) table).*1.

(** [FairnessConstraintEnforcer.fit], as far as [artist_stats] goes
    ([genre_stats] is written here and read nowhere). *)
Definition fit (self : Debiasing.FairnessConstraintEnforcer)
    (tracks_df : list (option string)) (artist_metadata : gmap string ArtistInfo)
    : Debiasing.FairnessConstraintEnforcer :=
  let table := artist_popularity_table tracks_df artist_metadata in
  {| Debiasing.min_niche_ratio := Debiasing.min_niche_ratio self;
     Debiasing.min_diverse_genres := Debiasing.min_diverse_genres self;
     Debiasing.artist_stats :=
       {[ "niche" := tier (fun pop => negb (Qle_bool 30 pop)) table;
          "emerging" := tier (fun pop => Qle_bool 30 pop && negb (Qle_bool 60 pop)) table;
          "established" :=
            tier (fun pop => Qle_bool 60 pop && negb (Qle_bool 80 pop)) table;
          "mainstream" := tier (fun pop => Qle_bool 80 pop) table ]} |}.

(** [Counter(l)]: the number of occurrences of each element, in the order of
    first occurrence. *)
Definition Counter (l : list string) : odict :=
  foldl (fun counts x => od_set x (default 0%Q (od_get x counts) + 1)%Q counts) [] l.

(** [DiversityInjector._calculate_genre_distribution]: the share of each
    genre among all genre mentions of [tracks]. *)
Definition _calculate_genre_distribution (tracks : list TrackInfo) : odict :=
  let all_genres := tracks ≫= fun track => default [] (track_genres track) in
  let genre_counts := Counter all_genres in
  let total_genres := foldl Qplus 0%Q genre_counts.*2 in
  (fun '(genre, count) => (genre, (count / total_genres)%Q)) <$> genre_counts.

End DebiasingFit.

(** ** [src/ml/evaluation.py]: coverage and serendipity *)

Module EvaluationMetrics.

(** The dictionary [popularity_tiers], with its four fixed keys. *)
Record PopularityTiers := {
  niche : Q;
  emerging : Q;
  popular : Q;
  mainstream : Q;
}.

(** The dictionary returned by [_calculate_coverage_metrics]. *)
Record CoverageMetrics := {
  genre_coverage : Q;
  covered_genres : nat;
  total_possible_genres : nat;
  popularity_tier_coverage : PopularityTiers;
}.

(** [set(track_info.get('genres', []))] *)
Definition genres_of (track_info : TrackInfo) : gset string :=
  list_to_set (default [] (track_genres track_info)).

(** One iteration of the loop that counts the popularity tiers. *)
Definition count_tier (popularity_tiers : PopularityTiers) (track_info : TrackInfo)
    : PopularityTiers :=
  let popularity := default 0%Q (track_popularity track_info) in
  let '{| niche := n; emerging := e; popular := p; mainstream := m |} :=
    popularity_tiers in
  if negb (Qle_bool 30 popularity)
  then {| niche := n + 1; emerging := e; popular := p; mainstream := m |}
  else if negb (Qle_bool 60 popularity)
  then {| niche := n; emerging := e + 1; popular := p; mainstream := m |}
  else if negb (Qle_bool 80 popularity)
  then {| niche := n; emerging := e; popular := p + 1; mainstream := m |}
  else {| niche := n; emerging := e; popular := p; mainstream := m + 1 |}.

Definition _calculate_coverage_metrics (recommendations : list pydict)
    (track_metadata : gmap string TrackInfo) : option CoverageMetrics :=
  let all_possible_genres : gset string :=
    ⋃ (genres_of <$> (map_to_list track_metadata).*2) in
  items ← mapM (fun rec => rec !! "item_id") recommendations;      (* KeyError *)
  let track_infos := track_get track_metadata <$> items in
  let recommended_genres : gset string := ⋃ (genres_of <$> track_infos) in
  let genre_coverage :=
    if bool_decide (all_possible_genres = ∅) then 0%Q
    else (inject_Z (Z.of_nat (size recommended_genres))
          / inject_Z (Z.of_nat (size all_possible_genres)))%Q in
  let popularity_tiers :=
    foldl count_tier {| niche := 0; emerging := 0; popular := 0; mainstream := 0 |}
      track_infos in
  let total_recs := inject_Z (Z.of_nat (length recommendations)) in
  let popularity_tiers :=
    match recommendations with
    | [] => popularity_tiers
    | _ => {| niche := niche popularity_tiers / total_recs;
              emerging := emerging popularity_tiers / total_recs;
              popular := popular popularity_tiers / total_recs;
              mainstream := mainstream popularity_tiers / total_recs |}
    end in
  Some {| genre_coverage := genre_coverage;
          covered_genres := size recommended_genres;
          total_possible_genres := size all_possible_genres;
          popularity_tier_coverage := popularity_tiers |}.

(** The serendipity score of one recommended track: unexpectedness times an
    assumed relevance. *)
Definition serendipity_score (user_genres : gset string) (user_avg_popularity : Q)
    (track_info : TrackInfo) : Q :=
  let track_genres := genres_of track_info in
  let genre_overlap :=
    if bool_decide (user_genres ∪ track_genres = ∅) then 0%Q
    else (inject_Z (Z.of_nat (size (user_genres ∩ track_genres)))
          / inject_Z (Z.of_nat (size (user_genres ∪ track_genres))))%Q in
  let genre_unexpectedness := (1 - genre_overlap)%Q in
  let track_popularity := default 0%Q (track_popularity track_info) in
  let popularity_diff := (Qabs (track_popularity - user_avg_popularity) / 100)%Q in
  let unexpectedness := ((genre_unexpectedness + popularity_diff) / 2)%Q in
  let relevance := (1 - unexpectedness * (1 # 2))%Q in
  (unexpectedness * relevance)%Q.

(** [_calculate_serendipity_metrics]: the pair of [avg_serendipity] and
    [serendipity_scores]. *)
Definition _calculate_serendipity_metrics (recommendations : list pydict)
    (track_metadata : gmap string TrackInfo) (user_profile : Debiasing.UserProfile)
    : option (Q * list Q) :=
  let user_genres : gset string :=
    list_to_set (default [] (Debiasing.preferred_genres user_profile)) in
  let user_avg_popularity := default 50%Q (Debiasing.avg_popularity user_profile) in
  items ← mapM (fun rec => rec !! "item_id") recommendations;      (* KeyError *)
  let serendipity_scores :=
    (fun item => serendipity_score user_genres user_avg_popularity
                   (track_get track_metadata item)) <$> items in
  let avg_serendipity :=
    match serendipity_scores with
    | [] => 0%Q
    | _ => (foldl Qplus 0 serendipity_scores
            / inject_Z (Z.of_nat (length serendipity_scores)))%Q
    end in
  Some (avg_serendipity, serendipity_scores).

End EvaluationMetrics.

(** ** [src/ml/models.py]: exploration *)

Module Exploration.

Record ExplorationStrategy := {
  strategy : string;
  epsilon : Q;
}.

(** [rec['item_id']] for the dictionary at [a] *)
Definition item_id_of (h : heap) (a : addr) : option value :=
  rec ← h !! a; rec !! "item_id".

Section WithRandom.

(** The product of two floats, that is the exact product rounded to a
    double; [np.random.choice(candidates, size=size, replace=False)]; and the
    successive draws of [np.random.normal(0, 0.1)]. *)
Variable py_float_mul : Q -> Q -> Q.
Variable np_random_choice : list addr -> nat -> list addr.
Variable np_random_normal : nat -> Q.

Definition _epsilon_greedy_exploration (self : ExplorationStrategy) (h : heap)
    (recommendations candidate_pool : list addr) : option (list addr) :=
  let n_explore :=
    py_int (py_float_mul (inject_Z (Z.of_nat (length recommendations))) (epsilon self)) in
  let n_exploit := (Z.of_nat (length recommendations) - n_explore)%Z in
  let final_recommendations := py_slice_to n_exploit recommendations in
  match candidate_pool with
  | [] => Some final_recommendations
  | _ =>
      if (0 <? n_explore)%Z then
        recommended_ids ← mapM (item_id_of h) recommendations;
        pool_ids ← mapM (fun c => item ← item_id_of h c; Some (c, item)) candidate_pool;
        let exploration_candidates :=
          (List.filter (fun '(c, item) => negb (existsb (value_eqb item) recommended_ids))
             pool_ids).*1 in
        match exploration_candidates with
        | [] => Some final_recommendations
        | _ =>
            let exploration_items :=
              np_random_choice exploration_candidates
                (Nat.min (Z.to_nat n_explore) (length exploration_candidates)) in
            Some (final_recommendations ++ exploration_items)
        end
      else Some final_recommendations
  end.

(** The loop of [_thompson_sampling_exploration] that stores
    [exploration_score]; [draw] counts the random draws made so far.  The
    flag is [false] when [rec['score']] raised. *)
Fixpoint add_uncertainty (h : heap) (draw : nat) (l : list addr) : heap * bool :=
  match l with
  | [] => (h, true)
  | a :: l' =>
      match (rec ← h !! a; get_num rec "score") with
      | Some score =>
          let uncertainty := np_random_normal draw in
          add_uncertainty
            (heap_set a "exploration_score" (VNum (score + uncertainty)) h) (S draw) l'
      | None => (h, false)
      end
  end.

(** [apply_exploration], with the two strategies it dispatches to. *)
Definition apply_exploration (self : ExplorationStrategy) (h : heap)
    (recommendations candidate_pool : list addr) : outcome :=
  let unchanged (exc : bool) (h : heap) :=
    {| returned := recommendations; caller_list := recommendations;
       store := h; raised := exc |} in
  if String.eqb (strategy self) "epsilon_greedy" then
    match _epsilon_greedy_exploration self h recommendations candidate_pool with
    | Some final_recommendations =>
        {| returned := final_recommendations; caller_list := recommendations;
           store := h; raised := false |}
    | None => unchanged true h
    end
  else if String.eqb (strategy self) "thompson_sampling" then
    match add_uncertainty h 0 recommendations with
    | (h1, true) =>
        (* recommendations.sort(...): in place, and the same list is returned *)
        let sorted_in_place :=
          py_sorted_desc (num_field h1 "exploration_score") recommendations in
        {| returned := sorted_in_place; caller_list := sorted_in_place;
           store := h1; raised := false |}
    | (h1, false) => unchanged true h1
    end
  else unchanged false h.

End WithRandom.

End Exploration.

(** ** [src/ml/debiasing.py]: the corrections of the adversarial debiaser *)

Module Adversarial.

(** The sort key [x.get('popularity', 0)] of the dictionary at [a], when it
    is a number. *)
Definition popularity_key (h : heap) (a : addr) : option Q :=
  rec ← h !! a;
  match rec !! "popularity" with
  | None => Some 0%Q
  | Some v => num_of v
  end.

(** The loop over [range(n_replace)], given the entries it visits: each is
    flagged and its score multiplied by 0.7.  The flag is written before
    [rec['score']] is read, so it stays when that raises; the result flag is
    [false] in that case. *)
Fixpoint mark_for_correction (h : heap) (l : list addr) : heap * bool :=
  match l with
  | [] => (h, true)
  | a :: l' =>
      let h1 := heap_set a "needs_bias_correction" (VBool true) h in
      match (rec ← h1 !! a; get_num rec "score") with
      | Some score => mark_for_correction (heap_set a "score" (VNum (score * (7 # 10))) h1) l'
      | None => (h1, false)
      end
  end.

(** [AdversarialDebiaser._apply_bias_corrections].  Both sorts are in place,
    on the caller's list.  The embedding covers sort keys that are numbers:
    [None] stands for a list whose popularities or scores include a value
    that is not a number, where Python compares the keys themselves and the
    order it leaves behind when a comparison raises is unspecified.  A
    missing [score], a [KeyError], is covered: the handler returns the list
    as the first sort left it. *)
Definition _apply_bias_corrections (h : heap) (recommendations : list addr)
    : option outcome :=
  _ ← mapM (popularity_key h) recommendations;
  let by_popularity :=
    py_sorted_desc (fun a => default 0%Q (popularity_key h a)) recommendations in
  let n_replace :=
    py_int (inject_Z (Z.of_nat (length recommendations)) * (3 # 10)) in
  let handled (h : heap) :=
    {| returned := by_popularity; caller_list := by_popularity;
       store := h; raised := true |} in
  match mark_for_correction h (py_slice_to n_replace by_popularity) with
  | (h1, false) => Some (handled h1)
  | (h1, true) =>
      match mapM (fun a => rec ← h1 !! a; rec !! "score") by_popularity with
      | None => Some (handled h1)                      (* KeyError in the key *)
      | Some _ =>
          _ ← mapM (fun a => rec ← h1 !! a; get_num rec "score") by_popularity;
          let by_score := py_sorted_desc (num_field h1 "score") by_popularity in
          Some {| returned := by_score; caller_list := by_score;
                  store := h1; raised := false |}
      end
  end.

End Adversarial.

(** ** [src/ml/debiasing.py]: the three summands of the diversity score *)

Module DiversityScore.

(** What [_calculate_diversity_score] adds to [diversity_score] for the
    metadata [track_info] of the candidate's track, summand by summand. *)

(** [genre_diversity * 0.4], added when the track and the user both have
    genres. *)
Definition genre_part (user_profile : Debiasing.UserProfile) (track_info : TrackInfo) : Q :=
  let track_genres : gset string := list_to_set (default [] (track_genres track_info)) in
  let user_genres : gset string :=
    list_to_set (default [] (Debiasing.preferred_genres user_profile)) in
  if negb (bool_decide (track_genres = ∅)) && negb (bool_decide (user_genres = ∅)) then
    let genre_overlap :=
      (inject_Z (Z.of_nat (size (track_genres ∩ user_genres)))
       / inject_Z (Z.of_nat (size (track_genres ∪ user_genres))))%Q in
    ((1 - genre_overlap) * (4 # 10))%Q
  else 0%Q.

(** [popularity_diff * 0.3] *)
Definition popularity_part (user_profile : Debiasing.UserProfile) (track_info : TrackInfo)
    : Q :=
  let track_popularity := default 0%Q (track_popularity track_info) in
  let user_avg_popularity := default 0%Q (Debiasing.avg_popularity user_profile) in
  let popularity_diff := (Qabs (track_popularity - user_avg_popularity) / 100)%Q in
  (popularity_diff * (3 # 10))%Q.

(** [audio_diversity * 0.3], added when some audio feature is known both
    for the track and for the user. *)
Definition audio_part (user_profile : Debiasing.UserProfile) (track_info : TrackInfo) : Q :=
  let feature_diffs :=
    omap (fun feature =>
            track_value ← track_features track_info !! feature;
            user_mean ← default ∅ (Debiasing.audio_preferences user_profile) !! feature;
            Some (Qabs (track_value - user_mean)))
         Debiasing.audio_features in
  match feature_diffs with
  | [] => 0%Q
  | _ => (foldl Qplus 0 feature_diffs
          / inject_Z (Z.of_nat (length feature_diffs)) * (3 # 10))%Q
  end.

End DiversityScore.

(** ** Concrete inputs used by the examples below *)

Module Demo.

(** A stable [argsort]: one admissible behaviour of [np.argsort]. *)
Definition argsort (l : list Q) : list nat :=
  (py_sort (fun x y : nat * Q => Qle_bool x.2 y.2) (py_enumerate l)).*1.

Definition clock (i : nat) : string := "2024-01-01T00:00:00".

Definition default_weights : gmap string Q :=
  {[ "collaborative" := 4 # 10; "content" := 3 # 10;
     "popularity" := 1 # 10; "diversity" := 2 # 10 ]}.

(** Four tracks with audio-feature similarities, and their popularity scores. *)
Definition content : Models.ContentBasedFiltering :=
  {| Models.item_ids := ["a"; "b"; "c"; "d"];
     Models.similarity_matrix :=
       Some [ [1%Q; 9 # 10; 5 # 10; 1 # 10];
              [9 # 10; 1%Q; 4 # 10; 2 # 10];
              [5 # 10; 4 # 10; 1%Q; 7 # 10];
              [1 # 10; 2 # 10; 7 # 10; 1%Q] ] |}.

Definition popularity : Models.PopularityBasedRecommender :=
  {| Models.item_popularity := [("a", 5%Q); ("b", 4%Q); ("c", 4%Q); ("d", 2%Q)] |}.

Definition system : Models.HybridRecommendationSystem :=
  {| Models.weights := default_weights;
     Models.ncf_model := None;
     Models.content_model := content;
     Models.popularity_model := popularity;
     Models.diversity_injector := None;
     Models.user_encoder := [];
     Models.item_encoder := [] |}.

End Demo.

Module EvalDemo.

(** Four artists that appear once each. *)
Definition uniform_counts : list Q := [1%Q; 1%Q; 1%Q; 1%Q].

(** An evaluation whose only non-zero component is the bias score: a single
    fully popular track with no ground truth. *)
Definition biased_results : gmap string pydict :=
  {[ "accuracy" := {[ "f1" := VNum 0 ]};
     "bias" := {[ "overall_bias_score" := VNum 1 ]} ]}.

Definition balanced_results : gmap string pydict :=
  {[ "accuracy" := {[ "f1" := VNum (1 # 2) ]};
     "diversity" := {[ "intra_list_diversity" := VNum (2 # 10) ]};
     "novelty" := {[ "combined_novelty" := VNum (1 # 2) ]};
     "coverage" := {[ "genre_coverage" := VNum (1 # 5) ]};
     "bias" := {[ "overall_bias_score" := VNum (3 # 10) ]} ]}.

End EvalDemo.

Module DebiasDemo.

Definition track (artist : string) (pop : Q) (genres : list string) (dance : Q)
    : TrackInfo :=
  {| track_artist_id := Some artist; track_popularity := Some pop;
     track_genres := Some genres;
     track_features := {[ "danceability" := dance ]} |}.

Definition track_metadata : gmap string TrackInfo :=
  {[ "t1" := track "star" 90 ["pop"] (8 # 10);
     "t2" := track "star" 85 ["pop"] (7 # 10);
     "t3" := track "idol" 88 ["pop"; "dance"] (9 # 10);
     "t4" := track "band" 55 ["rock"] (5 # 10);
     "n1" := track "folk" 12 ["folk"] (2 # 10);
     "n2" := track "jazz" 20 ["jazz"] (3 # 10);
     "n3" := track "drone" 5 ["ambient"] (1 # 10) ]}.

Definition artist_metadata : gmap string ArtistInfo :=
  {[ "star" := {| artist_popularity := Some 92%Q; artist_genres := Some ["pop"] |};
     "idol" := {| artist_popularity := Some 85%Q; artist_genres := Some ["pop"; "dance"] |};
     "band" := {| artist_popularity := Some 50%Q; artist_genres := Some ["rock"] |} ]}.

Definition rec (item : string) (sc : Q) : pydict :=
  {[ "item_id" := VStr item; "score" := VNum sc ]}.

(** The object store: four recommendations in descending score order at
    addresses 0..3, a pool candidate without a score at 4 (a plain track
    dictionary), and three scored candidates at 5..7. *)
Definition objects : heap :=
  [ rec "t1" 4; rec "t2" 3; rec "t3" 2; rec "t4" 1;
    {[ "item_id" := VStr "n1" ]};
    rec "n1" (1 # 2); rec "n2" (1 # 3); rec "n3" (1 # 4) ].

Definition recommendations : list addr := [0; 1; 2; 3]%nat.

Definition profile : Debiasing.UserProfile :=
  {| Debiasing.preferred_genres := Some ["pop"];
     Debiasing.avg_popularity := Some 80%Q;
     Debiasing.audio_preferences := Some {[ "danceability" := 8 # 10 ]} |}.

Definition injector : Debiasing.DiversityInjector :=
  {| Debiasing.diversity_strength := 3 # 10;
     Debiasing.user_profiles := {[ "u" := profile ]} |}.

(** An injector configured to replace more than the whole list. *)
Definition eager_injector : Debiasing.DiversityInjector :=
  {| Debiasing.diversity_strength := 3 # 2;
     Debiasing.user_profiles := {[ "u" := profile ]} |}.

Definition enforcer : Debiasing.FairnessConstraintEnforcer :=
  {| Debiasing.min_niche_ratio := 3 # 10;
     Debiasing.min_diverse_genres := 3;
     Debiasing.artist_stats :=
       {[ "niche" := ["folk"; "drone"]; "emerging" := ["band"];
          "established" := []; "mainstream" := ["star"; "idol"] ]} |}.

Definition debiaser : Debiasing.PopularityDebiaser :=
  {| Debiasing.debiasing_strength := 1 # 2;
     Debiasing.popularity_stats :=
       {[ "mean" := 50%Q; "std" := 30%Q; "min" := 0%Q; "max" := 100%Q ]} |}.

(** A debiaser on which [fit] has not run. *)
Definition unfitted_debiaser : Debiasing.PopularityDebiaser :=
  {| Debiasing.debiasing_strength := 1 # 2; Debiasing.popularity_stats := ∅ |}.

(** A rational stand-in for [np.exp], good enough to run the examples. *)
Definition exp_approx (x : Q) : Q :=
  if Qlt_le_dec x 0 then (1 / (1 - x))%Q else (1 + x)%Q.

End DebiasDemo.

Module NdcgDemo.

(** Three rated tracks (the second with the default rating 1), and the
    recommendation list that ranks them by descending rating. *)
Definition ground_truth : list pydict :=
  [ {[ "item_id" := VStr "a"; "rating" := VNum 3 ]};
    {[ "item_id" := VStr "b" ]};
    {[ "item_id" := VStr "c"; "rating" := VNum 2 ]} ].

Definition entries : list (value * Q) :=
  [ (VStr "a", 3%Q); (VStr "b", 1%Q); (VStr "c", 2%Q) ].

Definition ranking : list (value * Q) :=
  [ (VStr "a", 3%Q); (VStr "c", 2%Q); (VStr "b", 1%Q) ].

Definition recommendations : list pydict :=
  [ {[ "item_id" := VStr "a"; "score" := VNum (9 # 10) ]};
    {[ "item_id" := VStr "c"; "score" := VNum (8 # 10) ]};
    {[ "item_id" := VStr "b"; "score" := VNum (7 # 10) ]} ].

(** A single ground-truth item of relevance 0, recommended first. *)
Definition unrated_truth : list pydict :=
  [ {[ "item_id" := VStr "a"; "rating" := VNum 0 ]} ].

Definition unrated_recommendations : list pydict :=
  [ {[ "item_id" := VStr "a"; "score" := VNum 1 ]} ].

End NdcgDemo.

Module UnfittedDemo.

(** A hybrid system on which [fit] has never run. *)
Definition system : Models.HybridRecommendationSystem :=
  {| Models.weights := Demo.default_weights;
     Models.ncf_model := None;
     Models.content_model :=
       {| Models.item_ids := []; Models.similarity_matrix := None |};
     Models.popularity_model := {| Models.item_popularity := [] |};
     Models.diversity_injector := None;
     Models.user_encoder := [];
     Models.item_encoder := [] |}.

End UnfittedDemo.

Module DebiasMore.

(** A fitted debiaser with debiasing switched off (strength 0). *)
Definition neutral_debiaser : Debiasing.PopularityDebiaser :=
  {| Debiasing.debiasing_strength := 0;
     Debiasing.popularity_stats :=
       {[ "mean" := 50%Q; "std" := 30%Q; "min" := 0%Q; "max" := 100%Q ]} |}.

End DebiasMore.

Module FitDemo.

(** The rows of a track table: two tracks of "star", a row without artist,
    one track each of "idol" and "band", and one of an artist that the
    artist metadata does not know. *)
Definition tracks_df : list (option string) :=
  [Some "star"; None; Some "idol"; Some "star"; Some "band"; Some "ghost"].

End FitDemo.

Module CoverageDemo.

(** Three recommendations: a mainstream pop track, a niche folk track, and a
    track the metadata does not know. *)
Definition recommendations : list pydict :=
  [ {[ "item_id" := VStr "t1" ]}; {[ "item_id" := VStr "n1" ]};
    {[ "item_id" := VStr "zz" ]} ].

End CoverageDemo.

Module ExplorationDemo.

(** A multiplication without rounding error, a choice that takes the first
    [size] candidates, and a noise that is always zero. *)
Definition exact_mul (x y : Q) : Q := (x * y)%Q.

Definition first_choice (candidates : list addr) (size : nat) : list addr :=
  take size candidates.

Definition no_noise (draw : nat) : Q := 0.

Definition greedy : Exploration.ExplorationStrategy :=
  {| Exploration.strategy := "epsilon_greedy"; Exploration.epsilon := 1 # 2 |}.

Definition thompson : Exploration.ExplorationStrategy :=
  {| Exploration.strategy := "thompson_sampling"; Exploration.epsilon := 1 # 10 |}.

End ExplorationDemo.

Module AdversarialDemo.

(** Four dictionaries with scores 4, 3, 2, 1; the first is the most popular,
    the last has no popularity. *)
Definition objects : heap :=
  [ {[ "item_id" := VStr "t1"; "score" := VNum 4; "popularity" := VNum 90 ]};
    {[ "item_id" := VStr "n1"; "score" := VNum 3; "popularity" := VNum 20 ]};
    {[ "item_id" := VStr "t4"; "score" := VNum 2; "popularity" := VNum 70 ]};
    {[ "item_id" := VStr "zz"; "score" := VNum 1 ]} ].

Definition recommendations : list addr := [0; 1; 2; 3]%nat.

End AdversarialDemo.
(** ** Facts about the Python built-ins *)

Lemma py_bound_le (len : nat) (i : Z) : (py_bound len i <= len)%nat.
Proof. unfold py_bound. destruct (Z.ltb_spec i 0); lia. Qed.

Lemma py_bound_nonneg (len : nat) (i : Z) :
  (0 <= i)%Z -> (Z.of_nat (py_bound len i) <= i)%Z.
Proof. intros Hi. unfold py_bound. destruct (Z.ltb_spec i 0); lia. Qed.

Lemma py_slice_to_length {A} (n : Z) (l : list A) :
  (0 <= n)%Z -> (Z.of_nat (length (py_slice_to n l)) <= n)%Z.
Proof.
  intros Hn. unfold py_slice_to. rewrite length_take.
  pose proof (py_bound_nonneg (length l) n Hn). lia.
Qed.

Lemma py_slice_to_prefix {A} (n : Z) (l : list A) : py_slice_to n l `prefix_of` l.
Proof. apply prefix_take. Qed.

Lemma py_slice_to_subseteq {A} (n : Z) (l : list A) : py_slice_to n l ⊆ l.
Proof. intros x Hx. eapply subseteq_take, Hx. Qed.

Lemma filter_prefix {A} (P : A -> bool) (l1 l2 : list A) :
  l1 `prefix_of` l2 -> List.filter P l1 `prefix_of` List.filter P l2.
Proof. intros [k ->]. exists (List.filter P k). apply List.filter_app. Qed.

Lemma StronglySorted_prefix {A} (R : relation A) (l1 l2 : list A) :
  l1 `prefix_of` l2 -> StronglySorted R l2 -> StronglySorted R l1.
Proof. intros [k ->] H. by apply StronglySorted_app_1_l in H. Qed.

Lemma StronglySorted_of_map {A B} (f : A -> B) (R : relation B) (l : list A) :
  StronglySorted R (map f l) -> StronglySorted (fun a b => R (f a) (f b)) l.
Proof.
  induction l as [|x l IH]; simpl; intros H; [constructor|].
  inversion H as [|? ? Hs Hall]; subst. constructor; [by apply IH|].
  rewrite List.Forall_map in Hall. exact Hall.
Qed.

Section PySortedFacts.
Context {A : Type} (le : A -> A -> bool).

Lemma py_insert_perm (x : A) (l : list A) : py_insert le x l ≡ₚ x :: l.
Proof.
    induction l as [|y l IH]; simpl; [done|].
    destruct (le x y); [done|]. rewrite IH. apply Permutation_swap.
Qed.

Lemma py_sort_perm (l : list A) : py_sort le l ≡ₚ l.
Proof.
    induction l as [|x l IH]; simpl; [done|].
    rewrite py_insert_perm. by rewrite IH.
Qed.

  (** Stability: the elements selected by [P] keep their original order,
      whenever [P] selects only elements that are tied under [le]. *)
Lemma py_insert_filter (P : A -> bool) (x : A) (l : list A) :
    (forall y, P x = true -> P y = true -> le x y = true) ->
    List.filter P (py_insert le x l) = List.filter P (x :: l).
Proof.
    intros Htie. induction l as [|y l IH]; [done|].
    cbn [py_insert]. destruct (le x y) eqn:Hxy; [done|].
    cbn [List.filter] in *. rewrite IH.
    destruct (P x) eqn:Hx; [|done].
    destruct (P y) eqn:Hy; [|done].
    rewrite Htie in Hxy; done.
Qed.

Lemma py_sort_stable (P : A -> bool) (l : list A) :
    (forall x y, P x = true -> P y = true -> le x y = true) ->
    List.filter P (py_sort le l) = List.filter P l.
Proof.
    intros Htie. induction l as [|x l IH]; [done|].
    cbn [py_sort foldr]. rewrite py_insert_filter by (intros; by apply Htie).
    cbn [List.filter]. fold (py_sort le l). by rewrite IH.
Qed.

Hypothesis le_total : forall x y, le x y = true \/ le y x = true.
Hypothesis le_trans : forall x y z, le x y = true -> le y z = true -> le x z = true.

Lemma py_insert_sorted (x : A) (l : list A) :
    StronglySorted (fun a b => le a b = true) l ->
    StronglySorted (fun a b => le a b = true) (py_insert le x l).
Proof.
    induction 1 as [|y l Hs IH Hall]; simpl; [repeat constructor|].
    destruct (le x y) eqn:Hxy.
    - constructor; [by constructor|]. constructor; [done|].
      eapply Forall_impl; [exact Hall|]. intros z Hz. by eapply le_trans.
    - constructor; [done|]. rewrite py_insert_perm. constructor; [|done].
      destruct (le_total x y); congruence.
Qed.

Lemma py_sort_sorted (l : list A) :
    StronglySorted (fun a b => le a b = true) (py_sort le l).
Proof.
    induction l as [|x l IH]; simpl; [constructor|]. by apply py_insert_sorted.
Qed.
End PySortedFacts.

Lemma py_sorted_desc_sorted {A} (key : A -> Q) (l : list A) :
  StronglySorted (fun a b => (key b <= key a)%Q) (py_sorted_desc key l).
Proof.
  assert (H : StronglySorted (fun a b => Qle_bool (key b) (key a) = true)
                (py_sorted_desc key l)).
  { apply py_sort_sorted.
    - intros x y. rewrite !Qle_bool_iff.
      destruct (Qlt_le_dec (key x) (key y)); auto using Qlt_le_weak.
    - intros x y z. rewrite !Qle_bool_iff. intros H1 H2. by eapply Qle_trans. }
  induction H as [|x k Hs IH Hall]; constructor; [done|].
  eapply Forall_impl; [exact Hall|]. intros y Hy. apply Qle_bool_iff, Hy.
Qed.

Lemma py_sorted_asc_sorted {A} (key : A -> Q) (l : list A) :
  StronglySorted (fun a b => (key a <= key b)%Q) (py_sorted_asc key l).
Proof.
  assert (H : StronglySorted (fun a b => Qle_bool (key a) (key b) = true)
                (py_sorted_asc key l)).
  { apply py_sort_sorted.
    - intros x y. rewrite !Qle_bool_iff.
      destruct (Qlt_le_dec (key x) (key y)); auto using Qlt_le_weak.
    - intros x y z. rewrite !Qle_bool_iff. intros H1 H2. by eapply Qle_trans. }
  induction H as [|x k Hs IH Hall]; constructor; [done|].
  eapply Forall_impl; [exact Hall|]. intros y Hy. apply Qle_bool_iff, Hy.
Qed.

(** Among the entries whose key equals [q], a descending sort changes nothing. *)
Lemma py_sorted_desc_stable {A} (key : A -> Q) (q : Q) (l : list A) :
  List.filter (fun x => Qeq_bool (key x) q) (py_sorted_desc key l)
  = List.filter (fun x => Qeq_bool (key x) q) l.
Proof.
  apply py_sort_stable. intros x y Hx Hy.
  apply Qeq_bool_iff in Hx, Hy. apply Qle_bool_iff. rewrite Hx, Hy. apply Qle_refl.
Qed.

Lemma py_sorted_asc_stable {A} (key : A -> Q) (q : Q) (l : list A) :
  List.filter (fun x => Qeq_bool (key x) q) (py_sorted_asc key l)
  = List.filter (fun x => Qeq_bool (key x) q) l.
Proof.
  apply py_sort_stable. intros x y Hx Hy.
  apply Qeq_bool_iff in Hx, Hy. apply Qle_bool_iff. rewrite Hx, Hy. apply Qle_refl.
Qed.

(** ** [models.py]: the hybrid blender *)

Lemma od_set_keys (k : string) (v : Q) (d : odict) :
  od_keys (od_set k v d) ⊆ k :: od_keys d.
Proof.
  unfold od_keys. induction d as [|[k' v'] d IH]; simpl; [done|].
  destruct (String.eqb k k'); simpl; intros x; rewrite !elem_of_cons.
  - tauto.
  - intros [->|Hx]; [tauto|]. apply IH, elem_of_cons in Hx. tauto.
Qed.

Lemma records_of_pairs (clock : nat -> string) (l : list (string * Q)) :
  map (fun r => (Models.item_id r, Models.score r))
      (imap (fun i '(item, sc) =>
               {| Models.item_id := item; Models.score := sc;
                  Models.timestamp := clock i |}) l) = l.
Proof.
  revert clock. induction l as [|[item sc] l IH]; intros clock; [done|].
  cbn [imap map]. f_equal. exact (IH (clock ∘ S)).
Qed.

(** C1: the list returned by [HybridRecommendationSystem.recommend] is
    sorted by descending combined score, and among entries of equal score it
    keeps the order in which the items entered [all_scores] (for every score
    [q], the returned entries that score [q] are an initial segment of the
    entries of [all_scores] that score [q]); both hold for every value of
    [n_recommendations].  The list has at most [n_recommendations] entries,
    [n_recommendations] being a count: a number that is not negative. *)
Theorem recommend_top_n_sorted_stable
    (np_argsort : list Q -> list nat) (clock : nat -> string)
    (s : Models.HybridRecommendationSystem) (user_id : string)
    (user_liked_items : list string) (n_recommendations : Z) (diversity_boost : Q) :
  let out := Models.recommend np_argsort clock s user_id user_liked_items
               n_recommendations diversity_boost in
  ((0 <= n_recommendations)%Z -> (Z.of_nat (length out) <= n_recommendations)%Z)
  /\ StronglySorted (fun a b => (Models.score b <= Models.score a)%Q) out
  /\ forall all_scores,
       Models.combined_scores np_argsort s user_id user_liked_items
         n_recommendations diversity_boost = Some all_scores ->
       forall q : Q,
         List.filter (fun e => Qeq_bool e.2 q)
           (map (fun r => (Models.item_id r, Models.score r)) out)
         `prefix_of` List.filter (fun e => Qeq_bool e.2 q) all_scores.
Proof.
  intros out. subst out. unfold Models.recommend.
  destruct (Models.combined_scores _ _ _ _ _ _) as [all_scores|].
  2: { split; [simpl; lia|]. split; [constructor|]. intros ? [=]. }
  split; [|split].
  - intros Hn. rewrite length_imap. by apply py_slice_to_length.
  - apply (StronglySorted_of_map (fun r => (Models.item_id r, Models.score r))
             (fun a b => (b.2 <= a.2)%Q)).
    rewrite records_of_pairs.
    eapply StronglySorted_prefix; [apply py_slice_to_prefix|].
    apply py_sorted_desc_sorted.
  - intros ? [= <-] q. rewrite records_of_pairs.
    rewrite <- (py_sorted_desc_stable snd q all_scores).
    apply filter_prefix, py_slice_to_prefix.
Qed.

Lemma recommend_top_n_sorted_stable_witness :
  let out := Models.recommend Demo.argsort Demo.clock Demo.system "u" ["a"] 2 0 in
  (Z.of_nat (length out) <= 2)%Z
  /\ StronglySorted (fun a b => (Models.score b <= Models.score a)%Q) out
  /\ forall all_scores,
       Models.combined_scores Demo.argsort Demo.system "u" ["a"] 2 0 = Some all_scores ->
       forall q : Q,
         List.filter (fun e => Qeq_bool e.2 q)
           (map (fun r => (Models.item_id r, Models.score r)) out)
         `prefix_of` List.filter (fun e => Qeq_bool e.2 q) all_scores.
Proof.
  intros out.
  destruct (recommend_top_n_sorted_stable Demo.argsort Demo.clock Demo.system "u" ["a"]
              2 0) as (Hlen & Hsorted & Hstable).
  split; [apply Hlen; lia|]. split; [exact Hsorted|exact Hstable].
Defined.

(** What the blender answers on the demo system. *)
Example recommend_demo :
  map (fun r => (Models.item_id r, Qred (Models.score r)))
      (Models.recommend Demo.argsort Demo.clock Demo.system "u" ["a"] 2 0)
  = [("b", 67 # 100); ("c", 11 # 20)].
Proof. vm_compute. reflexivity. Qed.

(** ** [models.py]: content-based filtering *)

Lemma collect_similar_not_liked (np_argsort : list Q -> list nat)
    (m : Models.ContentBasedFiltering) (user_liked_items : list string) (n : Z) :
  forall item, item ∈ od_keys (Models.collect_similar np_argsort m user_liked_items n) ->
               item ∉ user_liked_items.
Proof.
  unfold Models.collect_similar.
  set (step := fun (all : odict) '(similar_item_id, similarity) =>
                 if bool_decide (similar_item_id ∈ user_liked_items) then all
                 else match od_get similar_item_id all with
                      | Some s => od_set similar_item_id (s + similarity)%Q all
                      | None => od_set similar_item_id similarity all
                      end).
  assert (Hstep : forall sims all,
             (forall item, item ∈ od_keys all -> item ∉ user_liked_items) ->
             forall item, item ∈ od_keys (foldl step all sims) -> item ∉ user_liked_items).
  { induction sims as [|[sid sim] sims IHs]; intros all Hinv; [exact Hinv|].
    cbn [foldl]. apply IHs. unfold step. case_bool_decide as Hin; [exact Hinv|].
    intros item Hitem.
    assert (item ∈ sid :: od_keys all) as Hk.
    { destruct (od_get sid all); eapply od_set_keys, Hitem. }
    apply elem_of_cons in Hk as [->|Hk]; [done|by apply Hinv]. }
  assert (Hfold : forall items all,
             (forall item, item ∈ od_keys all -> item ∉ user_liked_items) ->
             forall item,
               item ∈ od_keys (foldl (fun all item =>
                                        foldl step all
                                          (Models.get_similar_items np_argsort m item (n * 2)))
                                     all items) ->
               item ∉ user_liked_items).
  { induction items as [|it its IH]; intros all Hinv; [exact Hinv|].
    cbn [foldl]. apply IH. by apply Hstep. }
  apply Hfold. intros ? Hnil. by apply elem_of_nil in Hnil.
Qed.

(** C10: no item id returned by [ContentBasedFiltering.recommend_for_user]
    is a member of the liked-item list it was given. *)
Theorem recommend_for_user_excludes_liked
    (np_argsort : list Q -> list nat) (m : Models.ContentBasedFiltering)
    (user_liked_items : list string) (n_recommendations : Z) :
  Forall (fun '(item, _) => item ∉ user_liked_items)
         (Models.recommend_for_user np_argsort m user_liked_items n_recommendations).
Proof.
  apply Forall_forall. intros [item sc] Hin. unfold Models.recommend_for_user in Hin.
  destruct user_liked_items as [|it its] eqn:Hl; [by apply elem_of_nil in Hin|].
  rewrite <- Hl in *. clear Hl it its.
  apply py_slice_to_subseteq in Hin.
  unfold py_sorted_desc in Hin. rewrite py_sort_perm in Hin.
  eapply collect_similar_not_liked. unfold od_keys.
  apply list_elem_of_fmap. by exists (item, sc).
Qed.

Example recommend_for_user_demo :
  map (fun '(item, sc) => (item, Qred sc))
      (Models.recommend_for_user Demo.argsort Demo.content ["a"; "c"] 2)
  = [("b", 13 # 10); ("d", 4 # 5)].
Proof. vm_compute. reflexivity. Qed.

(** ** [evaluation.py]: Gini coefficient *)

(** C2, at the specification's own example: for four artists that appear
    once each, [_calculate_gini_coefficient] answers -23/16, not 0. *)
Theorem gini_uniform_four :
  (Evaluation._calculate_gini_coefficient EvalDemo.uniform_counts == - (23 # 16))%Q.
Proof. vm_compute. reflexivity. Qed.

(** The guard of the function: a single count has coefficient 0. *)
Example gini_single : Evaluation._calculate_gini_coefficient [7%Q] = 0%Q.
Proof. reflexivity. Qed.

Example gini_uniform_two :
  (Evaluation._calculate_gini_coefficient [3%Q; 3%Q] == - (27 # 12))%Q.
Proof. vm_compute. reflexivity. Qed.

Lemma py_sort_replicate {A} (le : A -> A -> bool) (x : A) (n : nat) :
  le x x = true -> py_sort le (replicate n x) = replicate n x.
Proof.
  intros Hx. induction n as [|n IH]; [done|].
  cbn [replicate py_sort foldr]. fold (py_sort le (replicate n x)). rewrite IH.
  destruct n; [done|]. cbn [replicate py_insert]. by rewrite Hx.
Qed.

Lemma inject_nat_succ (m : nat) :
  (inject_Z (Z.of_nat (S m)) == inject_Z (Z.of_nat m) + 1)%Q.
Proof. rewrite Nat2Z.inj_succ. unfold Z.succ. by rewrite inject_Z_plus. Qed.

Lemma uniform_weighted_ge (N c : Q) (m : nat) :
  (1 <= c)%Q ->
  forall (start : nat) (acc : Q),
    (inject_Z (Z.of_nat (start + m)) <= N)%Q ->
    (acc + inject_Z (Z.of_nat m)
     <= foldl (fun acc '(i, y) => acc + (N + 1 - inject_Z (Z.of_nat i)) * y) acc
          (py_enumerate_from start (replicate m c)))%Q.
Proof.
  intros Hc. induction m as [|m IH]; intros start acc HN.
  - cbn [replicate py_enumerate_from foldl].
    change (inject_Z (Z.of_nat 0)) with 0%Q. lra.
  - cbn [replicate py_enumerate_from foldl].
    eapply Qle_trans;
      [|apply IH; replace (S start + m)%nat with (start + S m)%nat by lia; exact HN].
    rewrite inject_nat_succ.
    assert (Hs : (inject_Z (Z.of_nat start) + 1 <= N)%Q).
    { eapply Qle_trans; [|exact HN]. rewrite <- inject_nat_succ, <- Zle_Qle. lia. }
    assert (1 <= (N + 1 - inject_Z (Z.of_nat start)) * c)%Q; [|lra].
    set (t := (N + 1 - inject_Z (Z.of_nat start))%Q).
    assert (Ht : (1 <= t)%Q) by (unfold t; lra).
    apply Qle_trans with (1 * 1)%Q; [discriminate|].
    apply Qmult_le_compat_nonneg; split; (discriminate || assumption).
Qed.

Lemma uniform_total_ge (c : Q) (m : nat) :
  (1 <= c)%Q ->
  forall acc : Q,
    (acc + inject_Z (Z.of_nat m) <= foldl Qplus acc (replicate m c))%Q.
Proof.
  intros Hc. induction m as [|m IH]; intros acc.
  - cbn [replicate foldl]. change (inject_Z (Z.of_nat 0)) with 0%Q. lra.
  - cbn [replicate foldl]. eapply Qle_trans; [|apply IH]. rewrite inject_nat_succ. lra.
Qed.

(** The same happens for every uniform input with at least two entries:
    the weighted sum runs over the positions 0..n-1 and is never divided by
    the total, so the numerator [n + 1 - 2 * weighted] is negative. *)
Lemma gini_uniform_negative (c : Q) (n : nat) :
  (1 <= c)%Q -> (2 <= n)%nat ->
  (Evaluation._calculate_gini_coefficient (replicate n c) < 0)%Q.
Proof.
  intros Hc Hn. unfold Evaluation._calculate_gini_coefficient.
  destruct n as [|[|n]]; [lia|lia|].
  set (l := replicate (S (S n)) c). change (match l with
    | [] | [_] => 0%Q | _ => ?v end) with v.
  unfold py_sorted_asc, py_enumerate. subst l.
  rewrite py_sort_replicate by (apply Qle_bool_iff, Qle_refl).
  rewrite length_replicate.
  set (N := inject_Z (Z.of_nat (S (S n)))).
  pose proof (uniform_weighted_ge N c (S (S n)) Hc 0 0%Q) as HW.
  pose proof (uniform_total_ge c (S (S n)) Hc 0%Q) as HT.
  fold N in HW, HT.
  revert HW HT.
  generalize (foldl (fun acc '(i, y) => (acc + (N + 1 - inject_Z (Z.of_nat i)) * y)%Q)
                0%Q (py_enumerate_from 0 (replicate (S (S n)) c))) as W.
  generalize (foldl Qplus 0%Q (replicate (S (S n)) c)) as T.
  intros T W HW HT.
  assert (HN : (2 <= N)%Q).
  { unfold N. change 2%Q with (inject_Z 2). rewrite <- Zle_Qle. lia. }
  specialize (HW ltac:(cbn [Nat.add]; apply Qle_refl)).
  assert (Hden : (0 < N * T)%Q).
  { apply Qmult_lt_0_compat; lra. }
  destruct (Qeq_bool (N * T) 0) eqn:Hz.
  { apply Qeq_bool_iff in Hz. lra. }
  apply Qlt_shift_div_r; [exact Hden|]. lra.
Qed.

(** ** [evaluation.py]: accuracy metrics *)

(** C5: with an empty ground truth, [_calculate_accuracy_metrics] returns the
    dictionary with precision, recall, f1 and ndcg all zero, whatever the
    recommendation list is; it does not take the handler's path. *)
Theorem accuracy_metrics_empty_ground_truth (recommendations : list pydict) :
  Evaluation._calculate_accuracy_metrics recommendations []
  = Some {| Evaluation.precision := 0; Evaluation.recall := 0; Evaluation.f1 := 0;
            Evaluation.ndcg := 0; Evaluation.counts := None |}.
Proof. reflexivity. Qed.

(** ** [evaluation.py]: overall quality *)

(** C9, as amended: when the five component scores are numbers, the overall
    score is the weighted combination
    [0.3*accuracy + 0.25*diversity + 0.2*novelty + 0.15*coverage - 0.1*bias]
    clipped to the interval [0, 1]; it equals the combination itself exactly
    when that lies between 0 and 1. *)
Theorem overall_quality_is_clipped_combination
    (evaluation_results : gmap string pydict) (a d n c b : Q) :
  Evaluation.metric evaluation_results "accuracy" "f1" = Some a ->
  Evaluation.metric evaluation_results "diversity" "intra_list_diversity" = Some d ->
  Evaluation.metric evaluation_results "novelty" "combined_novelty" = Some n ->
  Evaluation.metric evaluation_results "coverage" "genre_coverage" = Some c ->
  Evaluation.metric evaluation_results "bias" "overall_bias_score" = Some b ->
  let combination :=
    (a * (3 # 10) + d * (25 # 100) + n * (2 # 10) + c * (15 # 100) - b * (1 # 10))%Q in
  exists q,
    Evaluation._calculate_overall_quality_score evaluation_results = Some q
    /\ Evaluation.overall_score q = Qmax 0 (Qmin 1 combination)
    /\ ((0 <= combination <= 1)%Q -> (Evaluation.overall_score q == combination)%Q).
Proof.
  intros Ha Hd Hn Hc Hb combination.
  unfold Evaluation._calculate_overall_quality_score.
  rewrite Ha, Hd, Hn, Hc, Hb. cbn [mbind option_bind].
  eexists; split; [reflexivity|]. cbn [Evaluation.overall_score].
  split; [reflexivity|]. intros [H0 H1].
  fold combination.
  transitivity (Qmin 1 combination).
  - apply Q.max_r, Q.min_glb; [discriminate|exact H0].
  - apply Q.min_r, H1.
Qed.

Lemma overall_quality_is_clipped_combination_witness :
  exists q,
    Evaluation._calculate_overall_quality_score EvalDemo.balanced_results = Some q
    /\ Evaluation.overall_score q
       = Qmax 0 (Qmin 1 ((1 # 2) * (3 # 10) + (2 # 10) * (25 # 100) + (1 # 2) * (2 # 10)
                         + (1 # 5) * (15 # 100) - (3 # 10) * (1 # 10)))
    /\ ((0 <= (1 # 2) * (3 # 10) + (2 # 10) * (25 # 100) + (1 # 2) * (2 # 10)
              + (1 # 5) * (15 # 100) - (3 # 10) * (1 # 10) <= 1)%Q ->
        (Evaluation.overall_score q
         == (1 # 2) * (3 # 10) + (2 # 10) * (25 # 100) + (1 # 2) * (2 # 10)
            + (1 # 5) * (15 # 100) - (3 # 10) * (1 # 10))%Q).
Proof.
  apply (overall_quality_is_clipped_combination EvalDemo.balanced_results
           (1 # 2) (2 # 10) (1 # 2) (1 # 5) (3 # 10)); reflexivity.
Defined.

(** C9 as stated fails whenever the combination leaves the unit interval:
    with a bias score of 1 and every other component 0 the combination is
    -1/10, and the overall score is 0. *)
Lemma overall_quality_not_linear_counterexample :
  exists q,
    Evaluation._calculate_overall_quality_score EvalDemo.biased_results = Some q
    /\ ~ (Evaluation.overall_score q
          == 0 * (3 # 10) + 0 * (25 # 100) + 0 * (2 # 10) + 0 * (15 # 100) - 1 * (1 # 10))%Q.
Proof.
  eexists. split; [vm_compute; reflexivity|]. vm_compute. discriminate.
Qed.

(** ** [debiasing.py]: the popularity penalty curve *)

Section PenaltyCurve.
Local Open Scope R_scope.

Lemma exp_monotone (x y : R) : x <= y -> exp x <= exp y.
Proof.
  intros [Hlt| ->]; [|apply Rle_refl]. left. by apply exp_increasing.
Qed.

Lemma sigmoid_monotone (x y : R) :
  x <= y -> 1 / (1 + exp (- 10 * (x - 1 / 2))) <= 1 / (1 + exp (- 10 * (y - 1 / 2))).
Proof.
  intros Hxy.
  assert (He : exp (- 10 * (y - 1 / 2)) <= exp (- 10 * (x - 1 / 2)))
    by (apply exp_monotone; lra).
  pose proof (exp_pos (- 10 * (y - 1 / 2))) as Hy.
  pose proof (exp_pos (- 10 * (x - 1 / 2))) as Hx.
  revert He Hy Hx.
  generalize (exp (- 10 * (y - 1 / 2))) as ey, (exp (- 10 * (x - 1 / 2))) as ex.
  intros ey ex He Hy Hx.
  unfold Rdiv. rewrite !Rmult_1_l.
  apply Rinv_le_contravar; lra.
Qed.

(** The penalty grows with popularity (and is constant when the fitted
    popularity range is empty). *)
Lemma popularity_penalty_monotone (pop_min pop_max p1 p2 : R) :
  p1 <= p2 ->
  DebiasingReal._calculate_popularity_penalty pop_min pop_max p1
  <= DebiasingReal._calculate_popularity_penalty pop_min pop_max p2.
Proof.
  intros Hp. unfold DebiasingReal._calculate_popularity_penalty. cbv zeta.
  destruct (Rlt_dec 0 (pop_max - pop_min)) as [Hr|Hr]; [|apply Rle_refl].
  apply sigmoid_monotone. unfold Rdiv.
  apply Rmult_le_compat_r; [|lra]. left. by apply Rinv_0_lt_compat.
Qed.

(** C3, as amended: when the product of the debiasing strength and the
    original score is non-negative (in particular for a strength in [0, 1]
    and a non-negative score), the debiased score
    [score * (1 - strength * sigmoid(10 * (normalized_popularity - 0.5)))]
    is non-increasing in the track's popularity. *)
Theorem debiased_score_antitone (debiasing_strength pop_min pop_max : R)
    (original_score p1 p2 : R) :
  0 <= debiasing_strength * original_score ->
  p1 <= p2 ->
  DebiasingReal.debiased_score debiasing_strength pop_min pop_max original_score p2
  <= DebiasingReal.debiased_score debiasing_strength pop_min pop_max original_score p1.
Proof.
  intros Hks Hp. unfold DebiasingReal.debiased_score.
  pose proof (popularity_penalty_monotone pop_min pop_max p1 p2 Hp) as Hpen.
  revert Hpen.
  generalize (DebiasingReal._calculate_popularity_penalty pop_min pop_max p1) as q1.
  generalize (DebiasingReal._calculate_popularity_penalty pop_min pop_max p2) as q2.
  intros q2 q1 Hpen. nra.
Qed.

Lemma debiased_score_antitone_witness :
  DebiasingReal.debiased_score (1 / 2) 0 100 1 80
  <= DebiasingReal.debiased_score (1 / 2) 0 100 1 20.
Proof. apply debiased_score_antitone; lra. Defined.

(** C3 as stated fails for a negative original score: with the default
    strength 1/2 and popularity statistics 0..100, the score -1 of a track of
    popularity 100 is debiased to more than that of a track of popularity 0. *)
Lemma debiased_score_negative_counterexample :
  ~ (DebiasingReal.debiased_score (1 / 2) 0 100 (-1) 100
     <= DebiasingReal.debiased_score (1 / 2) 0 100 (-1) 0).
Proof.
  unfold DebiasingReal.debiased_score, DebiasingReal._calculate_popularity_penalty.
  cbv zeta. destruct (Rlt_dec 0 (100 - 0)) as [_|Hr]; [|lra].
  replace (- 10 * ((100 - 0) / (100 - 0) - 1 / 2)) with (- 5) by (field; lra).
  replace (- 10 * ((0 - 0) / (100 - 0) - 1 / 2)) with 5 by (field; lra).
  assert (Hexp : exp (- 5) < exp 5) by (apply exp_increasing; lra).
  pose proof (exp_pos (- 5)) as Ha.
  revert Hexp Ha. generalize (exp (- 5)) as a, (exp 5) as b. intros a b Hexp Ha.
  assert (Hinv : / (1 + b) < / (1 + a)).
  { apply Rinv_lt_contravar; [|lra]. apply Rmult_lt_0_compat; lra. }
  unfold Rdiv. rewrite !Rmult_1_l. lra.
Qed.

End PenaltyCurve.

(** ** [debiasing.py]: diversity injection *)

Lemma py_sort_length {A} (le : A -> A -> bool) (l : list A) :
  length (py_sort le l) = length l.
Proof. apply Permutation_length, py_sort_perm. Qed.

Lemma py_int_fraction (len : nat) (s : Q) :
  (0 <= s <= 1)%Q ->
  (0 <= py_int (inject_Z (Z.of_nat len) * s) <= Z.of_nat len)%Z.
Proof.
  intros [H0 H1]. set (q := (inject_Z (Z.of_nat len) * s)%Q).
  assert (Hq0 : (0 <= q)%Q).
  { apply Qmult_le_0_compat; [|exact H0].
    change 0%Q with (inject_Z 0). rewrite <- Zle_Qle. lia. }
  assert (Hq1 : (q <= inject_Z (Z.of_nat len))%Q).
  { unfold q. rewrite <- (Qmult_1_l (inject_Z (Z.of_nat len))) at 2.
    rewrite (Qmult_comm (inject_Z (Z.of_nat len)) s).
    apply Qmult_le_compat_r; [exact H1|].
    change 0%Q with (inject_Z 0). rewrite <- Zle_Qle. lia. }
  assert (Hfloor : py_int q = Qfloor q).
  { unfold py_int. destruct q as [qn qd]. simpl.
    apply Z.quot_div_nonneg; [|lia].
    unfold Qle in Hq0. simpl in Hq0. lia. }
  rewrite Hfloor. split.
  - change 0%Z with (Qfloor 0). by apply Qfloor_resp_le.
  - rewrite <- (Qfloor_Z (Z.of_nat len)). by apply Qfloor_resp_le.
Qed.

Lemma replaced_length {A} (n : Z) (l cands : list A) :
  (0 <= n <= Z.of_nat (length l))%Z ->
  (length (py_slice_from n l ++ py_slice_to n cands) <= length l)%nat.
Proof.
  intros Hn. rewrite length_app. unfold py_slice_from, py_slice_to.
  rewrite length_drop, length_take. unfold py_bound.
  destruct (Z.ltb_spec n 0); lia.
Qed.

(** C6, as amended: for a diversity strength between 0 and 1, the list
    returned by [DiversityInjector.inject_diversity] is never longer than
    the recommendation list it was given. *)
Theorem inject_diversity_no_longer (self : Debiasing.DiversityInjector)
    (user_id : string) (h : heap) (recommendations candidate_pool : list addr)
    (track_metadata : gmap string TrackInfo) :
  (0 <= Debiasing.diversity_strength self <= 1)%Q ->
  (length (returned (Debiasing.inject_diversity self user_id h recommendations
                       candidate_pool track_metadata))
   <= length recommendations)%nat.
Proof.
  intros Hs. unfold Debiasing.inject_diversity.
  destruct (Debiasing.user_profiles self !! user_id) as [user_profile|]; [|done].
  destruct (_ ≫= _) as [[h1 diversity_candidates]|]; [|done].
  destruct (mapM _ recommendations); [|done].
  destruct (Debiasing.set_combined_scores _ _ _) as [h2 [|]]; cbn [returned].
  - unfold py_sorted_desc, py_sorted_asc. rewrite py_sort_length.
    etrans; [apply replaced_length|].
    + rewrite py_sort_length. by apply py_int_fraction.
    + by rewrite py_sort_length.
  - unfold py_sorted_asc. by rewrite py_sort_length.
Qed.

Lemma inject_diversity_no_longer_witness :
  (length (returned (Debiasing.inject_diversity DebiasDemo.injector "u" DebiasDemo.objects
                       DebiasDemo.recommendations [5; 6; 7]%nat DebiasDemo.track_metadata))
   <= length DebiasDemo.recommendations)%nat.
Proof. apply inject_diversity_no_longer. split; discriminate. Defined.

(** C6 as stated fails when the injector is configured with a strength
    above 1: two recommendations and three fresh candidates give a list of
    three entries. *)
Lemma inject_diversity_longer_counterexample :
  ~ (length (returned (Debiasing.inject_diversity DebiasDemo.eager_injector "u"
                         DebiasDemo.objects [0; 1]%nat [5; 6; 7]%nat
                         DebiasDemo.track_metadata))
     <= length [0; 1]%nat)%nat.
Proof. vm_compute. lia. Qed.

(** C7 at a failing input: four recommendations in descending score order
    and a pool whose only candidate has no ['score'].  The exception is
    raised in the loop that stores [combined_score], after
    [recommendations.sort] has already reordered the caller's list; the
    handler returns that list, which is now in ascending score order, and
    three of its entries carry a [combined_score] they did not have. *)
Theorem inject_diversity_error_path_reorders :
  let out := Debiasing.inject_diversity DebiasDemo.injector "u" DebiasDemo.objects
               DebiasDemo.recommendations [4]%nat DebiasDemo.track_metadata in
  raised out = true
  /\ returned out = [3; 2; 1; 0]%nat
  /\ caller_list out = [3; 2; 1; 0]%nat
  /\ DebiasDemo.recommendations = [0; 1; 2; 3]%nat
  /\ (store out !! 0%nat) ≫= (.!! "combined_score") = Some (VNum 4)
  /\ (DebiasDemo.objects !! 0%nat) ≫= (.!! "combined_score") = None.
Proof. vm_compute. repeat split; reflexivity. Qed.

Example inject_diversity_demo :
  let out := Debiasing.inject_diversity DebiasDemo.injector "u" DebiasDemo.objects
               DebiasDemo.recommendations [5; 6; 7]%nat DebiasDemo.track_metadata in
  (returned out, caller_list out, raised out)
  = ([0; 1; 2; 10]%nat, [3; 2; 1; 0]%nat, false).
Proof. vm_compute. reflexivity. Qed.

(** ** [debiasing.py]: fairness flags *)

Lemma flagged_refl (h : heap) : Forall2 Debiasing.flagged h h.
Proof. apply Forall_Forall2_diag, Forall_forall. intros d _. by left. Qed.

Lemma heap_set_flagged (h0 h : heap) (a : addr) :
  Forall2 Debiasing.flagged h0 h ->
  Forall2 Debiasing.flagged h0 (heap_set a "needs_niche_replacement" (VBool true) h).
Proof.
  intros H. apply Forall2_alter_r; [exact H|].
  intros d d' _ _ [-> | ->]; right; [done|]. by rewrite insert_insert_eq.
Qed.

Lemma flag_loop_flagged (h0 : heap) (l : list addr) (indices : list nat) :
  forall h, Forall2 Debiasing.flagged h0 h ->
  Forall2 Debiasing.flagged h0
    (foldl (fun h i =>
              match l !! i with
              | Some a => heap_set a "needs_niche_replacement" (VBool true) h
              | None => h
              end) h indices).
Proof.
  induction indices as [|i indices IH]; intros h H; [exact H|].
  cbn [foldl]. apply IH. destruct (l !! i); [by apply heap_set_flagged|exact H].
Qed.

Lemma _apply_fairness_corrections_flagged (self : Debiasing.FairnessConstraintEnforcer)
    (h : heap) (recommendations : list addr) (v : Debiasing.violations)
    (track_metadata : gmap string TrackInfo) :
  (Debiasing._apply_fairness_corrections self h recommendations v track_metadata).1
  = recommendations
  /\ Forall2 Debiasing.flagged h
       (Debiasing._apply_fairness_corrections self h recommendations v track_metadata).2.
Proof.
  unfold Debiasing._apply_fairness_corrections.
  destruct (Debiasing.insufficient_niche v); [|split; [done|apply flagged_refl]].
  destruct (mapM _ _); (split; [done|]); [|apply flagged_refl].
  apply flag_loop_flagged, flagged_refl.
Qed.

Lemma flagged_field (h h' : heap) (k : string) (l : list addr) :
  Forall2 Debiasing.flagged h h' -> k ≠ "needs_niche_replacement" ->
  (fun a => (h' !! a) ≫= (.!! k)) <$> l = (fun a => (h !! a) ≫= (.!! k)) <$> l.
Proof.
  intros H Hk. apply list_fmap_ext. intros _ a _.
  destruct (h !! a) as [d|] eqn:E.
  - destruct (Forall2_lookup_l _ _ _ _ _ H E) as (d' & -> & Hf).
    destruct Hf as [-> | ->]; [done|].
    cbn. by rewrite lookup_insert_ne.
  - assert (h' !! a = None) as ->; [|done].
    apply lookup_ge_None. rewrite <- (Forall2_length _ _ _ H).
    by apply lookup_ge_None.
Qed.

(** C8: [enforce_fairness] returns the entries it was given, in the same
    order, none removed and none replaced; every dictionary in the store is
    either untouched or has gained the flag [needs_niche_replacement], so the
    item ids and the scores read through the returned list are those of the
    input.  (This holds on every path, in particular when the niche-artist
    ratio is below the configured minimum.) *)
Theorem enforce_fairness_only_flags (self : Debiasing.FairnessConstraintEnforcer)
    (h : heap) (recommendations : list addr)
    (track_metadata : gmap string TrackInfo) (artist_metadata : gmap string ArtistInfo) :
  let out := Debiasing.enforce_fairness self h recommendations track_metadata
               artist_metadata in
  returned out = recommendations
  /\ caller_list out = recommendations
  /\ Forall2 Debiasing.flagged h (store out)
  /\ (fun a => (store out !! a) ≫= (.!! "item_id")) <$> returned out
     = (fun a => (h !! a) ≫= (.!! "item_id")) <$> recommendations
  /\ (fun a => (store out !! a) ≫= (.!! "score")) <$> returned out
     = (fun a => (h !! a) ≫= (.!! "score")) <$> recommendations.
Proof.
  intros out.
  assert (H : returned out = recommendations /\ caller_list out = recommendations
              /\ Forall2 Debiasing.flagged h (store out)).
  { subst out. unfold Debiasing.enforce_fairness.
    destruct (mapM _ recommendations) as [artists|];
      [|repeat split; apply flagged_refl].
    set (v := Debiasing._check_fairness_violations _ _ _).
    pose proof (_apply_fairness_corrections_flagged self h recommendations v
                  track_metadata) as [Hl Hh].
    destruct (Debiasing._apply_fairness_corrections _ _ _ _ _) as [l h'].
    simpl in Hl, Hh. subst l.
    destruct (Debiasing.insufficient_niche v),
             (Debiasing.insufficient_genre_diversity v);
      repeat split; try exact Hh; apply flagged_refl. }
  destruct H as (Hr & Hc & Hh). rewrite Hr.
  repeat split; try done; by apply flagged_field.
Qed.

(** On the demo list the niche ratio is 0, below the minimum 3/10: one of
    the three mainstream entries gets the flag (int(4 * 0.3) = 1), and nothing
    else changes. *)
Example enforce_fairness_demo :
  let out := Debiasing.enforce_fairness DebiasDemo.enforcer DebiasDemo.objects
               DebiasDemo.recommendations DebiasDemo.track_metadata
               DebiasDemo.artist_metadata in
  returned out = [0; 1; 2; 3]%nat
  /\ store out
     = <[0%nat := <["needs_niche_replacement" := VBool true]> (DebiasDemo.rec "t1" 4)]>
         DebiasDemo.objects.
Proof. vm_compute. split; reflexivity. Qed.


(** ** [debiasing.py]: popularity debiasing of a list *)

(** By contrast, [debias_scores] works on copies, so whatever
    happens the caller's list and every dictionary that existed before the
    call are as they were, and on the handler's path the list returned is
    the input list. *)
Lemma debias_scores_leaves_input (np_exp : Q -> Q) (self : Debiasing.PopularityDebiaser)
    (h : heap) (recommendations : list addr) (track_metadata : gmap string TrackInfo) :
  let out := Debiasing.debias_scores np_exp self h recommendations track_metadata in
  caller_list out = recommendations
  /\ h `prefix_of` store out
  /\ (raised out = true -> returned out = recommendations /\ store out = h).
Proof.
  intros out. subst out. unfold Debiasing.debias_scores.
  assert (Hfold : forall l st h' k,
            foldl (fun st a => st ← st; Debiasing.debias_one np_exp self track_metadata st a)
                  st l = Some (h', k) ->
            exists h0 k0, st = Some (h0, k0) /\ h0 `prefix_of` h').
  { induction l as [|a l IH]; intros st h' k Hst; cbn [foldl] in Hst.
    - exists h', k. by split.
    - apply IH in Hst as (h1 & k1 & Hstep & Hpre).
      destruct st as [[h0 k0]|]; [|done]. exists h0, k0. split; [done|].
      cbn in Hstep. unfold Debiasing.debias_one in Hstep.
      destruct (h0 !! a) as [rec|]; [|done]. cbn in Hstep.
      destruct (rec !! "item_id"); [|done]. cbn in Hstep.
      destruct (get_num rec "score"); [|done]. cbn in Hstep.
      destruct (Debiasing.popularity_stats self !! "mean"); [|done]. cbn in Hstep.
      injection Hstep as <- _. etrans; [|exact Hpre]. by apply prefix_app_r. }
  destruct (foldl _ _ _) as [[h' k]|] eqn:Hf; cbn.
  - apply Hfold in Hf as (h0 & k0 & [= <- <-] & Hpre). repeat split; done.
  - repeat split; done.
Qed.

(** An unfitted debiaser raises on the first entry ([popularity_stats['mean']])
    and hands the input list back untouched. *)
Example debias_scores_unfitted :
  let out := Debiasing.debias_scores DebiasDemo.exp_approx DebiasDemo.unfitted_debiaser
               DebiasDemo.objects DebiasDemo.recommendations DebiasDemo.track_metadata in
  (raised out, returned out, caller_list out, store out)
  = (true, DebiasDemo.recommendations, DebiasDemo.recommendations, DebiasDemo.objects).
Proof. vm_compute. reflexivity. Qed.

Example debias_scores_demo :
  let out := Debiasing.debias_scores DebiasDemo.exp_approx DebiasDemo.debiaser
               DebiasDemo.objects DebiasDemo.recommendations DebiasDemo.track_metadata in
  (raised out, returned out, caller_list out)
  = (false, [8; 9; 10; 11]%nat, DebiasDemo.recommendations).
Proof. vm_compute. reflexivity. Qed.

(** ** [evaluation.py]: NDCG *)

Lemma value_eqb_refl (v : value) : value_eqb v v = true.
Proof.
  destruct v as [|[|]|x|s]; cbn; try done.
  - apply Qeq_bool_iff. reflexivity.
  - apply String.eqb_refl.
Qed.

Lemma value_eqb_sym (v w : value) : value_eqb v w = value_eqb w v.
Proof.
  unfold value_eqb. destruct (num_of v) as [x|], (num_of w) as [y|]; try done.
  - destruct (Qeq_bool x y) eqn:Hxy, (Qeq_bool y x) eqn:Hyx; try done.
    + apply Qeq_bool_iff in Hxy. symmetry in Hxy. apply Qeq_bool_iff in Hxy. congruence.
    + apply Qeq_bool_iff in Hyx. symmetry in Hyx. apply Qeq_bool_iff in Hyx. congruence.
  - destruct v, w; try done. apply String.eqb_sym.
Qed.

Lemma existsb_false {A} (f : A -> bool) (l : list A) :
  existsb f l = false <-> forall x, x ∈ l -> f x = false.
Proof.
  induction l as [|y l IH]; simpl.
  - split; [|done]. intros _ x Hx. by apply elem_of_nil in Hx.
  - rewrite orb_false_iff, IH. split.
    + intros [Hy Hl] x [->|Hx]%elem_of_cons; auto.
    + intros H. split; [apply H; left|intros x Hx; apply H; by right].
Qed.

Lemma distinct_ids_cons (x : value) (ids : list value) :
  Evaluation.distinct_ids (x :: ids) = true <->
  (forall y, y ∈ ids -> value_eqb x y = false) /\ Evaluation.distinct_ids ids = true.
Proof.
  cbn [Evaluation.distinct_ids]. rewrite andb_true_iff, negb_true_iff, existsb_false. done.
Qed.

Lemma vd_set_keys (k : value) (v : Q) (d : list (value * Q)) :
  forall x, x ∈ (Evaluation.vd_set k v d).*1 -> x ∈ d.*1 \/ x = k.
Proof.
  induction d as [|[k' v'] d IH]; intros x Hx; cbn in Hx.
  - apply list_elem_of_singleton in Hx. by right.
  - destruct (value_eqb k k'); cbn in Hx; apply elem_of_cons in Hx as [->|Hx].
    + left. cbn. by left.
    + left. cbn. by right.
    + left. cbn. by left.
    + destruct (IH x Hx) as [H| ->]; [left; cbn; by right|by right].
Qed.

Lemma vd_set_distinct (k : value) (v : Q) (d : list (value * Q)) :
  Evaluation.distinct_ids d.*1 = true ->
  Evaluation.distinct_ids (Evaluation.vd_set k v d).*1 = true.
Proof.
  induction d as [|[k' v'] d IH]; intros Hd; [done|].
  cbn in Hd. apply distinct_ids_cons in Hd as [Hk Hd]. cbn.
  destruct (value_eqb k k') eqn:Hkk; cbn [fmap list_fmap fst];
    apply distinct_ids_cons; (split; [|auto]).
  - exact Hk.
  - intros y Hy. destruct (vd_set_keys k v d y Hy) as [H| ->]; [by apply Hk|].
    by rewrite value_eqb_sym.
Qed.

Lemma vd_set_values (P : Q -> Prop) (k : value) (v : Q) (d : list (value * Q)) :
  P v -> Forall (fun e => P e.2) d -> Forall (fun e => P e.2) (Evaluation.vd_set k v d).
Proof.
  intros Hv. induction 1 as [|[k' v'] d Hv' Hd IH]; cbn.
  - by repeat constructor.
  - destruct (value_eqb k k'); constructor; auto.
Qed.

Lemma vd_set_nonempty (k : value) (v : Q) (d : list (value * Q)) :
  Evaluation.vd_set k v d <> [].
Proof. destruct d as [|[k' v'] d]; cbn; [done|]. by destruct (value_eqb k k'). Qed.

(** The dictionary built from the ground truth: its keys are distinct, its
    values are ratings of the ground truth, and it is empty only for an
    empty ground truth. *)
Lemma ground_truth_dict_spec (P : Q -> Prop) (entries : list (value * Q)) :
  Forall (fun e => P e.2) entries ->
  Evaluation.distinct_ids (Evaluation.ground_truth_dict entries).*1 = true
  /\ Forall (fun e => P e.2) (Evaluation.ground_truth_dict entries)
  /\ (entries <> [] -> Evaluation.ground_truth_dict entries <> []).
Proof.
  unfold Evaluation.ground_truth_dict. intros HP.
  assert (Hgen : forall acc : list (value * Q),
            Evaluation.distinct_ids acc.*1 = true ->
            Forall (fun e => P e.2) acc ->
            let d := foldl (fun d '(item, rating) => Evaluation.vd_set item rating d)
                       acc entries in
            Evaluation.distinct_ids d.*1 = true
            /\ Forall (fun e => P e.2) d
            /\ (acc <> [] \/ entries <> [] -> d <> [])).
  { induction HP as [|[k v] entries Hv HP IH]; intros acc Hd Ha; cbn [foldl].
    - repeat split; try done. by intros [H|H].
    - destruct (IH (Evaluation.vd_set k v acc)) as (H1 & H2 & H3).
      + by apply vd_set_distinct.
      + by apply vd_set_values.
      + repeat split; try done. intros _. apply H3. left. apply vd_set_nonempty. }
  destruct (Hgen [] eq_refl (Forall_nil_2 _)) as (H1 & H2 & H3).
  repeat split; try done. intros Hne. apply H3. by right.
Qed.

Lemma vd_get_distinct (entries : list (value * Q)) (k : value) (v : Q) :
  Evaluation.distinct_ids entries.*1 = true ->
  (k, v) ∈ entries -> Evaluation.vd_get k entries = Some v.
Proof.
  induction entries as [|[k' v'] entries IH]; intros Hd Hin.
  - by apply elem_of_nil in Hin.
  - cbn in Hd. apply distinct_ids_cons in Hd as [Hk Hd].
    apply elem_of_cons in Hin as [[= <- <-]|Hin]; cbn.
    + by rewrite value_eqb_refl.
    + rewrite value_eqb_sym, Hk; [by apply IH|].
      apply list_elem_of_fmap. by exists (k, v).
Qed.

Section Ndcg.
Local Open Scope R_scope.

Lemma log2_pos (i : nat) : 0 < Evaluation.log2 (INR i + 2).
Proof.
  unfold Evaluation.log2. pose proof (pos_INR i) as Hi.
  apply Rdiv_lt_0_compat.
  - rewrite <- ln_1. apply ln_increasing; lra.
  - rewrite <- ln_1. apply ln_increasing; lra.
Qed.

Lemma discounted_fold_le (l : list R) (start : nat) (acc : R) :
  Forall (fun r => 0 <= r) l ->
  acc <= foldl (fun acc '(i, rel) => acc + rel / Evaluation.log2 (INR i + 2))
           acc (py_enumerate_from start l).
Proof.
  intros Hl. revert start acc.
  induction Hl as [|r l Hr Hl IH]; intros start acc; [apply Rle_refl|].
  cbn [py_enumerate_from foldl]. etrans; [|apply IH].
  pose proof (log2_pos start) as Hlog.
  assert (0 <= r / Evaluation.log2 (INR start + 2)); [|lra].
  apply Rmult_le_pos; [exact Hr|]. left. by apply Rinv_0_lt_compat.
Qed.

Lemma discounted_sum_pos (r : R) (l : list R) :
  0 < r -> Forall (fun r => 0 <= r) l ->
  0 < Evaluation.discounted_sum (py_enumerate (r :: l)).
Proof.
  intros Hr Hl.
  unfold Evaluation.discounted_sum, py_enumerate. cbn [py_enumerate_from foldl].
  eapply Rlt_le_trans; [|by apply discounted_fold_le].
  pose proof (Rdiv_lt_0_compat _ _ Hr (log2_pos 0)). lra.
Qed.

(** When no relevance is negative, the [dcg] loop misses nothing: the terms
    it skips are zero. *)
Lemma dcg_of_nonneg (l : list Q) :
  Forall (fun r => (0 <= r)%Q) l ->
  Evaluation.dcg_of (py_enumerate l)
  = Evaluation.discounted_sum (py_enumerate (Q2R <$> l)).
Proof.
  intros Hl. unfold Evaluation.dcg_of, Evaluation.discounted_sum, py_enumerate.
  generalize 0%nat as start. generalize 0 as acc.
  induction Hl as [|r l Hr Hl IH]; intros acc start; [done|].
  cbn [py_enumerate_from fmap list_fmap foldl].
  destruct (Qlt_le_dec 0 r) as [_|Hle]; [apply IH|].
  rewrite IH. f_equal.
  assert (Hz : Q2R r = 0).
  { rewrite <- RMicromega.Q2R_0. apply Qeq_eqR. by apply Qle_antisym. }
  rewrite Hz. unfold Rdiv. rewrite Rmult_0_l. lra.
Qed.

End Ndcg.

(** The relevance lists of a recommendation list that ranks the items of
    the ground-truth dictionary: both are read off the ranking. *)
Lemma relevance_lists_of_ranking (recommendations ground_truth : list pydict)
    (entries ranking : list (value * Q)) (k : Z) :
  Forall2 (fun gt e => gt !! "item_id" = Some e.1 /\ Evaluation.rating_of gt = Some e.2)
          ground_truth entries ->
  ranking ≡ₚ Evaluation.ground_truth_dict entries ->
  Forall2 (fun rec e => rec !! "item_id" = Some e.1) recommendations ranking ->
  Evaluation.relevance_lists recommendations ground_truth k
  = Some ((py_slice_to k ranking).*2,
          py_slice_to k
            (py_sorted_desc (fun rel => rel) (Evaluation.ground_truth_dict entries).*2)).
Proof.
  intros Hgt Hperm Hrec. unfold Evaluation.relevance_lists.
  assert (Hm : mapM (fun gt => item ← gt !! "item_id";
                               rating ← Evaluation.rating_of gt;
                               Some (item, rating)) ground_truth = Some entries).
  { apply mapM_Some_2. eapply Forall2_impl; [exact Hgt|].
    intros gt [item rating] [Hi Hr]. cbn in Hi, Hr. by rewrite Hi, Hr. }
  rewrite Hm. cbn [mbind option_bind].
  assert (Hids : mapM (fun rec : pydict => rec !! "item_id")
                      (py_slice_to k recommendations)
                 = Some (py_slice_to k ranking).*1).
  { apply mapM_Some_2. unfold py_slice_to.
    rewrite (Forall2_length _ _ _ Hrec). apply Forall2_fmap_r, Forall2_take.
    exact Hrec. }
  rewrite Hids. cbn [mbind option_bind]. do 2 f_equal.
  rewrite <- list_fmap_compose. apply list_fmap_ext.
  intros _ [item rating] Hin%list_elem_of_lookup_2. cbn.
  apply py_slice_to_subseteq in Hin. rewrite Hperm in Hin.
  destruct (ground_truth_dict_spec (fun _ => True) entries) as (Hd & _).
  { apply Forall_forall. done. }
  by rewrite (vd_get_distinct _ item rating Hd Hin).
Qed.

Section NdcgIdeal.
Local Open Scope R_scope.

(** C4, as amended: for a ground truth without negative ratings, a
    recommendation list that holds the ground-truth items (the keys of
    [ground_truth_ids]) in descending relevance order, at least one of them
    with a positive relevance, has NDCG (at k = 10, with the
    [1/log2(rank+2)] discount, in real arithmetic) equal to 1. *)
Theorem ndcg_of_ideal_order (recommendations ground_truth : list pydict)
    (entries ranking : list (value * Q)) :
  Forall2 (fun gt e => gt !! "item_id" = Some e.1 /\ Evaluation.rating_of gt = Some e.2)
          ground_truth entries ->
  Forall (fun e => (0 <= e.2)%Q) entries ->
  ranking ≡ₚ Evaluation.ground_truth_dict entries ->
  StronglySorted (fun e e' => (e'.2 <= e.2)%Q) ranking ->
  Exists (fun e => (0 < e.2)%Q) ranking ->
  Forall2 (fun rec e => rec !! "item_id" = Some e.1) recommendations ranking ->
  Evaluation._calculate_ndcg recommendations ground_truth 10 = 1.
Proof.
  intros Hgt Hpos Hperm Hsorted Hex Hrec. unfold Evaluation._calculate_ndcg.
  rewrite (relevance_lists_of_ranking _ _ entries ranking 10 Hgt Hperm Hrec).
  destruct (ground_truth_dict_spec (fun r => (0 <= r)%Q) entries Hpos)
    as (_ & Hdpos & _).
  set (dict := Evaluation.ground_truth_dict entries) in *.
  assert (Hrnn : Forall (fun e => (0 <= e.2)%Q) ranking) by (by rewrite Hperm).
  (* no relevance among the first ten is negative *)
  assert (Hrpos : Forall (fun r => (0 <= r)%Q) (py_slice_to 10 ranking).*2).
  { apply Forall_fmap, Forall_forall. intros e He. cbn.
    apply py_slice_to_subseteq in He. revert e He. by apply Forall_forall. }
  rewrite dcg_of_nonneg by exact Hrpos.
  (* the ideal relevances are those of the ranking *)
  assert (Hideal : Q2R <$> py_slice_to 10 (py_sorted_desc (fun rel : Q => rel) dict.*2)
                   = Q2R <$> (py_slice_to 10 ranking).*2).
  { unfold py_slice_to. rewrite !fmap_take.
    unfold py_sorted_desc at 1. rewrite py_sort_length, !length_fmap.
    rewrite (Permutation_length Hperm). f_equal.
    apply (StronglySorted_unique_strong (fun a b : R => b <= a)).
    - intros x y _ _ Hxy Hyx. by apply Rle_antisym.
    - eapply StronglySorted_fmap; [|apply py_sorted_desc_sorted].
      intros x y Hxy. by apply Qle_Rle.
    - rewrite <- list_fmap_compose.
      eapply StronglySorted_fmap; [|exact Hsorted].
      intros x y Hxy. by apply Qle_Rle.
    - unfold py_sorted_desc. by rewrite py_sort_perm, Hperm. }
  rewrite Hideal. clear Hideal.
  (* the first entry of the ranking has the largest relevance, a positive one *)
  destruct ranking as [|e ranking']; [by apply Exists_nil in Hex|].
  assert (He : (0 < e.2)%Q).
  { apply Exists_cons in Hex as [He|Hex]; [exact He|].
    apply Exists_exists in Hex as (x & Hx & Hxpos).
    apply StronglySorted_inv in Hsorted as [_ Hall].
    eapply Qlt_le_trans; [exact Hxpos|].
    exact (proj1 (Forall_forall _ _) Hall x Hx). }
  assert (Hcut : py_slice_to 10 (e :: ranking')
                 = e :: take (Z.to_nat (Z.min 9 (Z.of_nat (length ranking')))) ranking').
  { unfold py_slice_to, py_bound. cbn [Z.ltb Z.compare length].
    replace (Z.to_nat (Z.min 10 (Z.of_nat (Datatypes.S (length ranking')))))
      with (Datatypes.S (Z.to_nat (Z.min 9 (Z.of_nat (length ranking'))))) by lia.
    done. }
  rewrite Hcut in *. cbn [fmap list_fmap] in *.
  set (S := Evaluation.discounted_sum _).
  assert (HS : 0 < S).
  { apply discounted_sum_pos.
    - apply Qlt_Rlt in He. by rewrite RMicromega.Q2R_0 in He.
    - apply Forall_cons in Hrpos as [_ Hrest].
      apply Forall_fmap. eapply Forall_impl; [exact Hrest|].
      intros r Hr. cbn. apply Qle_Rle in Hr.
      by rewrite RMicromega.Q2R_0 in Hr. }
  destruct (Rlt_dec 0 S) as [_|Hn]; [|done].
  field. lra.
Qed.

End NdcgIdeal.

Lemma ndcg_of_ideal_order_witness :
  Evaluation._calculate_ndcg NdcgDemo.recommendations NdcgDemo.ground_truth 10 = 1%R.
Proof.
  apply (ndcg_of_ideal_order NdcgDemo.recommendations NdcgDemo.ground_truth
           NdcgDemo.entries NdcgDemo.ranking).
  - repeat constructor.
  - repeat constructor; discriminate.
  - change (Evaluation.ground_truth_dict NdcgDemo.entries) with NdcgDemo.entries.
    apply Permutation_skip, Permutation_swap.
  - repeat constructor; discriminate.
  - apply Exists_cons_hd. reflexivity.
  - repeat constructor.
Defined.

(** C4 as stated fails when the ground truth carries no positive relevance:
    a single item of rating 0, recommended first, is a list in ground-truth
    order, and the guard [if idcg > 0 else 0] makes the answer 0. *)
Lemma ndcg_zero_relevance_counterexample :
  Evaluation._calculate_ndcg NdcgDemo.unrated_recommendations NdcgDemo.unrated_truth 10
  <> 1%R.
Proof.
  unfold Evaluation._calculate_ndcg.
  assert (Hl : Evaluation.relevance_lists NdcgDemo.unrated_recommendations
                 NdcgDemo.unrated_truth 10 = Some ([0%Q], [0%Q]))
    by (vm_compute; reflexivity).
  rewrite Hl.
  unfold Evaluation.dcg_of, Evaluation.discounted_sum, py_enumerate.
  cbn [py_enumerate_from fmap list_fmap foldl].
  destruct (Qlt_le_dec 0 0) as [Hlt|_]; [by apply Qlt_irrefl in Hlt|].
  rewrite RMicromega.Q2R_0.
  replace (0 + 0 / Evaluation.log2 (INR 0 + 2))%R with 0%R
    by (unfold Rdiv; rewrite Rmult_0_l; lra).
  destruct (Rlt_dec 0 0) as [Hlt|_]; lra.
Qed.

(** * Further properties of the pipeline *)

(** ** [models.py]: the recommenders *)

Lemma od_set_nodup (k : string) (v : Q) (d : odict) :
  NoDup (od_keys d) -> NoDup (od_keys (od_set k v d)).
Proof.
  unfold od_keys. induction d as [|[k' v'] d IH]; cbn; intros Hd.
  - apply NoDup_singleton.
  - apply NoDup_cons in Hd as [Hk' Hd].
    destruct (String.eqb_spec k k') as [->|Hne]; cbn.
    + by apply NoDup_cons.
    + apply NoDup_cons. split; [|by apply IH].
      intros Hin. apply (od_set_keys k v d), elem_of_cons in Hin as [->|Hin]; done.
Qed.

Lemma add_weighted_keys (s : Models.HybridRecommendationSystem) (w : string)
    (scores : list (string * Q)) (all all' : odict) :
  Models.add_weighted s w scores all = Some all' ->
  (NoDup (od_keys all) -> NoDup (od_keys all'))
  /\ od_keys all' ⊆ od_keys all ++ scores.*1.
Proof.
  unfold Models.add_weighted. revert all.
  induction scores as [|[item sc] scores IH]; intros all; cbn [foldl].
  - intros [= <-]. split; [done|]. by rewrite app_nil_r.
  - cbn [mbind option_bind]. destruct (Models.weights s !! w) as [weight|] eqn:Hw; cbn.
    + intros H. apply IH in H as [Hnd Hsub]. split.
      * intros Hall. by apply Hnd, od_set_nodup.
      * intros x Hx. apply Hsub, elem_of_app in Hx as [Hx|Hx].
        -- apply od_set_keys, elem_of_cons in Hx as [->|Hx].
           ++ apply elem_of_app. right. cbn. by left.
           ++ apply elem_of_app. by left.
        -- apply elem_of_app. right. cbn. by right.
    + intros H. exfalso. clear -H.
      induction scores as [|[i c] scores IHs]; cbn in H; [done|by apply IHs].
Qed.

Lemma add_diversity_keys (boost : Q) (diversity_scores all : odict) :
  (NoDup (od_keys all) -> NoDup (od_keys (Models.add_diversity boost diversity_scores all)))
  /\ od_keys (Models.add_diversity boost diversity_scores all) ⊆ od_keys all.
Proof.
  unfold Models.add_diversity. revert all.
  induction diversity_scores as [|[item dv] ds IH]; intros all; cbn [foldl]; [done|].
  destruct (od_get item all) as [sc|] eqn:Hget; [|apply IH].
  destruct (IH (od_set item (sc + dv * boost)%Q all)) as [Hnd Hsub]. split.
  - intros Hall. by apply Hnd, od_set_nodup.
  - intros x Hx. apply Hsub, od_set_keys, elem_of_cons in Hx as [->|Hx]; [|done].
    clear -Hget. unfold od_keys. induction all as [|[k v] all IH]; [done|].
    cbn in Hget |- *. destruct (String.eqb_spec item k) as [->|Hne]; [by left|].
    right. by apply IH.
Qed.

(** The item ids of the answer are the keys of [all_scores], cut to a prefix
    of their sorted order. *)
Lemma recommend_ids (np_argsort : list Q -> list nat) (clock : nat -> string)
    (s : Models.HybridRecommendationSystem) (user_id : string)
    (liked : list string) (n : Z) (boost : Q) (all_scores : odict) :
  Models.combined_scores np_argsort s user_id liked n boost = Some all_scores ->
  Models.item_id <$> Models.recommend np_argsort clock s user_id liked n boost
  = (py_slice_to n (py_sorted_desc snd all_scores)).*1.
Proof.
  intros H. unfold Models.recommend. rewrite H.
  rewrite <- (records_of_pairs clock (py_slice_to n (py_sorted_desc snd all_scores))) at 2.
  rewrite <- list_fmap_compose. done.
Qed.

Lemma combined_scores_keys (np_argsort : list Q -> list nat)
    (s : Models.HybridRecommendationSystem) (user_id : string)
    (liked : list string) (n : Z) (boost : Q) (all_scores : odict) :
  Models.combined_scores np_argsort s user_id liked n boost = Some all_scores ->
  NoDup (od_keys all_scores)
  /\ od_keys all_scores
     ⊆ match Models.ncf_model s with
       | Some ncf => (Models._get_collaborative_scores s ncf user_id (n * 2)).*1
       | None => []
       end
       ++ (Models.recommend_for_user np_argsort (Models.content_model s) liked (n * 2)).*1
       ++ (Models.get_popular_items (Models.popularity_model s) (n * 2)).*1.
Proof.
  unfold Models.combined_scores. intros H.
  destruct (match Models.ncf_model s with Some _ => _ | None => _ end)
    as [all1|] eqn:H1; [|done]. cbn [mbind option_bind] in H.
  destruct (Models.add_weighted s "content" _ all1) as [all2|] eqn:H2; [|done].
  cbn [mbind option_bind] in H.
  destruct (Models.add_weighted s "popularity" _ all2) as [all3|] eqn:H3; [|done].
  cbn [mbind option_bind] in H. injection H as <-.
  assert (Hall1 : NoDup (od_keys all1)
                  /\ od_keys all1
                     ⊆ match Models.ncf_model s with
                       | Some ncf =>
                           (Models._get_collaborative_scores s ncf user_id (n * 2)).*1
                       | None => []
                       end).
  { destruct (Models.ncf_model s) as [ncf|]; [|injection H1 as <-; split; [constructor|done]].
    case_bool_decide; [|injection H1 as <-; split; [constructor|]; apply list_subseteq_nil].
    apply add_weighted_keys in H1 as [Hnd Hsub]. split; [apply Hnd; constructor|].
    exact Hsub. }
  destruct Hall1 as [Hnd1 Hsub1].
  apply add_weighted_keys in H2 as [Hnd2 Hsub2].
  apply add_weighted_keys in H3 as [Hnd3 Hsub3].
  assert (Hnd : NoDup (od_keys all3)) by auto.
  assert (Hsub : od_keys all3
                 ⊆ match Models.ncf_model s with
                   | Some ncf =>
                       (Models._get_collaborative_scores s ncf user_id (n * 2)).*1
                   | None => []
                   end
                   ++ (Models.recommend_for_user np_argsort (Models.content_model s)
                         liked (n * 2)).*1
                   ++ (Models.get_popular_items (Models.popularity_model s) (n * 2)).*1).
  { intros x Hx. apply Hsub3, elem_of_app in Hx as [Hx|Hx].
    - apply Hsub2, elem_of_app in Hx as [Hx|Hx].
      + apply elem_of_app. left. by apply Hsub1.
      + apply elem_of_app. right. apply elem_of_app. by left.
    - apply elem_of_app. right. apply elem_of_app. by right. }
  destruct (Qlt_le_dec 0 boost); [|done].
  destruct (Models.diversity_injector s) as [f|]; [|done].
  destruct (add_diversity_keys boost (f (od_keys all3)) all3) as [Hd1 Hd2].
  split; [by apply Hd1|]. intros x Hx. by apply Hsub, Hd2.
Qed.

(** X1: no item is recommended twice: the item ids of the list returned by
    [HybridRecommendationSystem.recommend] are pairwise distinct, and each of
    them was proposed by the collaborative, the content-based or the
    popularity scorer. *)
Theorem recommend_distinct_from_sources (np_argsort : list Q -> list nat)
    (clock : nat -> string) (s : Models.HybridRecommendationSystem)
    (user_id : string) (user_liked_items : list string) (n_recommendations : Z)
    (diversity_boost : Q) :
  let out := Models.recommend np_argsort clock s user_id user_liked_items
               n_recommendations diversity_boost in
  NoDup (Models.item_id <$> out)
  /\ Models.item_id <$> out
     ⊆ match Models.ncf_model s with
       | Some ncf =>
           (Models._get_collaborative_scores s ncf user_id (n_recommendations * 2)).*1
       | None => []
       end
       ++ (Models.recommend_for_user np_argsort (Models.content_model s)
             user_liked_items (n_recommendations * 2)).*1
       ++ (Models.get_popular_items (Models.popularity_model s)
             (n_recommendations * 2)).*1.
Proof.
  intros out. subst out.
  destruct (Models.combined_scores np_argsort s user_id user_liked_items
              n_recommendations diversity_boost) as [all_scores|] eqn:H.
  2: { unfold Models.recommend. rewrite H. split; [constructor|apply list_subseteq_nil]. }
  rewrite (recommend_ids _ _ _ _ _ _ _ _ H).
  apply combined_scores_keys in H as [Hnd Hsub].
  assert (Hsl : (py_slice_to n_recommendations (py_sorted_desc snd all_scores)).*1
                `sublist_of` (py_sorted_desc snd all_scores).*1).
  { unfold py_slice_to. rewrite fmap_take. apply sublist_take. }
  assert (Hperm : (py_sorted_desc snd all_scores).*1 ≡ₚ od_keys all_scores).
  { unfold py_sorted_desc, od_keys. by rewrite py_sort_perm. }
  split.
  - eapply sublist_NoDup; [|exact Hsl]. by rewrite Hperm.
  - intros x Hx. apply Hsub. rewrite <- Hperm. eapply sublist_subseteq; [exact Hsl|done].
Qed.

(** A prefix of a descending sort holds the largest keys. *)
Lemma top_of_sorted_desc {A} (key : A -> Q) (n : Z) (l : list A) :
  let out := py_slice_to n (py_sorted_desc key l) in
  StronglySorted (fun a b => (key b <= key a)%Q) out
  /\ exists rest, out ++ rest ≡ₚ l
                  /\ forall x y, x ∈ out -> y ∈ rest -> (key y <= key x)%Q.
Proof.
  intros out. subst out. unfold py_slice_to.
  set (sorted := py_sorted_desc key l). set (i := py_bound (length sorted) n).
  pose proof (py_sorted_desc_sorted key l) as Hs. fold sorted in Hs.
  rewrite <- (take_drop i sorted) in Hs.
  apply StronglySorted_app in Hs as (H12 & H1 & H2).
  split; [exact H1|]. exists (drop i sorted). split.
  - rewrite take_drop. apply py_sort_perm.
  - intros x y Hx Hy. by apply H12.
Qed.

(** X2: [PopularityBasedRecommender.get_popular_items] answers a top-n list:
    it is sorted by descending popularity score, it consists of entries of
    [item_popularity], no entry left out scores more than an entry returned,
    and for [n_items >= 0] it has [min(n_items, len(item_popularity))]
    entries. *)
Theorem get_popular_items_top_n (p : Models.PopularityBasedRecommender) (n_items : Z) :
  let out := Models.get_popular_items p n_items in
  StronglySorted (fun a b => (b.2 <= a.2)%Q) out
  /\ (exists rest, out ++ rest ≡ₚ Models.item_popularity p
                   /\ forall x y, x ∈ out -> y ∈ rest -> (y.2 <= x.2)%Q)
  /\ ((0 <= n_items)%Z ->
      length out = Nat.min (Z.to_nat n_items) (length (Models.item_popularity p))).
Proof.
  intros out. subst out. unfold Models.get_popular_items.
  destruct (top_of_sorted_desc snd n_items (Models.item_popularity p)) as [Hs Htop].
  repeat split; [exact Hs|exact Htop|].
  intros Hn. unfold py_slice_to, py_sorted_desc.
  rewrite length_take, py_sort_length. unfold py_bound.
  destruct (Z.ltb_spec n_items 0); lia.
Qed.

Lemma get_similar_items_spec (np_argsort : list Q -> list nat)
    (m : Models.ContentBasedFiltering) (item : string) (n : Z) :
  let out := Models.get_similar_items np_argsort m item n in
  ((0 <= n)%Z -> (Z.of_nat (length out) <= n)%Z)
  /\ out.*1 ⊆ Models.item_ids m
  /\ (item ∉ Models.item_ids m -> out = []).
Proof.
  intros out. subst out. unfold Models.get_similar_items.
  destruct (Models.similarity_matrix m) as [matrix|];
    [|repeat split; solve [simpl; lia|apply list_subseteq_nil|done]].
  destruct (index_of item (Models.item_ids m)) as [item_idx|] eqn:Hidx.
  2: { repeat split; solve [simpl; lia|apply list_subseteq_nil|done]. }
  destruct (matrix !! item_idx) as [similarities|];
    cbn [mbind option_bind default from_option Datatypes.id];
    [|repeat split; solve [simpl; lia|apply list_subseteq_nil|done]].
  set (idxs := py_slice 1 (n + 1) (rev (np_argsort similarities))).
  destruct (mapM _ idxs) as [out|] eqn:Hm; cbn [default from_option Datatypes.id];
    [|repeat split; solve [simpl; lia|apply list_subseteq_nil|done]].
  repeat split.
  - intros Hn. rewrite <- (length_mapM _ _ _ Hm). subst idxs. unfold py_slice.
    rewrite length_take, length_drop. unfold py_bound. cbn [Z.ltb Z.compare].
    destruct (Z.ltb_spec (n + 1) 0); lia.
  - apply mapM_Some_1 in Hm. intros x Hx.
    apply list_elem_of_fmap in Hx as ([x' sim] & -> & Hx).
    apply list_elem_of_lookup in Hx as [i Hi].
    destruct (Forall2_lookup_r _ _ _ _ _ Hm Hi) as (idx & _ & Hf).
    cbn in Hf. destruct (Models.item_ids m !! idx) as [y|] eqn:Hy; [|done].
    cbn in Hf. destruct (similarities !! idx); [|done]. cbn in Hf.
    injection Hf as <- _. cbn. by eapply list_elem_of_lookup_2.
  - intros Hnot. exfalso. apply Hnot. clear -Hidx.
    revert item_idx Hidx. induction (Models.item_ids m) as [|y l IH]; intros i Hi; [done|].
    cbn in Hi. destruct (String.eqb_spec item y) as [->|Hne]; [by left|].
    right. destruct (index_of item l); [|done]. by eapply IH.
Qed.

(** X3: [ContentBasedFiltering.get_similar_items] returns ids of the fitted
    model only, at most [n_recommendations] of them for a non-negative
    [n_recommendations], and nothing for an item the model does not know. *)
Theorem get_similar_items_bounded (np_argsort : list Q -> list nat)
    (m : Models.ContentBasedFiltering) (item : string) (n_recommendations : Z) :
  let out := Models.get_similar_items np_argsort m item n_recommendations in
  ((0 <= n_recommendations)%Z -> (Z.of_nat (length out) <= n_recommendations)%Z)
  /\ out.*1 ⊆ Models.item_ids m
  /\ (item ∉ Models.item_ids m -> out = []).
Proof. apply get_similar_items_spec. Qed.

Lemma collect_similar_nodup (np_argsort : list Q -> list nat)
    (m : Models.ContentBasedFiltering) (liked : list string) (n : Z) :
  NoDup (od_keys (Models.collect_similar np_argsort m liked n))
  /\ od_keys (Models.collect_similar np_argsort m liked n) ⊆ Models.item_ids m.
Proof.
  unfold Models.collect_similar.
  set (step := fun (all : odict) '(similar_item_id, similarity) =>
                 if bool_decide (similar_item_id ∈ liked) then all
                 else match od_get similar_item_id all with
                      | Some s => od_set similar_item_id (s + similarity)%Q all
                      | None => od_set similar_item_id similarity all
                      end).
  set (Inv := fun all : odict => NoDup (od_keys all) /\ od_keys all ⊆ Models.item_ids m).
  assert (Hstep : forall sims all, sims.*1 ⊆ Models.item_ids m ->
                                   Inv all -> Inv (foldl step all sims)).
  { induction sims as [|[sid sim] sims IHs]; intros all Hsims Hinv; [exact Hinv|].
    cbn [foldl]. apply IHs; [intros x Hx; apply Hsims; cbn; by right|].
    unfold step. case_bool_decide; [exact Hinv|]. destruct Hinv as [Hnd Hsub].
    assert (Hsid : sid ∈ Models.item_ids m) by (apply Hsims; cbn; left).
    destruct (od_get sid all); (split; [by apply od_set_nodup|]);
      intros x [->|Hx]%od_set_keys%elem_of_cons; auto. }
  assert (Hfold : forall items all, Inv all ->
             Inv (foldl (fun all item =>
                           foldl step all
                             (Models.get_similar_items np_argsort m item (n * 2)))
                        all items)).
  { induction items as [|it its IH]; intros all Hinv; [exact Hinv|].
    cbn [foldl]. apply IH, Hstep; [|exact Hinv].
    apply (get_similar_items_spec np_argsort m it (n * 2)). }
  apply Hfold. split; [constructor|apply list_subseteq_nil].
Qed.

(** X4: [ContentBasedFiltering.recommend_for_user] returns a list sorted by
    descending aggregated similarity, in which no item occurs twice and every
    item is an item of the fitted model; a non-negative [n_recommendations]
    bounds its length, and an empty liked list gives an empty answer. *)
Theorem recommend_for_user_sorted_distinct (np_argsort : list Q -> list nat)
    (m : Models.ContentBasedFiltering) (user_liked_items : list string)
    (n_recommendations : Z) :
  let out := Models.recommend_for_user np_argsort m user_liked_items n_recommendations in
  StronglySorted (fun a b => (b.2 <= a.2)%Q) out
  /\ NoDup out.*1
  /\ out.*1 ⊆ Models.item_ids m
  /\ ((0 <= n_recommendations)%Z -> (Z.of_nat (length out) <= n_recommendations)%Z)
  /\ (user_liked_items = [] -> out = []).
Proof.
  intros out. subst out.
  assert (Hempty : user_liked_items = [] ->
                   Models.recommend_for_user np_argsort m user_liked_items
                     n_recommendations = []) by (by intros ->).
  unfold Models.recommend_for_user in *.
  destruct user_liked_items as [|it its] eqn:Hl.
  { repeat split; [constructor|constructor|apply list_subseteq_nil|simpl; lia]. }
  rewrite <- Hl in *. clear Hl it its.
  destruct (collect_similar_nodup np_argsort m user_liked_items n_recommendations)
    as [Hnd Hsub].
  set (all := Models.collect_similar np_argsort m user_liked_items n_recommendations) in *.
  assert (Hsl : (py_slice_to n_recommendations (py_sorted_desc snd all)).*1
                `sublist_of` (py_sorted_desc snd all).*1).
  { unfold py_slice_to. rewrite fmap_take. apply sublist_take. }
  assert (Hperm : (py_sorted_desc snd all).*1 ≡ₚ od_keys all).
  { unfold py_sorted_desc, od_keys. by rewrite py_sort_perm. }
  repeat split.
  - apply top_of_sorted_desc.
  - eapply sublist_NoDup; [|exact Hsl]. by rewrite Hperm.
  - intros x Hx. apply Hsub. rewrite <- Hperm. eapply sublist_subseteq; [exact Hsl|done].
  - apply py_slice_to_length.
  - exact Hempty.
Qed.

Lemma py_slice_to_nil {A} (n : Z) : py_slice_to n ([] : list A) = [].
Proof. unfold py_slice_to. apply take_nil. Qed.

Lemma add_diversity_nil (boost : Q) (diversity_scores : odict) :
  Models.add_diversity boost diversity_scores [] = [].
Proof.
  unfold Models.add_diversity.
  induction diversity_scores as [|[item dv] ds IH]; [done|exact IH].
Qed.

Lemma collect_similar_unfitted (np_argsort : list Q -> list nat)
    (m : Models.ContentBasedFiltering) (liked : list string) (n : Z) :
  Models.similarity_matrix m = None ->
  Models.collect_similar np_argsort m liked n = [].
Proof.
  intros Hm. unfold Models.collect_similar.
  assert (Hsim : forall item k, Models.get_similar_items np_argsort m item k = [])
    by (intros; unfold Models.get_similar_items; by rewrite Hm).
  assert (Hfold : forall (f : odict -> string * Q -> odict) items acc,
             foldl (fun all item =>
                      foldl f all (Models.get_similar_items np_argsort m item (n * 2)))
                   acc items = acc).
  { intros f. induction items as [|it its IH]; intros acc; [done|].
    cbn [foldl]. rewrite Hsim. cbn [foldl]. apply IH. }
  apply Hfold.
Qed.

(** X5: a hybrid system none of whose models is fitted (no collaborative
    model, no similarity matrix, no popularity table) answers the empty list
    for every user: a missing model contributes nothing and raises nothing. *)
Theorem recommend_unfitted_empty (np_argsort : list Q -> list nat)
    (clock : nat -> string) (s : Models.HybridRecommendationSystem)
    (user_id : string) (user_liked_items : list string) (n_recommendations : Z)
    (diversity_boost : Q) :
  Models.ncf_model s = None ->
  Models.similarity_matrix (Models.content_model s) = None ->
  Models.item_popularity (Models.popularity_model s) = [] ->
  Models.recommend np_argsort clock s user_id user_liked_items n_recommendations
    diversity_boost = [].
Proof.
  intros Hncf Hcb Hpop.
  assert (H : Models.combined_scores np_argsort s user_id user_liked_items
                n_recommendations diversity_boost = Some []).
  { unfold Models.combined_scores. rewrite Hncf. cbn [mbind option_bind].
    assert (Hr : Models.recommend_for_user np_argsort (Models.content_model s)
                   user_liked_items (n_recommendations * 2) = []).
    { unfold Models.recommend_for_user. destruct user_liked_items; [done|].
      rewrite collect_similar_unfitted by exact Hcb.
      change (py_sorted_desc snd []) with ([] : list (string * Q)).
      apply py_slice_to_nil. }
    rewrite Hr. cbn [Models.add_weighted foldl mbind option_bind].
    unfold Models.get_popular_items. rewrite Hpop.
    change (py_sorted_desc snd []) with ([] : list (string * Q)).
    rewrite py_slice_to_nil.
    cbn [Models.add_weighted foldl mbind option_bind]. f_equal.
    destruct (Qlt_le_dec 0 diversity_boost); [|done].
    destruct (Models.diversity_injector s); [|done]. apply add_diversity_nil. }
  unfold Models.recommend. rewrite H.
  change (py_sorted_desc snd []) with ([] : list (string * Q)).
  by rewrite py_slice_to_nil.
Qed.

Lemma recommend_unfitted_empty_witness :
  Models.recommend Demo.argsort Demo.clock UnfittedDemo.system "u" ["a"; "b"] 5 (1 # 2) = [].
Proof. apply recommend_unfitted_empty; reflexivity. Defined.

(** X6: [_get_collaborative_scores] returns items of the item encoder,
    sorted by descending predicted score, at most [n_items] of them for a
    non-negative [n_items]; a user the encoder does not know gets nothing. *)
Theorem collaborative_scores_sorted (s : Models.HybridRecommendationSystem)
    (ncf : Models.NeuralCollaborativeFiltering) (user_id : string) (n_items : Z) :
  let out := Models._get_collaborative_scores s ncf user_id n_items in
  StronglySorted (fun a b => (b.2 <= a.2)%Q) out
  /\ out.*1 ⊆ Models.item_encoder s
  /\ ((0 <= n_items)%Z -> (Z.of_nat (length out) <= n_items)%Z)
  /\ (index_of user_id (Models.user_encoder s) = None -> out = []).
Proof.
  intros out. subst out. unfold Models._get_collaborative_scores.
  destruct (index_of user_id (Models.user_encoder s)) as [user_idx|].
  2: { repeat split; solve [constructor|apply list_subseteq_nil|simpl; lia]. }
  destruct (mapM _ _) as [item_scores|] eqn:Hm.
  2: { repeat split; solve [constructor|apply list_subseteq_nil|simpl; lia|done]. }
  repeat split.
  - apply top_of_sorted_desc.
  - intros x Hx. apply list_elem_of_fmap in Hx as ([x' sc] & -> & Hx). cbn.
    apply py_slice_to_subseteq in Hx. unfold py_sorted_desc in Hx.
    rewrite py_sort_perm in Hx. apply mapM_Some_1 in Hm.
    apply list_elem_of_lookup in Hx as [i Hi].
    destruct (Forall2_lookup_r _ _ _ _ _ Hm Hi) as ([idx sc'] & _ & Hf).
    cbn in Hf. destruct (Models.item_encoder s !! idx) as [y|] eqn:Hy; [|done].
    cbn in Hf. injection Hf as <- _. by eapply list_elem_of_lookup_2.
  - apply py_slice_to_length.
  - done.
Qed.

(** ** [debiasing.py]: popularity debiasing of a list *)

(** The dictionary that one iteration of [debias_scores] appends for [rec]. *)
Lemma debias_fold (np_exp : Q -> Q) (self : Debiasing.PopularityDebiaser)
    (track_metadata : gmap string TrackInfo) (h0 : heap) (l : list addr) :
  forall (h' : heap) (k : list addr),
    foldl (fun st a => st ← st; Debiasing.debias_one np_exp self track_metadata st a)
          (Some (h0, [])) l = Some (h', k) ->
    k = seq (length h0) (length l)
    /\ exists copies,
         h' = h0 ++ copies /\ length copies = length l
         /\ forall i a rec,
              l !! i = Some a -> h0 !! a = Some rec ->
              exists s item mean,
                get_num rec "score" = Some s
                /\ rec !! "item_id" = Some item
                /\ Debiasing.popularity_stats self !! "mean" = Some mean
                /\ copies !! i
                   = Some (let penalty :=
                             Debiasing._calculate_popularity_penalty np_exp self
                               (default mean
                                  (track_popularity (track_get track_metadata item))) in
                           <["popularity_penalty" := VNum penalty]>
                             (<["original_score" := VNum s]>
                                (<["score" :=
                                     VNum (s * (1 - Debiasing.debiasing_strength self
                                                    * penalty))]> rec))).
Proof.
  induction l as [|a l IH] using rev_ind; intros h' k Hf.
  - cbn in Hf. injection Hf as <- <-. split; [done|]. exists []. rewrite app_nil_r.
    repeat split. intros i a rec Hi. by rewrite lookup_nil in Hi.
  - rewrite foldl_app in Hf. cbn [foldl] in Hf.
    destruct (foldl _ _ l) as [[h1 k1]|]; [|done].
    destruct (IH h1 k1 eq_refl) as (-> & copies & -> & Hlen & Hcopies).
    cbn [mbind option_bind] in Hf. unfold Debiasing.debias_one in Hf.
    destruct ((h0 ++ copies) !! a) as [rec|] eqn:Hrec; [|done].
    cbn [mbind option_bind] in Hf.
    destruct (rec !! "item_id") as [item|] eqn:Hitem; [|done].
    cbn [mbind option_bind] in Hf.
    destruct (get_num rec "score") as [s|] eqn:Hs; [|done].
    cbn [mbind option_bind] in Hf.
    destruct (Debiasing.popularity_stats self !! "mean") as [mean|] eqn:Hmean; [|done].
    cbn [mbind option_bind heap_alloc] in Hf. injection Hf as <- <-.
    split.
    { rewrite !length_app. cbn [length]. rewrite Hlen.
      replace (length l + 1)%nat with (S (length l)) by lia. by rewrite seq_S. }
    eexists (copies ++ [_]). split; [by rewrite app_assoc|].
    split; [rewrite !length_app; cbn; lia|].
    intros i a' rec' Hi Hrec'.
    destruct (decide (i < length l)%nat) as [Hlt|Hge].
    + rewrite lookup_app_l in Hi by exact Hlt.
      destruct (Hcopies i a' rec' Hi Hrec') as (s' & item' & mean' & H1 & H2 & H3 & H4).
      exists s', item', mean'. repeat split; try done.
      rewrite lookup_app_l by lia. exact H4.
    + assert (i = length l) as ->.
      { apply lookup_lt_Some in Hi. rewrite length_app in Hi. cbn in Hi. lia. }
      rewrite list_lookup_middle in Hi by done. injection Hi as <-.
      rewrite lookup_app_l in Hrec by (by eapply lookup_lt_Some).
      rewrite Hrec' in Hrec. injection Hrec as ->.
      exists s, item, mean. repeat split; try done.
      rewrite <- Hlen. by rewrite list_lookup_middle.
Qed.

(** X7: on its normal path [debias_scores] returns fresh copies, one per
    input entry and none shared with the input: the returned addresses are
    exactly the newly allocated ones, sorted by descending debiased score;
    the copy of an entry records the entry's score as [original_score] and
    agrees with the entry on every key other than [score], [original_score]
    and [popularity_penalty]. *)
Theorem debias_scores_fresh_copies (np_exp : Q -> Q)
    (self : Debiasing.PopularityDebiaser) (h : heap) (recommendations : list addr)
    (track_metadata : gmap string TrackInfo) :
  let out := Debiasing.debias_scores np_exp self h recommendations track_metadata in
  raised out = false ->
  returned out ≡ₚ seq (length h) (length recommendations)
  /\ StronglySorted (fun a b => (num_field (store out) "score" b
                                 <= num_field (store out) "score" a)%Q) (returned out)
  /\ forall i a rec,
       recommendations !! i = Some a -> h !! a = Some rec ->
       exists d, store out !! (length h + i)%nat = Some d
                 /\ get_num d "original_score" = get_num rec "score"
                 /\ forall k, k ∉ ["score"; "original_score"; "popularity_penalty"] ->
                              d !! k = rec !! k.
Proof.
  intros out. subst out. unfold Debiasing.debias_scores.
  destruct (foldl _ _ recommendations) as [[h' k]|] eqn:Hf; cbn; [intros _|done].
  apply debias_fold in Hf as (-> & copies & -> & Hlen & Hcopies).
  split; [unfold py_sorted_desc; by rewrite py_sort_perm|].
  split; [apply py_sorted_desc_sorted|].
  intros i a rec Hi Hrec.
  destruct (Hcopies i a rec Hi Hrec) as (s & item & mean & Hs & _ & _ & Hd).
  eexists. split; [by rewrite lookup_app_r, Nat.add_comm, Nat.add_sub by lia|].
  cbv zeta. split.
  - unfold get_num at 1. rewrite lookup_insert_ne by done.
    rewrite lookup_insert_eq. cbn. by rewrite Hs.
  - intros key Hkey. rewrite !lookup_insert_ne; [done|..];
      intros <-; apply Hkey; set_solver.
Qed.

Lemma debias_scores_fresh_copies_witness :
  let out := Debiasing.debias_scores DebiasDemo.exp_approx DebiasDemo.debiaser
               DebiasDemo.objects DebiasDemo.recommendations DebiasDemo.track_metadata in
  returned out ≡ₚ seq (length DebiasDemo.objects) (length DebiasDemo.recommendations)
  /\ StronglySorted (fun a b => (num_field (store out) "score" b
                                 <= num_field (store out) "score" a)%Q) (returned out)
  /\ forall i a rec,
       DebiasDemo.recommendations !! i = Some a -> DebiasDemo.objects !! a = Some rec ->
       exists d, store out !! (length DebiasDemo.objects + i)%nat = Some d
                 /\ get_num d "original_score" = get_num rec "score"
                 /\ forall k, k ∉ ["score"; "original_score"; "popularity_penalty"] ->
                              d !! k = rec !! k.
Proof.
  apply (debias_scores_fresh_copies DebiasDemo.exp_approx DebiasDemo.debiaser
           DebiasDemo.objects DebiasDemo.recommendations DebiasDemo.track_metadata).
  vm_compute. reflexivity.
Defined.

(** X8: with [debiasing_strength = 0] ("0 = no debiasing") every debiased
    score equals the original score of its entry. *)
Theorem debias_scores_strength_zero (np_exp : Q -> Q)
    (self : Debiasing.PopularityDebiaser) (h : heap) (recommendations : list addr)
    (track_metadata : gmap string TrackInfo) (i : nat) (a : addr) (rec : pydict) (s : Q) :
  let out := Debiasing.debias_scores np_exp self h recommendations track_metadata in
  (Debiasing.debiasing_strength self == 0)%Q ->
  raised out = false ->
  recommendations !! i = Some a -> h !! a = Some rec -> get_num rec "score" = Some s ->
  (num_field (store out) "score" (length h + i)%nat == s)%Q.
Proof.
  intros out. subst out. unfold Debiasing.debias_scores.
  destruct (foldl _ _ recommendations) as [[h' k]|] eqn:Hf; cbn; [|done].
  intros Hz _ Hi Hrec Hs.
  apply debias_fold in Hf as (-> & copies & -> & Hlen & Hcopies).
  destruct (Hcopies i a rec Hi Hrec) as (s' & item & mean & Hs' & _ & _ & Hd).
  rewrite Hs in Hs'. injection Hs' as <-.
  unfold num_field. rewrite lookup_app_r, Nat.add_comm, Nat.add_sub by lia.
  rewrite Hd. cbv zeta. cbn [mbind option_bind]. unfold get_num.
  rewrite !lookup_insert_ne by done. rewrite lookup_insert_eq. cbn.
  rewrite Hz. ring.
Qed.

Lemma debias_scores_strength_zero_witness :
  (num_field
     (store (Debiasing.debias_scores DebiasDemo.exp_approx DebiasMore.neutral_debiaser
               DebiasDemo.objects DebiasDemo.recommendations DebiasDemo.track_metadata))
     "score" (length DebiasDemo.objects + 0)%nat == 4)%Q.
Proof.
  apply (debias_scores_strength_zero DebiasDemo.exp_approx DebiasMore.neutral_debiaser
           DebiasDemo.objects DebiasDemo.recommendations DebiasDemo.track_metadata
           0%nat 0%nat (DebiasDemo.rec "t1" 4) 4);
    vm_compute; reflexivity.
Defined.

(** ** [debiasing.py]: the popularity penalty curve, continued *)

(** X9: the popularity penalty is a number in [0, 1] on every path of
    [_calculate_popularity_penalty], whatever the statistics and the
    popularity are, as long as [np.exp] returns nothing negative.  It is 0
    when the statistics lack [max] or [min] (the handler's answer), and when
    the fitted range is empty ([max <= min]) every track gets the same
    penalty [1 / (1 + exp(0))], which is 1/2 when [np.exp] maps 0 to 1. *)
Theorem popularity_penalty_range (np_exp : Q -> Q)
    (self : Debiasing.PopularityDebiaser) (popularity : Q) :
  (forall x, 0 <= np_exp x)%Q ->
  let penalty := Debiasing._calculate_popularity_penalty np_exp self popularity in
  (0 <= penalty <= 1)%Q
  /\ (Debiasing.popularity_stats self !! "max" = None
      \/ Debiasing.popularity_stats self !! "min" = None -> penalty = 0%Q)
  /\ (forall pop_max pop_min,
        Debiasing.popularity_stats self !! "max" = Some pop_max ->
        Debiasing.popularity_stats self !! "min" = Some pop_min ->
        (pop_max <= pop_min)%Q ->
        (forall x, x == 0 -> np_exp x == 1)%Q ->
        (penalty == 1 # 2)%Q).
Proof.
  intros Hexp penalty. subst penalty. unfold Debiasing._calculate_popularity_penalty.
  assert (Hsig : forall x, (0 <= 1 / (1 + np_exp x) <= 1)%Q).
  { intros x. pose proof (Hexp x) as Hx. split.
    - apply Qle_shift_div_l; lra.
    - apply Qle_shift_div_r; lra. }
  destruct (Debiasing.popularity_stats self !! "max") as [pop_max|];
    cbn [mbind option_bind default from_option].
  2: { split; [split; discriminate|]. split; [done|]. by intros ? ? [=]. }
  destruct (Debiasing.popularity_stats self !! "min") as [pop_min|];
    cbn [mbind option_bind default from_option].
  2: { split; [split; discriminate|]. split; [done|]. by intros ? ? _ [=]. }
  unfold Datatypes.id. split; [apply Hsig|]. split; [by intros [[=]|[=]]|].
  intros ? ? [= <-] [= <-] Hle Hone.
  destruct (Qlt_le_dec 0 (pop_max - pop_min)) as [Hlt|_]; [lra|].
  assert (H1 : (np_exp (- (10) * ((1 # 2) - (1 # 2))) == 1)%Q) by (apply Hone; ring).
  revert H1. generalize (np_exp (- (10) * ((1 # 2) - (1 # 2)))%Q) as e. intros e He.
  apply Qeq_trans with (1 / (1 + 1))%Q; [|reflexivity].
  unfold Qdiv. apply Qmult_comp; [reflexivity|]. apply Qinv_comp. lra.
Qed.

Lemma exp_approx_nonneg (x : Q) : (0 <= DebiasDemo.exp_approx x)%Q.
Proof.
  unfold DebiasDemo.exp_approx. destruct (Qlt_le_dec x 0) as [Hneg|Hpos]; [|lra].
  apply Qle_shift_div_l; lra.
Qed.

Lemma popularity_penalty_range_witness :
  (0 <= Debiasing._calculate_popularity_penalty DebiasDemo.exp_approx DebiasDemo.debiaser 80
     <= 1)%Q.
Proof.
  apply (popularity_penalty_range DebiasDemo.exp_approx DebiasDemo.debiaser 80).
  exact exp_approx_nonneg.
Defined.

Section PenaltyRange.
Local Open Scope R_scope.

Lemma sigmoid_bounds (x : R) : 0 < 1 / (1 + exp (- 10 * (x - 1 / 2))) < 1.
Proof.
  pose proof (exp_pos (- 10 * (x - 1 / 2))) as Hx.
  revert Hx. generalize (exp (- 10 * (x - 1 / 2))) as ex. intros ex Hx.
  split.
  - apply Rdiv_lt_0_compat; lra.
  - apply (Rmult_lt_reg_r (1 + ex)); [lra|].
    unfold Rdiv. rewrite Rmult_assoc, Rinv_l by lra. lra.
Qed.

(** X10: for a debiasing strength in [0, 1], debiasing never raises a
    non-negative score and never makes it negative. *)
Theorem debiased_score_between (debiasing_strength pop_min pop_max : R)
    (original_score popularity : R) :
  0 <= debiasing_strength <= 1 ->
  0 <= original_score ->
  0 <= DebiasingReal.debiased_score debiasing_strength pop_min pop_max
         original_score popularity
    <= original_score.
Proof.
  intros Hk Hs. unfold DebiasingReal.debiased_score.
  assert (Hp : 0 < DebiasingReal._calculate_popularity_penalty pop_min pop_max
                     popularity < 1) by apply sigmoid_bounds.
  revert Hp.
  generalize (DebiasingReal._calculate_popularity_penalty pop_min pop_max popularity)
    as q.
  intros q Hq.
  assert (Hkq : 0 <= debiasing_strength * q <= 1).
  { split; [apply Rmult_le_pos; lra|].
    replace 1 with (1 * 1) by lra. apply Rmult_le_compat; lra. }
  split.
  - apply Rmult_le_pos; lra.
  - replace original_score with (original_score * 1) at 2 by lra.
    apply Rmult_le_compat_l; lra.
Qed.

Lemma debiased_score_between_witness :
  0 <= DebiasingReal.debiased_score (1 / 2) 0 100 3 80 <= 3.
Proof. apply debiased_score_between; lra. Defined.

End PenaltyRange.

(** ** [debiasing.py]: fairness flags, continued *)

Lemma py_enumerate_from_elem {A} (l : list A) (start i : nat) (x : A) :
  (i, x) ∈ py_enumerate_from start l -> (start <= i)%nat /\ l !! (i - start)%nat = Some x.
Proof.
  revert start. induction l as [|y l IH]; intros start Hin; cbn in Hin.
  - by apply elem_of_nil in Hin.
  - apply elem_of_cons in Hin as [[= -> ->]|Hin].
    + split; [lia|]. by rewrite Nat.sub_diag.
    + apply IH in Hin as [Hle Hl]. split; [lia|].
      replace (i - start)%nat with (S (i - S start)) by lia. exact Hl.
Qed.

(** The flag loop, read address by address. *)
Lemma flag_loop_lookup (l : list addr) (indices : list nat) (b : addr) :
  forall h : heap,
    foldl (fun h i =>
             match l !! i with
             | Some a => heap_set a "needs_niche_replacement" (VBool true) h
             | None => h
             end) h indices !! b
    = if bool_decide (b ∈ omap (l !!.) indices)
      then <["needs_niche_replacement" := VBool true]> <$> h !! b
      else h !! b.
Proof.
  induction indices as [|i indices IH]; intros h.
  { cbn [foldl omap]. case_bool_decide as H; [by apply elem_of_nil in H|done]. }
  cbn [foldl omap]. rewrite IH. destruct (l !! i) as [a|] eqn:Hi; cbn; rewrite ?Hi; [|done].
  fold (omap (l !!.) indices). unfold heap_set. rewrite list_lookup_alter.
  destruct (decide (a = b)) as [->|Hne].
  - rewrite (bool_decide_eq_true_2 (b ∈ b :: _)) by (by left).
    case_bool_decide; [|done].
    destruct (h !! b); cbn; [|done]. by rewrite insert_insert_eq.
  - case_bool_decide as H1; case_bool_decide as H2; try done.
    + exfalso. apply H2. by right.
    + exfalso. apply elem_of_cons in H2 as [->|H2]; done.
Qed.

Lemma is_mainstream_flagged (self : Debiasing.FairnessConstraintEnforcer)
    (track_metadata : gmap string TrackInfo) (h h' : heap) (a : addr) :
  Forall2 Debiasing.flagged h h' ->
  Debiasing.is_mainstream self track_metadata h' a
  = Debiasing.is_mainstream self track_metadata h a
  /\ Debiasing.current_artist track_metadata h' a
     = Debiasing.current_artist track_metadata h a.
Proof.
  intros H. unfold Debiasing.is_mainstream, Debiasing.current_artist.
  destruct (h !! a) as [d|] eqn:E.
  - destruct (Forall2_lookup_l _ _ _ _ _ H E) as (d' & -> & Hf).
    destruct Hf as [-> | ->]; [done|]. cbn. by rewrite lookup_insert_ne.
  - assert (h' !! a = None) as ->; [|done].
    apply lookup_ge_None. rewrite <- (Forall2_length _ _ _ H).
    by apply lookup_ge_None.
Qed.

(** The corrections flag the objects at the positions [indices] of the list;
    the positions depend on the item ids only, so they are the same for two
    stores that differ in flags, and each of them holds a mainstream entry. *)
Lemma _apply_fairness_corrections_indices (self : Debiasing.FairnessConstraintEnforcer)
    (h h' : heap) (recommendations : list addr) (v : Debiasing.violations)
    (track_metadata : gmap string TrackInfo) :
  Forall2 Debiasing.flagged h h' ->
  exists indices,
    (forall i, i ∈ indices ->
               exists a, recommendations !! i = Some a
                         /\ Debiasing.is_mainstream self track_metadata h a = Some true)
    /\ forall g, g = h \/ g = h' ->
         Debiasing._apply_fairness_corrections self g recommendations v track_metadata
         = (recommendations,
            foldl (fun h i =>
                     match recommendations !! i with
                     | Some a => heap_set a "needs_niche_replacement" (VBool true) h
                     | None => h
                     end) g indices).
Proof.
  intros Hfl. unfold Debiasing._apply_fairness_corrections.
  destruct (Debiasing.insufficient_niche v) as [deficit|].
  2: { exists []. split; [by intros i Hi%elem_of_nil|]. by intros g _. }
  assert (Hext : mapM (fun '(i, a) =>
                         b ← Debiasing.is_mainstream self track_metadata h' a; Some (i, b))
                      (py_enumerate recommendations)
                 = mapM (fun '(i, a) =>
                           b ← Debiasing.is_mainstream self track_metadata h a; Some (i, b))
                        (py_enumerate recommendations)).
  { apply mapM_ext. intros [i a].
    by rewrite (proj1 (is_mainstream_flagged self track_metadata h h' a Hfl)). }
  destruct (mapM (fun '(i, a) =>
                    b ← Debiasing.is_mainstream self track_metadata h a; Some (i, b))
                 (py_enumerate recommendations)) as [flags|] eqn:Hm.
  2: { exists []. split; [by intros i Hi%elem_of_nil|].
       intros g [->| ->]; [by rewrite Hm|by rewrite Hext]. }
  eexists. split; [|intros g [->| ->]; [by rewrite Hm|by rewrite Hext]].
  intros i Hi. apply py_slice_to_subseteq in Hi.
  apply list_elem_of_fmap in Hi as ([i' b] & -> & Hi). cbn.
  apply list_elem_of_In, List.filter_In in Hi as [Hi Hb]. cbn in Hb. subst b.
  apply list_elem_of_In in Hi. apply mapM_Some_1 in Hm.
  apply list_elem_of_lookup in Hi as [j Hj].
  destruct (Forall2_lookup_r _ _ _ _ _ Hm Hj) as ([i0 a] & Hen & Hf).
  destruct (Debiasing.is_mainstream self track_metadata h a) as [b|] eqn:Hma; [|done].
  cbn in Hf. injection Hf as -> ->.
  apply list_elem_of_lookup_2, py_enumerate_from_elem in Hen as [_ Hl].
  rewrite Nat.sub_0_r in Hl. by exists a.
Qed.

Lemma enforce_fairness_store_cases
    (self : Debiasing.FairnessConstraintEnforcer) (h : heap)
    (recommendations : list addr) (track_metadata : gmap string TrackInfo)
    (artist_metadata : gmap string ArtistInfo) (a : addr) :
  let out := Debiasing.enforce_fairness self h recommendations track_metadata
               artist_metadata in
  store out !! a = h !! a
  \/ (a ∈ recommendations
      /\ Debiasing.is_mainstream self track_metadata h a = Some true).
Proof.
  intros out. subst out. unfold Debiasing.enforce_fairness.
  destruct (mapM _ recommendations) as [artists|]; [|by left].
  set (v := Debiasing._check_fairness_violations _ _ _).
  destruct (_apply_fairness_corrections_indices self h h recommendations v
              track_metadata (flagged_refl h)) as (indices & Hidx & Happly).
  rewrite (Happly h (or_introl eq_refl)).
  assert (Hloop : foldl (fun h i =>
                     match recommendations !! i with
                     | Some a => heap_set a "needs_niche_replacement" (VBool true) h
                     | None => h
                     end) h indices !! a = h !! a
                  \/ (a ∈ recommendations
                      /\ Debiasing.is_mainstream self track_metadata h a = Some true)).
  { rewrite flag_loop_lookup. case_bool_decide as Hin; [|by left]. right.
    apply list_elem_of_omap in Hin as (i & Hi & Hl).
    destruct (Hidx i Hi) as (a' & Ha' & Hm). rewrite Hl in Ha'. injection Ha' as <-.
    split; [by eapply list_elem_of_lookup_2|exact Hm]. }
  destruct (Debiasing.insufficient_niche v), (Debiasing.insufficient_genre_diversity v);
    cbn [store]; (exact Hloop || by left).
Qed.

(** X11: the only dictionaries [enforce_fairness] touches belong to entries
    of the list whose artist is in the [mainstream] tier: every object of
    the store is as it was, unless it is such an entry. *)
Theorem enforce_fairness_flags_mainstream_only
    (self : Debiasing.FairnessConstraintEnforcer) (h : heap)
    (recommendations : list addr) (track_metadata : gmap string TrackInfo)
    (artist_metadata : gmap string ArtistInfo) (a : addr) :
  let out := Debiasing.enforce_fairness self h recommendations track_metadata
               artist_metadata in
  store out !! a = h !! a
  \/ (a ∈ recommendations
      /\ Debiasing.is_mainstream self track_metadata h a = Some true).
Proof. intros out. apply enforce_fairness_store_cases. Qed.

Lemma enforce_fairness_flagged_store (self : Debiasing.FairnessConstraintEnforcer)
    (h : heap) (recommendations : list addr) (track_metadata : gmap string TrackInfo)
    (artist_metadata : gmap string ArtistInfo) :
  let out := Debiasing.enforce_fairness self h recommendations track_metadata
               artist_metadata in
  returned out = recommendations /\ Forall2 Debiasing.flagged h (store out).
Proof.
  intros out. subst out. unfold Debiasing.enforce_fairness.
  destruct (mapM _ recommendations) as [artists|]; [|split; [done|apply flagged_refl]].
  set (v := Debiasing._check_fairness_violations _ _ _).
  pose proof (_apply_fairness_corrections_flagged self h recommendations v
                track_metadata) as [Hl Hh].
  destruct (Debiasing._apply_fairness_corrections _ _ _ _ _) as [l h'].
  simpl in Hl, Hh. subst l.
  destruct (Debiasing.insufficient_niche v),
           (Debiasing.insufficient_genre_diversity v);
    split; try done; apply flagged_refl.
Qed.

(** X12: enforcing fairness a second time changes nothing: the second call
    returns the same list and leaves the store of the first call as it is. *)
Theorem enforce_fairness_idempotent (self : Debiasing.FairnessConstraintEnforcer)
    (h : heap) (recommendations : list addr) (track_metadata : gmap string TrackInfo)
    (artist_metadata : gmap string ArtistInfo) :
  let once := Debiasing.enforce_fairness self h recommendations track_metadata
                artist_metadata in
  Debiasing.enforce_fairness self (store once) (returned once) track_metadata
    artist_metadata = once.
Proof.
  intros once. subst once.
  (* a closed form of the call, for any store that differs from [h] in flags *)
  assert (Hform : forall g, Forall2 Debiasing.flagged h g ->
            Debiasing.enforce_fairness self g recommendations track_metadata
              artist_metadata
            = match mapM (Debiasing.current_artist track_metadata h) recommendations with
              | None => {| returned := recommendations; caller_list := recommendations;
                           store := g; raised := true |}
              | Some artists =>
                  let current_artists := omap (fun artist => artist) artists in
                  let current_genres : gset string :=
                    list_to_set
                      (current_artists ≫= fun artist =>
                         default [] (artist_genres
                                       (default no_artist_info
                                          (artist_metadata !! artist)))) in
                  let v := Debiasing._check_fairness_violations self current_artists
                             current_genres in
                  {| returned := recommendations; caller_list := recommendations;
                     store := match Debiasing.insufficient_niche v,
                                    Debiasing.insufficient_genre_diversity v with
                              | None, None => g
                              | _, _ =>
                                  (Debiasing._apply_fairness_corrections self g
                                     recommendations v track_metadata).2
                              end;
                     raised := false |}
              end).
  { intros g Hg. unfold Debiasing.enforce_fairness.
    assert (Hart : mapM (Debiasing.current_artist track_metadata g) recommendations
                   = mapM (Debiasing.current_artist track_metadata h) recommendations).
    { apply mapM_ext. intros a.
      apply (is_mainstream_flagged self track_metadata h g a Hg). }
    rewrite Hart. clear Hart.
    destruct (mapM (Debiasing.current_artist track_metadata h) recommendations)
      as [artists|]; [|done].
    cbv zeta. set (v := Debiasing._check_fairness_violations _ _ _).
    pose proof (_apply_fairness_corrections_flagged self g recommendations v
                  track_metadata) as [Hl _].
    destruct (Debiasing._apply_fairness_corrections _ _ _ _ _) as [l g'].
    simpl in Hl. subst l.
    by destruct (Debiasing.insufficient_niche v),
                (Debiasing.insufficient_genre_diversity v). }
  rewrite (Hform h (flagged_refl h)).
  destruct (mapM (Debiasing.current_artist track_metadata h) recommendations)
    as [artists|] eqn:Hart; cbn [returned store].
  2: { apply Hform, flagged_refl. }
  cbv zeta. set (v := Debiasing._check_fairness_violations _ _ _).
  set (h1 := match Debiasing.insufficient_niche v,
                   Debiasing.insufficient_genre_diversity v with
             | None, None => h
             | _, _ => (Debiasing._apply_fairness_corrections self h recommendations v
                          track_metadata).2
             end).
  assert (Hfl : Forall2 Debiasing.flagged h h1).
  { subst h1.
    pose proof (_apply_fairness_corrections_flagged self h recommendations v
                  track_metadata) as [_ Hh].
    destruct (Debiasing.insufficient_niche v),
             (Debiasing.insufficient_genre_diversity v);
      try exact Hh; apply flagged_refl. }
  rewrite (Hform h1 Hfl). cbv zeta. fold v. f_equal.
  destruct (_apply_fairness_corrections_indices self h h1 recommendations v
              track_metadata Hfl) as (indices & _ & Happly).
  pose proof (Happly h (or_introl eq_refl)) as Eh.
  pose proof (Happly h1 (or_intror eq_refl)) as Eh1.
  assert (Hidem : forall g : heap,
            foldl (fun h i =>
                     match recommendations !! i with
                     | Some a => heap_set a "needs_niche_replacement" (VBool true) h
                     | None => h
                     end)
                  (foldl (fun h i =>
                            match recommendations !! i with
                            | Some a => heap_set a "needs_niche_replacement" (VBool true) h
                            | None => h
                            end) g indices) indices
            = foldl (fun h i =>
                       match recommendations !! i with
                       | Some a => heap_set a "needs_niche_replacement" (VBool true) h
                       | None => h
                       end) g indices).
  { intros g. apply list_eq. intros b. rewrite !flag_loop_lookup.
    case_bool_decide; [|done]. destruct (g !! b); cbn; [|done].
    by rewrite insert_insert_eq. }
  rewrite Eh1. cbn [snd]. subst h1. rewrite Eh. cbn [snd].
  destruct (Debiasing.insufficient_niche v), (Debiasing.insufficient_genre_diversity v);
    rewrite ?Hidem; try done.
Qed.


(** ** [debiasing.py]: diversity injection, continued *)

(** The loop over the candidate pool only allocates: the store grows by
    copies, every candidate it keeps is one of the new addresses, and the
    item id of each copy is not among the recommended ids. *)
Lemma diversity_candidates_fresh (user_profile : Debiasing.UserProfile)
    (track_metadata : gmap string TrackInfo) (recommended_ids : list value)
    (h0 : heap) (pool : list addr) :
  forall (h1 : heap) (cands : list addr),
    foldl (fun st c =>
             st ← st;
             Debiasing.diversity_candidate user_profile track_metadata recommended_ids st c)
          (Some (h0, [])) pool = Some (h1, cands) ->
    exists copies,
      h1 = h0 ++ copies
      /\ Forall (fun c =>
                   (length h0 <= c)%nat
                   /\ exists d item,
                        h1 !! c = Some d /\ d !! "item_id" = Some item
                        /\ existsb (value_eqb item) recommended_ids = false) cands
      /\ Forall (fun d =>
                   exists c dc,
                     c ∈ pool /\ h0 !! c = Some dc
                     /\ forall k, k ≠ "diversity_score" -> d !! k = dc !! k) copies.
Proof.
  induction pool as [|c pool IH] using rev_ind; intros h1 cands Hf.
  - cbn in Hf. injection Hf as <- <-. exists []. by rewrite app_nil_r.
  - rewrite foldl_app in Hf. cbn [foldl] in Hf.
    destruct (foldl _ _ pool) as [[hc kc]|]; [|done].
    destruct (IH hc kc eq_refl) as (copies & -> & Hk & Hfrom).
    assert (Hfrom' : Forall (fun d =>
                       exists c0 dc,
                         c0 ∈ pool ++ [c] /\ h0 !! c0 = Some dc
                         /\ forall k, k ≠ "diversity_score" -> d !! k = dc !! k) copies).
    { eapply Forall_impl; [exact Hfrom|]. intros d (c0 & dc & Hc0 & Hdc & Hkeys).
      exists c0, dc. split; [apply elem_of_app; by left|done]. }
    cbn [mbind option_bind] in Hf. unfold Debiasing.diversity_candidate in Hf.
    destruct ((h0 ++ copies) !! c) as [candidate|] eqn:Hc; [|done].
    cbn [mbind option_bind] in Hf.
    destruct (candidate !! "item_id") as [item|] eqn:Hitem; [|done].
    cbn [mbind option_bind] in Hf.
    destruct (existsb (value_eqb item) recommended_ids) eqn:Hex.
    { injection Hf as <- <-. by exists copies. }
    cbn [heap_alloc] in Hf. injection Hf as <- <-.
    eexists (copies ++ [_]). split; [by rewrite app_assoc|]. split.
    + apply Forall_app. split.
      * eapply Forall_impl; [exact Hk|]. intros a (Hle & d & it & Hd & Hi & He).
        split; [exact Hle|]. exists d, it. repeat split; try done.
        rewrite lookup_app_l; [exact Hd|by eapply lookup_lt_Some].
      * apply Forall_singleton. split; [rewrite length_app; lia|].
        eexists _, item. repeat split; [by rewrite list_lookup_middle| |exact Hex].
        by rewrite lookup_insert_ne.
    + apply Forall_app. split; [exact Hfrom'|]. apply Forall_singleton.
      assert (Horigin : exists c0 dc,
                c0 ∈ pool ++ [c] /\ h0 !! c0 = Some dc
                /\ forall k, k ≠ "diversity_score" -> candidate !! k = dc !! k).
      { destruct (decide (c < length h0)%nat) as [Hlt|Hge].
        - rewrite lookup_app_l in Hc by done. exists c, candidate.
          split; [apply elem_of_app; right; by left|done].
        - rewrite lookup_app_r in Hc by lia.
          apply list_elem_of_lookup_2 in Hc.
          by apply (proj1 (Forall_forall _ _) Hfrom'). }
      destruct Horigin as (c0 & dc & Hc0 & Hdc & Hkeys).
      exists c0, dc. split; [done|]. split; [done|].
      intros k Hk'. rewrite lookup_insert_ne by done. by apply Hkeys.
Qed.

(** The loop that stores [combined_score] touches that key of the visited
    objects and nothing else, whether or not it runs to the end. *)
Lemma set_combined_scores_frame (strength : Q) (l : list addr) :
  forall h : heap,
    length (Debiasing.set_combined_scores strength h l).1 = length h
    /\ forall a d,
         h !! a = Some d ->
         exists d', (Debiasing.set_combined_scores strength h l).1 !! a = Some d'
                    /\ (a ∉ l -> d' = d)
                    /\ forall k, k ≠ "combined_score" -> d' !! k = d !! k.
Proof.
  induction l as [|a0 l IH]; intros h.
  - split; [done|]. intros a d Hd. by exists d.
  - cbn [Debiasing.set_combined_scores].
    destruct (h !! a0) as [rec|] eqn:Hrec; cbn [mbind option_bind].
    2: { split; [done|]. intros a d Hd. by exists d. }
    destruct (match rec !! "diversity_score" with
              | Some _ => _ | None => _ end) as [combined|]; cbn [mbind option_bind].
    2: { split; [done|]. intros a d Hd. by exists d. }
    destruct (IH (heap_set a0 "combined_score" combined h)) as [Hlen Hfr].
    split; [rewrite Hlen; apply length_alter|].
    intros a d Hd. unfold heap_set in Hfr.
    destruct (decide (a0 = a)) as [->|Hne].
    + destruct (Hfr a (<["combined_score" := combined]> d)) as (d' & Hd' & _ & Hk).
      { by rewrite list_lookup_alter_eq, Hd. }
      exists d'. split; [exact Hd'|]. split; [intros Hn; exfalso; apply Hn; by left|].
      intros k Hk'. rewrite Hk by done. by rewrite lookup_insert_ne.
    + destruct (Hfr a d) as (d' & Hd' & Hsame & Hk).
      { by rewrite list_lookup_alter_ne. }
      exists d'. split; [exact Hd'|]. split; [|exact Hk].
      intros Hn. apply Hsame. intros Hin. apply Hn. by right.
Qed.

(** X13: [inject_diversity] keeps every entry of the caller's list (it may
    reorder them), never shrinks the store, and leaves every dictionary that
    existed before the call as it was, except that it may write
    [combined_score] into the dictionaries of the list itself; candidate
    dictionaries are only read. *)
Theorem inject_diversity_frame (self : Debiasing.DiversityInjector) (user_id : string)
    (h : heap) (recommendations candidate_pool : list addr)
    (track_metadata : gmap string TrackInfo) :
  let out := Debiasing.inject_diversity self user_id h recommendations candidate_pool
               track_metadata in
  caller_list out ≡ₚ recommendations
  /\ (length h <= length (store out))%nat
  /\ forall a d,
       h !! a = Some d ->
       exists d', store out !! a = Some d'
                  /\ (a ∉ recommendations -> d' = d)
                  /\ forall k, k ≠ "combined_score" -> d' !! k = d !! k.
Proof.
  intros out. subst out. unfold Debiasing.inject_diversity.
  assert (Hsame : forall a d, h !! a = Some d ->
            exists d', h !! a = Some d'
                       /\ (a ∉ recommendations -> d' = d)
                       /\ forall k, k ≠ "combined_score" -> d' !! k = d !! k)
    by (intros a d Hd; by exists d).
  destruct (Debiasing.user_profiles self !! user_id) as [user_profile|];
    [|by repeat split].
  destruct (mapM _ recommendations) as [recommended_ids|]; cbn [mbind option_bind];
    [|by repeat split].
  destruct (foldl _ _ candidate_pool) as [[h1 cands]|] eqn:Hf; [|by repeat split].
  apply diversity_candidates_fresh in Hf as (copies & -> & Hfresh & _).
  assert (Hgrow : forall a d, h !! a = Some d ->
            exists d', (h ++ copies) !! a = Some d'
                       /\ (a ∉ recommendations -> d' = d)
                       /\ forall k, k ≠ "combined_score" -> d' !! k = d !! k).
  { intros a d Hd. exists d. repeat split; try done.
    rewrite lookup_app_l; [done|by eapply lookup_lt_Some]. }
  destruct (mapM _ recommendations) as [scores|].
  2: { cbn. repeat split; [done|rewrite length_app; lia|exact Hgrow]. }
  set (sorted_in_place := py_sorted_asc _ recommendations).
  set (dcands := py_sorted_desc _ cands).
  set (n := py_int _).
  set (diverse := py_slice_from n sorted_in_place ++ py_slice_to n dcands).
  assert (Hperm : sorted_in_place ≡ₚ recommendations) by apply py_sort_perm.
  destruct (set_combined_scores_frame (Debiasing.diversity_strength self) diverse
              (h ++ copies)) as [Hlen Hfr].
  assert (Hfinal : (length h <= length (Debiasing.set_combined_scores
                                         (Debiasing.diversity_strength self)
                                         (h ++ copies) diverse).1)%nat
                   /\ forall a d,
                        h !! a = Some d ->
                        exists d', (Debiasing.set_combined_scores
                                      (Debiasing.diversity_strength self)
                                      (h ++ copies) diverse).1 !! a = Some d'
                                   /\ (a ∉ recommendations -> d' = d)
                                   /\ forall k, k ≠ "combined_score" -> d' !! k = d !! k).
  { split; [rewrite Hlen, length_app; lia|].
    intros a d Hd. assert (Ha : (a < length h)%nat) by (by eapply lookup_lt_Some).
    destruct (Hfr a d) as (d' & Hd' & Hsame' & Hk).
    { by rewrite lookup_app_l. }
    exists d'. repeat split; [exact Hd'| |exact Hk].
    intros Hn. apply Hsame'. subst diverse. intros [Hin|Hin]%elem_of_app.
    - apply Hn. rewrite <- Hperm. unfold py_slice_from in Hin.
      eapply subseteq_drop, Hin.
    - apply py_slice_to_subseteq in Hin. subst dcands. unfold py_sorted_desc in Hin.
      rewrite py_sort_perm in Hin.
      pose proof (proj1 (Forall_forall _ _) Hfresh a Hin) as [Hle _]. lia. }
  destruct (Debiasing.set_combined_scores _ _ _) as [h2 [|]]; cbn in Hfinal |- *;
    destruct Hfinal as [H1 H2]; repeat split; done.
Qed.

(** X14: when [inject_diversity] runs to its end for a known user, the list
    it returns is sorted by descending [combined_score], and each of its
    entries is either an entry of the input list or a fresh copy of a
    dictionary of the candidate pool (the copy agrees with that candidate on
    every key other than [diversity_score] and [combined_score]) whose item
    id differs from the item id of every input entry: an item that is
    already recommended is never injected a second time. *)
Theorem inject_diversity_result (self : Debiasing.DiversityInjector) (user_id : string)
    (h : heap) (recommendations candidate_pool : list addr)
    (track_metadata : gmap string TrackInfo) :
  let out := Debiasing.inject_diversity self user_id h recommendations candidate_pool
               track_metadata in
  is_Some (Debiasing.user_profiles self !! user_id) ->
  raised out = false ->
  StronglySorted (fun a b => (num_field (store out) "combined_score" b
                              <= num_field (store out) "combined_score" a)%Q)
                 (returned out)
  /\ Forall (fun a =>
               a ∈ recommendations
               \/ ((length h <= a)%nat
                   /\ exists d item c dc,
                        store out !! a = Some d /\ d !! "item_id" = Some item
                        /\ c ∈ candidate_pool /\ h !! c = Some dc
                        /\ (forall k, k ≠ "diversity_score" -> k ≠ "combined_score" ->
                                      d !! k = dc !! k)
                        /\ forall r dr ir,
                             r ∈ recommendations -> h !! r = Some dr ->
                             dr !! "item_id" = Some ir -> value_eqb item ir = false))
            (returned out).
Proof.
  intros out. subst out. unfold Debiasing.inject_diversity.
  intros [user_profile ->].
  destruct (mapM _ recommendations) as [recommended_ids|] eqn:Hids;
    cbn [mbind option_bind]; [|done].
  destruct (foldl _ _ candidate_pool) as [[h1 cands]|] eqn:Hf; [|done].
  apply diversity_candidates_fresh in Hf as (copies & -> & Hfresh & Hfrom).
  destruct (mapM (fun a => rec ← (h ++ copies) !! a; get_num rec "score")
                 recommendations) as [scores|]; [|done].
  set (sorted_in_place := py_sorted_asc _ recommendations).
  set (dcands := py_sorted_desc _ cands).
  set (n := py_int _).
  set (diverse := py_slice_from n sorted_in_place ++ py_slice_to n dcands).
  destruct (set_combined_scores_frame (Debiasing.diversity_strength self) diverse
              (h ++ copies)) as [_ Hfr].
  destruct (Debiasing.set_combined_scores _ _ _) as [h2 [|]]; cbn in Hfr |- *; [|done].
  intros _. split; [apply py_sorted_desc_sorted|].
  apply Forall_forall. intros a Ha. unfold py_sorted_desc in Ha.
  rewrite py_sort_perm in Ha. subst diverse. apply elem_of_app in Ha as [Ha|Ha].
  - left. unfold py_slice_from in Ha. apply subseteq_drop in Ha.
    subst sorted_in_place. unfold py_sorted_asc in Ha. by rewrite py_sort_perm in Ha.
  - right. apply py_slice_to_subseteq in Ha. subst dcands. unfold py_sorted_desc in Ha.
    rewrite py_sort_perm in Ha.
    destruct (proj1 (Forall_forall _ _) Hfresh a Ha) as (Hle & d & item & Hd & Hi & He).
    split; [exact Hle|].
    destruct (Hfr a d Hd) as (d' & Hd' & _ & Hk).
    assert (Hcopy : d ∈ copies).
    { rewrite lookup_app_r in Hd by done. by eapply list_elem_of_lookup_2. }
    destruct (proj1 (Forall_forall _ _) Hfrom d Hcopy) as (c & dc & Hc & Hdc & Hkeys).
    exists d', item, c, dc.
    split; [exact Hd'|]. split; [by rewrite Hk|]. split; [exact Hc|]. split; [exact Hdc|].
    split; [intros k Hk1 Hk2; rewrite Hk by done; by apply Hkeys|].
    intros r dr ir Hr Hdr Hir.
    apply (proj1 (existsb_false _ _) He).
    apply mapM_Some_1 in Hids.
    apply list_elem_of_lookup in Hr as [i Hi'].
    destruct (Forall2_lookup_l _ _ _ _ _ Hids Hi') as (x & Hx & Hfx).
    rewrite Hdr in Hfx. cbn in Hfx. rewrite Hir in Hfx. injection Hfx as <-.
    by eapply list_elem_of_lookup_2.
Qed.

Lemma inject_diversity_result_witness :
  let out := Debiasing.inject_diversity DebiasDemo.injector "u" DebiasDemo.objects
               DebiasDemo.recommendations [5; 6; 7]%nat DebiasDemo.track_metadata in
  StronglySorted (fun a b => (num_field (store out) "combined_score" b
                              <= num_field (store out) "combined_score" a)%Q)
                 (returned out)
  /\ Forall (fun a =>
               a ∈ DebiasDemo.recommendations
               \/ ((length DebiasDemo.objects <= a)%nat
                   /\ exists d item c dc,
                        store out !! a = Some d /\ d !! "item_id" = Some item
                        /\ c ∈ [5; 6; 7]%nat /\ DebiasDemo.objects !! c = Some dc
                        /\ (forall k, k ≠ "diversity_score" -> k ≠ "combined_score" ->
                                      d !! k = dc !! k)
                        /\ forall r dr ir,
                             r ∈ DebiasDemo.recommendations ->
                             DebiasDemo.objects !! r = Some dr ->
                             dr !! "item_id" = Some ir -> value_eqb item ir = false))
            (returned out).
Proof.
  apply (inject_diversity_result DebiasDemo.injector "u" DebiasDemo.objects
           DebiasDemo.recommendations [5; 6; 7]%nat DebiasDemo.track_metadata).
  - eexists. vm_compute. reflexivity.
  - vm_compute. reflexivity.
Defined.

Lemma od_set_values (P : Q -> Prop) (k : string) (v : Q) (d : odict) :
  P v -> Forall (fun e => P e.2) d -> Forall (fun e => P e.2) (od_set k v d).
Proof.
  intros Hv. induction 1 as [|[k' v'] d Hv' Hd IH]; cbn.
  - by repeat constructor.
  - destruct (String.eqb k k'); constructor; auto.
Qed.

Lemma od_set_key_in (k : string) (v : Q) (d : odict) :
  k ∈ od_keys (od_set k v d) /\ od_keys d ⊆ od_keys (od_set k v d).
Proof.
  unfold od_keys. induction d as [|[k' v'] d [IH1 IH2]]; cbn.
  - split; [by left|apply list_subseteq_nil].
  - destruct (String.eqb_spec k k') as [->|Hne]; cbn.
    + split; [by left|done].
    + split; [by right|]. intros x [->|Hx]%elem_of_cons; [by left|right; by apply IH2].
Qed.

(** X15: [DiversityInjector.calculate_diversity_scores] gives every item of
    its argument exactly one score, and every score lies in [0, 1). *)
Theorem calculate_diversity_scores_range (py_hash : string -> Z)
    (item_ids : list string) :
  let scores := Debiasing.calculate_diversity_scores py_hash item_ids in
  Forall (fun e => (0 <= e.2 < 1)%Q) scores
  /\ NoDup (od_keys scores)
  /\ forall item, item ∈ od_keys scores <-> item ∈ item_ids.
Proof.
  intros scores. subst scores. unfold Debiasing.calculate_diversity_scores.
  assert (Hgen : forall acc : odict,
            Forall (fun e => (0 <= e.2 < 1)%Q) acc -> NoDup (od_keys acc) ->
            let d := foldl (fun diversity_scores item =>
                              od_set item (inject_Z (py_hash item mod 1000) / 1000)%Q
                                diversity_scores) acc item_ids in
            Forall (fun e => (0 <= e.2 < 1)%Q) d /\ NoDup (od_keys d)
            /\ forall item, item ∈ od_keys d <-> item ∈ od_keys acc \/ item ∈ item_ids).
  { induction item_ids as [|it its IH]; intros acc Hacc Hnd; cbn [foldl].
    - repeat split; try done; [by left|]. intros [H|H]; [done|by apply elem_of_nil in H].
    - set (sc := (inject_Z (py_hash it mod 1000) / 1000)%Q).
      assert (Hsc : (0 <= sc < 1)%Q).
      { pose proof (Z.mod_pos_bound (py_hash it) 1000 eq_refl) as [H0 H1].
        subst sc. split.
        - apply Qle_shift_div_l; [done|]. rewrite Qmult_0_l.
          change 0%Q with (inject_Z 0). by rewrite <- Zle_Qle.
        - apply Qlt_shift_div_r; [done|]. rewrite Qmult_1_l.
          change 1000%Q with (inject_Z 1000). by rewrite <- Zlt_Qlt. }
      destruct (IH (od_set it sc acc)) as (H1 & H2 & H3).
      + by apply (od_set_values (fun q => (0 <= q < 1)%Q)).
      + by apply od_set_nodup.
      + repeat split; [exact H1|exact H2| |].
        * intros [Hx|Hx]%H3.
          -- apply od_set_keys, elem_of_cons in Hx as [->|Hx]; [right; by left|by left].
          -- right. by right.
        * intros [Hx|[->|Hx]%elem_of_cons]; apply H3.
          -- left. by apply (proj2 (od_set_key_in it sc acc)).
          -- left. apply (proj1 (od_set_key_in it sc acc)).
          -- by right. }
  destruct (Hgen [] (Forall_nil_2 _) (NoDup_nil_2)) as (H1 & H2 & H3).
  repeat split; [exact H1|exact H2| |].
  - intros [Hx|Hx]%H3; [by apply elem_of_nil in Hx|done].
  - intros Hx. apply H3. by right.
Qed.

Lemma foldl_Qplus_bounds (l : list Q) :
  forall acc : Q,
    (Forall (fun q => 0 <= q)%Q l -> (acc <= foldl Qplus acc l)%Q)
    /\ (Forall (fun q => q <= 1)%Q l ->
        (foldl Qplus acc l <= acc + inject_Z (Z.of_nat (length l)))%Q).
Proof.
  induction l as [|q l IH]; intros acc.
  - cbn [foldl length]. change (inject_Z (Z.of_nat 0)) with 0%Q. split; intros _; lra.
  - cbn [foldl length]. destruct (IH (acc + q)%Q) as [IH1 IH2]. split.
    + intros [Hq Hl]%Forall_cons. eapply Qle_trans; [|by apply IH1]. lra.
    + intros [Hq Hl]%Forall_cons. eapply Qle_trans; [by apply IH2|].
      rewrite inject_nat_succ. lra.
Qed.

Lemma size_ratio_bounds (a b : nat) :
  (a <= b)%nat -> (0 < b)%nat ->
  (0 <= inject_Z (Z.of_nat a) / inject_Z (Z.of_nat b) <= 1)%Q.
Proof.
  intros Hab Hb.
  assert (Hb' : (0 < inject_Z (Z.of_nat b))%Q).
  { change 0%Q with (inject_Z 0). rewrite <- Zlt_Qlt. lia. }
  split.
  - apply Qle_shift_div_l; [exact Hb'|]. rewrite Qmult_0_l.
    change 0%Q with (inject_Z 0). rewrite <- Zle_Qle. lia.
  - apply Qle_shift_div_r; [exact Hb'|]. rewrite Qmult_1_l. rewrite <- Zle_Qle. lia.
Qed.

Lemma genre_part_bounds (user_profile : Debiasing.UserProfile) (track_info : TrackInfo) :
  (0 <= DiversityScore.genre_part user_profile track_info <= 4 # 10)%Q.
Proof.
  unfold DiversityScore.genre_part.
  set (tg := list_to_set (default [] (track_genres track_info)) : gset string).
  set (ug := list_to_set (default [] (Debiasing.preferred_genres user_profile))
             : gset string).
  case_bool_decide as Htg; cbn [negb andb]; [split; discriminate|].
  destruct (negb (bool_decide (ug = ∅))); [|split; discriminate].
  assert (Hsz : (0 < size (tg ∪ ug))%nat).
  { destruct (decide (size (tg ∪ ug) = 0)%nat) as [Hz|]; [|lia].
    apply size_empty_iff in Hz. exfalso. apply Htg.
    apply leibniz_equiv. intros x. split; [|by intros ?%elem_of_empty].
    intros Hx. apply Hz, elem_of_union. by left. }
  destruct (size_ratio_bounds (size (tg ∩ ug)) (size (tg ∪ ug))) as [H0 H1]; [|done|].
  { apply subseteq_size. intros x [Hx _]%elem_of_intersection.
    apply elem_of_union. by left. }
  revert H0 H1.
  generalize (inject_Z (Z.of_nat (size (tg ∩ ug)))
              / inject_Z (Z.of_nat (size (tg ∪ ug))))%Q as o.
  intros o H0 H1. split; lra.
Qed.

Lemma popularity_part_bounds (user_profile : Debiasing.UserProfile)
    (track_info : TrackInfo) :
  (0 <= DiversityScore.popularity_part user_profile track_info)%Q
  /\ ((0 <= default 0 (track_popularity track_info) <= 100)%Q ->
      (0 <= default 0 (Debiasing.avg_popularity user_profile) <= 100)%Q ->
      (DiversityScore.popularity_part user_profile track_info <= 3 # 10)%Q).
Proof.
  unfold DiversityScore.popularity_part.
  set (P := (Qabs (default 0 (track_popularity track_info)
                   - default 0 (Debiasing.avg_popularity user_profile)) / 100)%Q).
  assert (HP0 : (0 <= P)%Q).
  { subst P. apply Qle_shift_div_l; [done|]. rewrite Qmult_0_l. apply Qabs_nonneg. }
  split; [lra|]. intros Htp Hua.
  assert (HP1 : (P <= 1)%Q).
  { subst P. apply Qle_shift_div_r; [done|]. rewrite Qmult_1_l.
    apply Qabs_Qle_condition. split; lra. }
  lra.
Qed.

Lemma audio_part_bounds (user_profile : Debiasing.UserProfile) (track_info : TrackInfo) :
  (0 <= DiversityScore.audio_part user_profile track_info)%Q
  /\ ((forall f x, track_features track_info !! f = Some x -> (0 <= x <= 1)%Q) ->
      (forall f x, default ∅ (Debiasing.audio_preferences user_profile) !! f = Some x ->
                   (0 <= x <= 1)%Q) ->
      (DiversityScore.audio_part user_profile track_info <= 3 # 10)%Q).
Proof.
  unfold DiversityScore.audio_part.
  set (diffs := omap _ Debiasing.audio_features).
  assert (Hdiffs0 : Forall (fun q => 0 <= q)%Q diffs).
  { apply Forall_forall. intros q (f & _ & Hq)%list_elem_of_omap.
    apply bind_Some in Hq as (x & Hx & Hq). apply bind_Some in Hq as (y & Hy & Hq).
    apply (inj Some) in Hq. rewrite <- Hq. apply Qabs_nonneg. }
  assert (Hlen : diffs <> [] -> (0 < inject_Z (Z.of_nat (length diffs)))%Q).
  { intros Hne. change 0%Q with (inject_Z 0). rewrite <- Zlt_Qlt.
    destruct diffs; [done|]. cbn [length]. lia. }
  assert (Hcases : diffs = [] \/ diffs <> []) by (destruct diffs; [by left|by right]).
  destruct Hcases as [Hnil|Hne].
  { rewrite Hnil. split; [discriminate|]. intros _ _. discriminate. }
  specialize (Hlen Hne).
  assert (Hmatch : forall v : Q, match diffs with [] => 0%Q | _ => v end = v)
    by (intros v; by destruct diffs).
  rewrite Hmatch. split.
  - assert (0 <= foldl Qplus 0 diffs / inject_Z (Z.of_nat (length diffs)))%Q; [|lra].
    apply Qle_shift_div_l; [exact Hlen|]. rewrite Qmult_0_l.
    by apply (foldl_Qplus_bounds diffs 0).
  - intros Htf Hprefs.
    assert (Hd1 : Forall (fun q => q <= 1)%Q diffs).
    { apply Forall_forall. intros q (f & _ & Hq)%list_elem_of_omap.
      apply bind_Some in Hq as (x & Hx & Hq). apply bind_Some in Hq as (y & Hy & Hq).
      apply (inj Some) in Hq. rewrite <- Hq.
      destruct (Htf f x Hx), (Hprefs f y Hy).
      apply Qabs_Qle_condition. split; lra. }
    assert (foldl Qplus 0 diffs / inject_Z (Z.of_nat (length diffs)) <= 1)%Q; [|lra].
    apply Qle_shift_div_r; [exact Hlen|]. rewrite Qmult_1_l.
    eapply Qle_trans; [by apply (foldl_Qplus_bounds diffs 0)|]. lra.
Qed.

(** X16: the diversity score of a candidate is never negative, and it is 0
    for a candidate without [item_id].  For a candidate with an [item_id]
    it is the sum of a genre part, a popularity part and an audio part, none
    of them negative: the genre part is at most 0.4; the popularity part is
    at most 0.3 when the track's popularity and the user's average
    popularity lie in [0, 100]; the audio part is at most 0.3 when the audio
    features of the track and the user's feature means lie in [0, 1].  Under
    these ranges the score is at most 1. *)
Theorem diversity_score_bounds (candidate : pydict)
    (user_profile : Debiasing.UserProfile) (track_metadata : gmap string TrackInfo) :
  let score := Debiasing._calculate_diversity_score candidate user_profile
                 track_metadata in
  (0 <= score)%Q
  /\ (candidate !! "item_id" = None -> score = 0%Q)
  /\ (forall item,
        candidate !! "item_id" = Some item ->
        let track_info := track_get track_metadata item in
        let genre := DiversityScore.genre_part user_profile track_info in
        let popularity := DiversityScore.popularity_part user_profile track_info in
        let audio := DiversityScore.audio_part user_profile track_info in
        score = (0 + genre + popularity + audio)%Q
        /\ (0 <= genre <= 4 # 10)%Q
        /\ (0 <= popularity)%Q
        /\ (0 <= audio)%Q
        /\ ((0 <= default 0 (track_popularity track_info) <= 100)%Q ->
            (0 <= default 0 (Debiasing.avg_popularity user_profile) <= 100)%Q ->
            (popularity <= 3 # 10)%Q)
        /\ ((forall f x, track_features track_info !! f = Some x -> (0 <= x <= 1)%Q) ->
            (forall f x,
               default ∅ (Debiasing.audio_preferences user_profile) !! f = Some x ->
               (0 <= x <= 1)%Q) ->
            (audio <= 3 # 10)%Q))
  /\ ((forall item t, track_metadata !! item = Some t ->
         (0 <= default 0 (track_popularity t) <= 100)%Q
         /\ forall f x, track_features t !! f = Some x -> (0 <= x <= 1)%Q) ->
      (0 <= default 0 (Debiasing.avg_popularity user_profile) <= 100)%Q ->
      (forall f x, default ∅ (Debiasing.audio_preferences user_profile) !! f = Some x ->
                   (0 <= x <= 1)%Q) ->
      (score <= 1)%Q).
Proof.
  intros score. subst score.
  destruct (candidate !! "item_id") as [item|] eqn:Hitem.
  2: { assert (Hzero : Debiasing._calculate_diversity_score candidate user_profile
                         track_metadata = 0%Q).
       { unfold Debiasing._calculate_diversity_score. by rewrite Hitem. }
       rewrite Hzero. split; [discriminate|]. split; [done|].
       split; [by intros ? [=]|]. intros _ _ _. discriminate. }
  set (ti := track_get track_metadata item).
  assert (Hsum : Debiasing._calculate_diversity_score candidate user_profile track_metadata
                 = (0 + DiversityScore.genre_part user_profile ti
                    + DiversityScore.popularity_part user_profile ti
                    + DiversityScore.audio_part user_profile ti)%Q).
  { unfold Debiasing._calculate_diversity_score. rewrite Hitem. reflexivity. }
  rewrite Hsum.
  pose proof (genre_part_bounds user_profile ti) as HG.
  destruct (popularity_part_bounds user_profile ti) as [HP0 HP1].
  destruct (audio_part_bounds user_profile ti) as [HA0 HA1].
  split; [lra|]. split; [done|]. split.
  { intros ? [= <-]. cbv zeta. fold ti. repeat apply conj; (done || apply HG). }
  intros Htracks Havg Hprefs.
  assert (Hti : (0 <= default 0 (track_popularity ti) <= 100)%Q
                /\ forall f x, track_features ti !! f = Some x -> (0 <= x <= 1)%Q).
  { subst ti. unfold track_get.
    destruct item as [| | |s]; try (split; [split; discriminate|done]).
    destruct (track_metadata !! s) as [t|] eqn:Ht; cbn [default from_option];
      unfold Datatypes.id; [by apply (Htracks s)|split; [split; discriminate|done]]. }
  destruct Hti as [Htp Htf].
  specialize (HP1 Htp Havg). specialize (HA1 Htf Hprefs). lra.
Qed.

(** ** [evaluation.py]: further properties of the metrics *)

Lemma weighted_sum_ge (N : Q) (s : list Q) :
  Forall (fun y => 1 <= y)%Q s ->
  forall (start : nat) (acc : Q),
    (inject_Z (Z.of_nat (start + length s)) <= N)%Q ->
    (acc + 2 * inject_Z (Z.of_nat (length s))
     <= foldl (fun acc '(i, y) => acc + (N + 1 - inject_Z (Z.of_nat i)) * y) acc
          (py_enumerate_from start s))%Q.
Proof.
  induction 1 as [|y s Hy Hs IH]; intros start acc HN.
  - cbn [py_enumerate_from foldl length].
    change (inject_Z (Z.of_nat 0)) with 0%Q. lra.
  - cbn [py_enumerate_from foldl length]. cbn [length] in HN.
    eapply Qle_trans;
      [|apply IH; replace (S start + length s)%nat with (start + S (length s))%nat by lia;
        exact HN].
    rewrite inject_nat_succ.
    assert (Hs' : (inject_Z (Z.of_nat start) + 1 <= N)%Q).
    { eapply Qle_trans; [|exact HN]. rewrite <- inject_nat_succ, <- Zle_Qle. lia. }
    assert (2 <= (N + 1 - inject_Z (Z.of_nat start)) * y)%Q; [|lra].
    set (t := (N + 1 - inject_Z (Z.of_nat start))%Q).
    assert (Ht : (2 <= t)%Q) by (unfold t; lra).
    apply Qle_trans with (2 * 1)%Q; [discriminate|].
    apply Qmult_le_compat_nonneg; split; (discriminate || assumption).
Qed.

Lemma total_ge_length (s : list Q) :
  Forall (fun y => 1 <= y)%Q s ->
  forall acc : Q, (acc + inject_Z (Z.of_nat (length s)) <= foldl Qplus acc s)%Q.
Proof.
  induction 1 as [|y s Hy Hs IH]; intros acc.
  - cbn [foldl length]. change (inject_Z (Z.of_nat 0)) with 0%Q. lra.
  - cbn [foldl length]. eapply Qle_trans; [|apply IH]. rewrite inject_nat_succ. lra.
Qed.

(** X17: on the inputs the evaluator gives it, the counts of a [Counter]
    (numbers that are at least 1), the Gini coefficient comes out negative
    as soon as there are two of them: the weighted sum runs over the
    positions 0..n-1 and is not divided by the total, so the numerator
    [n + 1 - 2 * weighted] is below zero. *)
Theorem gini_negative_on_counts (values : list Q) :
  (2 <= length values)%nat ->
  Forall (fun v => 1 <= v)%Q values ->
  (Evaluation._calculate_gini_coefficient values < 0)%Q.
Proof.
  intros Hlen Hall. unfold Evaluation._calculate_gini_coefficient.
  destruct values as [|a [|b values]]; [cbn in Hlen; lia|cbn in Hlen; lia|].
  set (l := a :: b :: values) in *.
  unfold py_enumerate.
  set (s := py_sorted_asc (fun y => y) l).
  assert (Hperm : s ≡ₚ l) by apply py_sort_perm.
  assert (Hs : Forall (fun v => 1 <= v)%Q s) by (by rewrite Hperm).
  assert (Hsl : length s = length l) by (by rewrite Hperm).
  set (N := inject_Z (Z.of_nat (length s))).
  pose proof (weighted_sum_ge N s Hs 0 0%Q) as HW.
  pose proof (total_ge_length s Hs 0%Q) as HT.
  fold N in HW, HT.
  revert HW HT.
  generalize (foldl (fun acc '(i, y) => (acc + (N + 1 - inject_Z (Z.of_nat i)) * y)%Q)
                0%Q (py_enumerate_from 0 s)) as W.
  generalize (foldl Qplus 0%Q s) as T.
  intros T W HW HT.
  assert (HN : (2 <= N)%Q).
  { unfold N. change 2%Q with (inject_Z 2). rewrite <- Zle_Qle. lia. }
  specialize (HW ltac:(cbn [Nat.add]; apply Qle_refl)).
  assert (Hden : (0 < N * T)%Q).
  { apply Qmult_lt_0_compat; lra. }
  destruct (Qeq_bool (N * T) 0) eqn:Hz.
  { apply Qeq_bool_iff in Hz. lra. }
  apply Qlt_shift_div_r; [exact Hden|]. lra.
Qed.

Lemma gini_negative_on_counts_witness :
  (Evaluation._calculate_gini_coefficient [1; 2; 5] < 0)%Q.
Proof.
  apply gini_negative_on_counts; [cbn; lia|].
  repeat constructor; discriminate.
Defined.

Lemma value_eqb_trans (u v w : value) :
  value_eqb u v = true -> value_eqb v w = true -> value_eqb u w = true.
Proof.
  unfold value_eqb.
  destruct (num_of u) as [x|] eqn:Hu, (num_of v) as [y|] eqn:Hv,
    (num_of w) as [z|] eqn:Hw; try done.
  - rewrite !Qeq_bool_iff. intros Hxy Hyz. by rewrite Hxy.
  - destruct u, v, w; try done.
    rewrite !String.eqb_eq. congruence.
Qed.

Lemma distinct_ids_snoc (acc : list value) (v : value) :
  Evaluation.distinct_ids acc = true ->
  existsb (value_eqb v) acc = false ->
  Evaluation.distinct_ids (acc ++ [v]) = true.
Proof.
  induction acc as [|x acc IH]; [done|].
  rewrite <- app_comm_cons, !distinct_ids_cons. cbn [existsb].
  intros [Hx Hacc] [Hvx Hv]%orb_false_iff. split; [|by apply IH].
  intros y [Hy| ->%list_elem_of_singleton]%elem_of_app; [by apply Hx|].
  by rewrite value_eqb_sym.
Qed.

Lemma py_set_distinct (l : list value) :
  Evaluation.distinct_ids (Evaluation.py_set l) = true.
Proof.
  unfold Evaluation.py_set.
  assert (H : forall acc, Evaluation.distinct_ids acc = true ->
            Evaluation.distinct_ids
              (foldl (fun acc v => if existsb (value_eqb v) acc then acc else acc ++ [v])
                 acc l) = true); [|by apply H].
  induction l as [|v l IH]; intros acc Hacc; [done|].
  cbn [foldl]. apply IH.
  destruct (existsb (value_eqb v) acc) eqn:Hv; [done|by apply distinct_ids_snoc].
Qed.

Lemma filter_at_most_one (g : value) (ids : list value) :
  Evaluation.distinct_ids ids = true ->
  (length (List.filter (fun v => value_eqb v g) ids) <= 1)%nat.
Proof.
  induction ids as [|x ids IH]; [cbn; lia|].
  intros [Hx Hids]%distinct_ids_cons. cbn [List.filter].
  destruct (value_eqb x g) eqn:Hxg; [|by apply IH].
  assert (Hnil : List.filter (fun v => value_eqb v g) ids = []).
  { clear IH Hids. induction ids as [|y ids IH]; [done|].
    cbn [List.filter]. destruct (value_eqb y g) eqn:Hyg.
    - rewrite value_eqb_sym in Hyg.
      pose proof (Hx y ltac:(by left)) as Hxy.
      by rewrite (value_eqb_trans _ _ _ Hxg Hyg) in Hxy.
    - apply IH. intros z Hz. apply Hx. by right. }
  rewrite Hnil. cbn. lia.
Qed.

Lemma filter_orb_length {A} (f g : A -> bool) (l : list A) :
  (length (List.filter (fun x => f x || g x) l)
   <= length (List.filter f l) + length (List.filter g l))%nat.
Proof.
  induction l as [|x l IH]; [done|]. cbn [List.filter].
  destruct (f x), (g x); cbn [orb length]; lia.
Qed.

(** Pairwise distinct ids hit at most as many ids as there are to hit. *)
Lemma filter_hits_le (ids targets : list value) :
  Evaluation.distinct_ids ids = true ->
  (length (List.filter (fun v => existsb (value_eqb v) targets) ids)
   <= length targets)%nat.
Proof.
  intros Hids. induction targets as [|g targets IH].
  - cbn [existsb length]. induction ids as [|x ids IHx]; [done|].
    cbn [List.filter]. apply distinct_ids_cons in Hids as [_ Hids]. by apply IHx.
  - cbn [existsb length].
    etrans; [apply (filter_orb_length (fun v => value_eqb v g))|].
    pose proof (filter_at_most_one g ids Hids). lia.
Qed.

Lemma filter_length_le {A} (f : A -> bool) (l : list A) :
  (length (List.filter f l) <= length l)%nat.
Proof. induction l as [|x l IH]; [done|]. cbn [List.filter]. destruct (f x); cbn; lia. Qed.

Lemma dcg_of_ge0 (l : list (nat * Q)) : (0 <= Evaluation.dcg_of l)%R.
Proof.
  unfold Evaluation.dcg_of.
  assert (H : forall acc : R, (0 <= acc)%R ->
            (0 <= foldl (fun dcg '(i, relevance) =>
                           if Qlt_le_dec 0 relevance
                           then (dcg + Q2R relevance / Evaluation.log2 (INR i + 2))%R
                           else dcg) acc l)%R); [|apply H, Rle_refl].
  induction l as [|[i r] l IH]; intros acc Hacc; [done|].
  cbn [foldl]. apply IH. destruct (Qlt_le_dec 0 r) as [Hr|]; [|done].
  pose proof (log2_pos i) as Hlog.
  assert (0 <= Q2R r / Evaluation.log2 (INR i + 2))%R; [|lra].
  apply Rmult_le_pos; [|left; by apply Rinv_0_lt_compat].
  rewrite <- RMicromega.Q2R_0. apply Qle_Rle. by apply Qlt_le_weak.
Qed.

Lemma _calculate_ndcg_ge0 (recommendations ground_truth : list pydict) (k : Z) :
  (0 <= Evaluation._calculate_ndcg recommendations ground_truth k)%R.
Proof.
  unfold Evaluation._calculate_ndcg.
  destruct (Evaluation.relevance_lists _ _ _) as [[relevances ideal]|]; [|apply Rle_refl].
  destruct (Rlt_dec _ _) as [Hpos|]; [|apply Rle_refl].
  apply Rmult_le_pos; [apply dcg_of_ge0|]. left. by apply Rinv_0_lt_compat.
Qed.

Lemma f1_bounds (p r : Q) :
  (0 <= p <= 1)%Q -> (0 <= r <= 1)%Q ->
  (0 <= (if Qlt_le_dec 0 (p + r) then 2 * (p * r) / (p + r) else 0) <= 1)%Q.
Proof.
  intros [Hp0 Hp1] [Hr0 Hr1].
  destruct (Qlt_le_dec 0 (p + r)) as [Hpos|]; [|split; discriminate].
  assert (Hpr : (0 <= p * r)%Q) by (by apply Qmult_le_0_compat).
  assert (Hp : (p * r <= p * 1)%Q).
  { apply Qmult_le_compat_nonneg; split; (assumption || apply Qle_refl). }
  assert (Hr : (p * r <= 1 * r)%Q).
  { apply Qmult_le_compat_nonneg; split; (assumption || apply Qle_refl). }
  split.
  - apply Qle_shift_div_l; [done|]. lra.
  - apply Qle_shift_div_r; [done|]. lra.
Qed.

(** X18: whatever the two lists are, the accuracy metrics that
    [_calculate_accuracy_metrics] reports are proper ratios: precision,
    recall and F1 lie in [0, 1], NDCG is not negative, and the number of true
    positives exceeds neither the number of distinct recommended ids nor the
    number of distinct ground-truth ids. *)
Theorem accuracy_metrics_in_range (recommendations ground_truth : list pydict)
    (m : Evaluation.AccuracyMetrics) :
  Evaluation._calculate_accuracy_metrics recommendations ground_truth = Some m ->
  (0 <= Evaluation.precision m <= 1)%Q
  /\ (0 <= Evaluation.recall m <= 1)%Q
  /\ (0 <= Evaluation.f1 m <= 1)%Q
  /\ (0 <= Evaluation.ndcg m)%R
  /\ from_option (fun '(tp, n_rec, n_gt) => (tp <= n_rec)%nat /\ (tp <= n_gt)%nat) True
       (Evaluation.counts m).
Proof.
  unfold Evaluation._calculate_accuracy_metrics.
  destruct ground_truth as [|gt0 ground_truth].
  { intros [= <-]. cbn. repeat split; (discriminate || apply Rle_refl). }
  set (gts := gt0 :: ground_truth).
  destruct (mapM (fun rec : pydict => rec !! "item_id") recommendations) as [rec_ids|];
    [|done].
  destruct (mapM (fun gt : pydict => gt !! "item_id") gts) as [gt_ids|]; [|done].
  cbn [fmap option_fmap option_map mbind option_bind].
  set (R := Evaluation.py_set rec_ids). set (G := Evaluation.py_set gt_ids).
  set (tp := length (List.filter (fun v => existsb (value_eqb v) G) R)).
  assert (Htp1 : (tp <= length R)%nat) by apply filter_length_le.
  assert (Htp2 : (tp <= length G)%nat) by apply filter_hits_le, py_set_distinct.
  set (p := match R with
            | [] => 0%Q
            | _ => (inject_Z (Z.of_nat tp) / inject_Z (Z.of_nat (length R)))%Q
            end).
  set (r := match G with
            | [] => 0%Q
            | _ => (inject_Z (Z.of_nat tp) / inject_Z (Z.of_nat (length G)))%Q
            end).
  assert (Hp : (0 <= p <= 1)%Q).
  { subst p. destruct R as [|x R'] eqn:HR; [split; discriminate|]. rewrite <- HR in *.
    apply size_ratio_bounds; [done|]. rewrite HR. cbn. lia. }
  assert (Hr : (0 <= r <= 1)%Q).
  { subst r. destruct G as [|x G'] eqn:HG; [split; discriminate|]. rewrite <- HG in *.
    apply size_ratio_bounds; [done|]. rewrite HG. cbn. lia. }
  intros [= <-]. cbn [Evaluation.precision Evaluation.recall Evaluation.f1
                        Evaluation.ndcg Evaluation.counts from_option].
  split; [exact Hp|]. split; [exact Hr|]. split; [by apply f1_bounds|].
  split; [apply _calculate_ndcg_ge0|done].
Qed.

Lemma accuracy_demo_returns :
  is_Some (Evaluation._calculate_accuracy_metrics NdcgDemo.recommendations
             NdcgDemo.ground_truth).
Proof.
  unfold Evaluation._calculate_accuracy_metrics, NdcgDemo.ground_truth.
  destruct (mapM _ NdcgDemo.recommendations) as [rec_ids|] eqn:Hrec; [|by vm_compute in Hrec].
  cbn [fmap option_fmap option_map mbind option_bind].
  match goal with
  | |- context [mapM ?f ?l] => destruct (mapM f l) as [gt_ids|] eqn:Hgt
  end; [|by vm_compute in Hgt].
  cbn [fmap option_fmap option_map mbind option_bind]. by eexists.
Qed.

Lemma accuracy_metrics_in_range_witness :
  exists m,
    Evaluation._calculate_accuracy_metrics NdcgDemo.recommendations NdcgDemo.ground_truth
    = Some m
    /\ (0 <= Evaluation.precision m <= 1)%Q
    /\ (0 <= Evaluation.recall m <= 1)%Q
    /\ (0 <= Evaluation.f1 m <= 1)%Q.
Proof.
  destruct accuracy_demo_returns as [m Hm]. exists m. split; [exact Hm|].
  destruct (accuracy_metrics_in_range _ _ m Hm) as (Hp & Hr & Hf & _).
  repeat split; (apply Hp || apply Hr || apply Hf).
Defined.

(** ** [debiasing.py]: fitting *)

Lemma od_set_elem (k : string) (v : Q) (d : odict) (k' : string) (v' : Q) :
  NoDup (od_keys d) ->
  (k', v') ∈ od_set k v d <-> (k' = k /\ v' = v) \/ (k' <> k /\ (k', v') ∈ d).
Proof.
  unfold od_keys. induction d as [|[k0 v0] d IH]; cbn [od_set fmap list_fmap].
  - intros _. rewrite list_elem_of_singleton. split.
    + intros [= -> ->]. by left.
    + intros [[-> ->]|[_ H]]; [done|by apply elem_of_nil in H].
  - intros [Hk0 Hd]%NoDup_cons. cbn [fst] in Hk0.
    destruct (String.eqb_spec k k0) as [<-|Hne].
    + rewrite !elem_of_cons. split.
      * intros [[= -> ->]|Hin]; [by left|]. right.
        assert (k' <> k).
        { intros ->. apply Hk0. apply list_elem_of_fmap. by exists (k, v'). }
        split; [done|by right].
      * intros [[-> ->]|[Hk' [[= -> ->]|Hin]]]; [by left|done|by right].
    + rewrite !elem_of_cons, (IH Hd). split.
      * intros [[= -> ->]|[[-> ->]|[Hk' Hin]]].
        -- right. split; [congruence|by left].
        -- by left.
        -- right. split; [done|by right].
      * intros [[-> ->]|[Hk' [[= -> ->]|Hin]]].
        -- right. by left.
        -- by left.
        -- right. right. by split.
Qed.

Lemma artist_popularity_table_spec (tracks_df : list (option string))
    (artist_metadata : gmap string ArtistInfo) :
  let table := DebiasingFit.artist_popularity_table tracks_df artist_metadata in
  NoDup (od_keys table)
  /\ forall aid pop,
       (aid, pop) ∈ table <-> Some aid ∈ tracks_df /\ DebiasingFit.recorded artist_metadata aid pop.
Proof.
  unfold DebiasingFit.artist_popularity_table.
  set (step := fun (table : odict) (artist_id : option string) => _).
  assert (H : forall acc : odict,
            NoDup (od_keys acc) ->
            (forall aid pop, (aid, pop) ∈ acc -> DebiasingFit.recorded artist_metadata aid pop) ->
            NoDup (od_keys (foldl step acc tracks_df))
            /\ forall aid pop,
                 (aid, pop) ∈ foldl step acc tracks_df <->
                 (aid, pop) ∈ acc
                 \/ (Some aid ∈ tracks_df /\ DebiasingFit.recorded artist_metadata aid pop)).
  { induction tracks_df as [|row tracks_df IH]; intros acc Hnd Hacc; cbn [foldl].
    - split; [done|]. intros aid pop. split; [by left|].
      intros [H|[H _]]; [done|by apply elem_of_nil in H].
    - assert (Hstep : NoDup (od_keys (step acc row))
                /\ forall aid pop,
                     (aid, pop) ∈ step acc row <->
                     (aid, pop) ∈ acc
                     \/ (row = Some aid /\ DebiasingFit.recorded artist_metadata aid pop)).
      { subst step. cbn beta. destruct row as [aid0|].
        2:{ split; [done|]. intros aid pop. split; [by left|]. by intros [H|[[=] _]]. }
        destruct (String.eqb_spec aid0 "") as [->|Hne].
        { split; [done|]. intros aid pop. split; [by left|].
          intros [H|[[= <-] [Hne _]]]; done. }
        destruct (artist_metadata !! aid0) as [info|] eqn:Hinfo.
        2:{ split; [done|]. intros aid pop. split; [by left|].
            intros [H|[[= <-] (_ & info & Hi & _)]]; [done|congruence]. }
        split; [by apply od_set_nodup|]. intros aid pop.
        rewrite (od_set_elem _ _ _ _ _ Hnd). split.
        - intros [[-> ->]|[_ Hin]]; [|by left]. right. split; [done|].
          split; [done|]. by exists info.
        - intros [Hin|[[= <-] (_ & info' & Hi & ->)]].
          + destruct (decide (aid = aid0)) as [->|Hd]; [|right; by split].
            left. split; [done|].
            destruct (Hacc _ _ Hin) as (_ & info' & Hi & ->). congruence.
          + left. split; [done|]. congruence. }
      destruct Hstep as [Hnd' Hstep].
      destruct (IH (step acc row) Hnd') as [IH1 IH2].
      { intros aid pop [Hin|[_ Hrec]]%Hstep; [by apply Hacc|done]. }
      split; [exact IH1|]. intros aid pop. rewrite IH2, Hstep, elem_of_cons.
      split.
      + intros [[Hin|[-> Hrec]]|[Hin Hrec]]; [by left|right..]; split; auto.
      + intros [Hin|[[[= <-]|Hin] Hrec]]; [left; by left|left; right; by split|].
        right. by split. }
  destruct (H [] (NoDup_nil_2 : NoDup (od_keys [])))  as [H1 H2].
  { intros aid pop Hin. by apply elem_of_nil in Hin. }
  split; [exact H1|]. intros aid pop. rewrite H2. split; [|by right].
  intros [Hin|Hin]; [by apply elem_of_nil in Hin|done].
Qed.

Lemma tier_elem (in_tier : Q -> bool) (table : odict) (aid : string) :
  aid ∈ DebiasingFit.tier in_tier table <->
  exists pop, (aid, pop) ∈ table /\ in_tier pop = true.
Proof.
  unfold DebiasingFit.tier. rewrite list_elem_of_fmap. split.
  - intros ([aid' pop] & -> & Hin). exists pop.
    apply list_elem_of_In, filter_In in Hin as [Hin Hp]. by rewrite list_elem_of_In.
  - intros (pop & Hin & Hp). exists (aid, pop). split; [done|].
    apply list_elem_of_In, filter_In. by rewrite <- list_elem_of_In.
Qed.

Lemma tiers_partition (table : odict) :
  DebiasingFit.tier (fun pop => negb (Qle_bool 30 pop)) table
  ++ DebiasingFit.tier (fun pop => Qle_bool 30 pop && negb (Qle_bool 60 pop)) table
  ++ DebiasingFit.tier (fun pop => Qle_bool 60 pop && negb (Qle_bool 80 pop)) table
  ++ DebiasingFit.tier (fun pop => Qle_bool 80 pop) table
  ≡ₚ od_keys table.
Proof.
  unfold DebiasingFit.tier, od_keys.
  induction table as [|[aid pop] table IH]; [done|].
  cbn [List.filter snd fmap list_fmap fst]. rewrite <- IH. clear IH.
  destruct (Qle_bool 30 pop) eqn:H30, (Qle_bool 60 pop) eqn:H60,
    (Qle_bool 80 pop) eqn:H80; cbn [negb andb fmap list_fmap fst];
    try (apply Qle_bool_iff in H30); try (apply Qle_bool_iff in H60);
    try (apply Qle_bool_iff in H80);
    try (apply not_true_iff_false in H30; rewrite Qle_bool_iff in H30);
    try (apply not_true_iff_false in H60; rewrite Qle_bool_iff in H60);
    try (apply not_true_iff_false in H80; rewrite Qle_bool_iff in H80);
    try (exfalso; (apply H30 || apply H60 || apply H80); lra).
  all: symmetry;
    repeat first [reflexivity
                 |etrans; [apply Permutation_middle|]; apply Permutation_app_head].
Qed.

(** X19: [FairnessConstraintEnforcer.fit] sorts the artists of the track
    table into four popularity tiers.  No artist is listed twice, in one tier
    or across tiers; the artists listed are exactly those of the table's rows
    whose id is non-empty and known to the artist metadata; and the tier of
    such an artist is decided by the popularity of its metadata entry (0 when
    the entry has none): below 30 niche, 30 to below 60 emerging, 60 to below
    80 established, 80 and above mainstream.  The two thresholds of the
    enforcer are kept. *)
Theorem fit_sorts_artists_into_tiers (self : Debiasing.FairnessConstraintEnforcer)
    (tracks_df : list (option string)) (artist_metadata : gmap string ArtistInfo) :
  let fitted := DebiasingFit.fit self tracks_df artist_metadata in
  let tier_of name := default [] (Debiasing.artist_stats fitted !! name) in
  NoDup (tier_of "niche" ++ tier_of "emerging" ++ tier_of "established"
         ++ tier_of "mainstream")
  /\ (forall aid,
        aid ∈ tier_of "niche" ++ tier_of "emerging" ++ tier_of "established"
              ++ tier_of "mainstream"
        <-> Some aid ∈ tracks_df /\ aid <> "" /\ is_Some (artist_metadata !! aid))
  /\ (forall aid artist_info,
        Some aid ∈ tracks_df -> aid <> "" -> artist_metadata !! aid = Some artist_info ->
        let pop := default 0%Q (artist_popularity artist_info) in
        (aid ∈ tier_of "niche" <-> (pop < 30)%Q)
        /\ (aid ∈ tier_of "emerging" <-> (30 <= pop < 60)%Q)
        /\ (aid ∈ tier_of "established" <-> (60 <= pop < 80)%Q)
        /\ (aid ∈ tier_of "mainstream" <-> (80 <= pop)%Q))
  /\ Debiasing.min_niche_ratio fitted = Debiasing.min_niche_ratio self
  /\ Debiasing.min_diverse_genres fitted = Debiasing.min_diverse_genres self.
Proof.
  intros fitted tier_of.
  destruct (artist_popularity_table_spec tracks_df artist_metadata) as [Hnd Htable].
  set (table := DebiasingFit.artist_popularity_table tracks_df artist_metadata) in *.
  assert (HN : tier_of "niche" = DebiasingFit.tier (fun pop => negb (Qle_bool 30 pop)) table)
    by reflexivity.
  assert (HE : tier_of "emerging"
               = DebiasingFit.tier (fun pop => Qle_bool 30 pop && negb (Qle_bool 60 pop))
                   table) by reflexivity.
  assert (HS : tier_of "established"
               = DebiasingFit.tier (fun pop => Qle_bool 60 pop && negb (Qle_bool 80 pop))
                   table) by reflexivity.
  assert (HM : tier_of "mainstream" = DebiasingFit.tier (fun pop => Qle_bool 80 pop) table)
    by reflexivity.
  rewrite HN, HE, HS, HM. clear HN HE HS HM.
  pose proof (tiers_partition table) as Hperm.
  split; [by rewrite Hperm|].
  split.
  { intros aid. rewrite Hperm. unfold od_keys. rewrite list_elem_of_fmap. split.
    - intros ([aid' pop] & -> & Hin). apply Htable in Hin as (Hrow & Hne & info & Hi & _).
      cbn [fst]. by rewrite Hi.
    - intros (Hrow & Hne & info & Hi). exists (aid, default 0%Q (artist_popularity info)).
      split; [done|]. apply Htable. split; [done|]. split; [done|]. by exists info. }
  split; [|done].
  intros aid info Hrow Hne Hi pop.
  assert (Hin : (aid, pop) ∈ table).
  { apply Htable. split; [done|]. split; [done|]. by exists info. }
  assert (Huniq : forall pop', (aid, pop') ∈ table -> pop' = pop).
  { intros pop' (_ & _ & info' & Hi' & ->)%Htable. subst pop. congruence. }
  assert (Hle : forall c : Q, Qle_bool c pop = true <-> (c <= pop)%Q)
    by (intros c; apply Qle_bool_iff).
  assert (Hnle : forall c : Q, negb (Qle_bool c pop) = true <-> (pop < c)%Q).
  { intros c. rewrite negb_true_iff, <- not_true_iff_false, Hle. split.
    - apply Qnot_le_lt.
    - apply Qlt_not_le. }
  repeat apply conj.
  all: rewrite tier_elem.
  all: first [intros (pop' & Hin' & Hp); apply Huniq in Hin'; subst pop';
              rewrite ?andb_true_iff, ?Hle, ?Hnle in Hp; tauto
             |intros Hp; exists pop; split; [done|];
              rewrite ?andb_true_iff, ?Hle, ?Hnle; tauto].
Qed.

(** X20: after [fit], the enforcer flags popular artists only: every
    dictionary that [enforce_fairness] of the fitted enforcer touches belongs
    to an entry of the list whose track's artist occurs in the fitted track
    table and has a popularity of at least 80 in the fitted artist metadata. *)
Theorem fitted_enforcer_flags_popular_artists
    (self : Debiasing.FairnessConstraintEnforcer) (tracks_df : list (option string))
    (fitted_metadata : gmap string ArtistInfo) (h : heap) (recommendations : list addr)
    (track_metadata : gmap string TrackInfo) (artist_metadata : gmap string ArtistInfo)
    (a : addr) :
  let fitted := DebiasingFit.fit self tracks_df fitted_metadata in
  let out := Debiasing.enforce_fairness fitted h recommendations track_metadata
               artist_metadata in
  store out !! a = h !! a
  \/ (a ∈ recommendations
      /\ exists rec item artist artist_info,
           h !! a = Some rec /\ rec !! "item_id" = Some item
           /\ track_artist_id (track_get track_metadata item) = Some artist
           /\ Some artist ∈ tracks_df
           /\ fitted_metadata !! artist = Some artist_info
           /\ (80 <= default 0 (artist_popularity artist_info))%Q).
Proof.
  intros fitted out.
  destruct (enforce_fairness_store_cases fitted h recommendations track_metadata
              artist_metadata a) as [Hsame|[Hin Hm]]; [by left|]. right.
  split; [exact Hin|].
  unfold Debiasing.is_mainstream in Hm.
  destruct (h !! a) as [rec|] eqn:Hrec; [|done]. cbn [mbind option_bind] in Hm.
  destruct (rec !! "item_id") as [item|] eqn:Hitem; [|done].
  cbn [mbind option_bind] in Hm.
  destruct (track_artist_id (track_get track_metadata item)) as [artist|] eqn:Hartist;
    [|done].
  apply (inj Some), bool_decide_eq_true in Hm.
  change (default [] (Debiasing.artist_stats fitted !! "mainstream"))
    with (DebiasingFit.tier (fun pop => Qle_bool 80 pop)
            (DebiasingFit.artist_popularity_table tracks_df fitted_metadata)) in Hm.
  apply tier_elem in Hm as (pop & Htable & Hpop).
  apply artist_popularity_table_spec in Htable as (Hrow & _ & info & Hinfo & ->).
  exists rec, item, artist, info. repeat split; try done. by apply Qle_bool_iff.
Qed.

Lemma foldl_Qplus_shift (l : list Q) (a : Q) :
  (foldl Qplus a l == a + foldl Qplus 0 l)%Q.
Proof.
  revert a. induction l as [|x l IH]; intros a; cbn [foldl]; [ring|].
  rewrite (IH (a + x)%Q), (IH (0 + x)%Q). ring.
Qed.

Lemma foldl_Qplus_scaled (l : list Q) (t : Q) :
  (foldl Qplus 0 ((fun v => v / t) <$> l) == foldl Qplus 0 l / t)%Q.
Proof.
  induction l as [|x l IH]; cbn [fmap list_fmap foldl]; [by unfold Qdiv; ring|].
  rewrite (foldl_Qplus_shift _ (0 + x / t)), (foldl_Qplus_shift _ (0 + x)), IH.
  unfold Qdiv. ring.
Qed.

Lemma elem_le_total (l : list Q) (v : Q) :
  Forall (fun q => 0 <= q)%Q l -> v ∈ l -> (v <= foldl Qplus 0 l)%Q.
Proof.
  induction 1 as [|x l Hx Hl IH]; [by intros ?%elem_of_nil|].
  cbn [foldl]. rewrite (foldl_Qplus_shift l (0 + x)).
  pose proof (proj1 (foldl_Qplus_bounds l 0) Hl) as Hsum.
  intros [->|Hin]%elem_of_cons; [lra|]. specialize (IH Hin). lra.
Qed.

Lemma od_get_elem (k : string) (v : Q) (d : odict) :
  od_get k d = Some v -> (k, v) ∈ d.
Proof.
  induction d as [|[k' v'] d IH]; [done|]. cbn [od_get].
  destruct (String.eqb_spec k k') as [->|Hne].
  - intros [= ->]. by left.
  - intros H. right. by apply IH.
Qed.

Lemma Counter_spec (l : list string) :
  let counts := DebiasingFit.Counter l in
  NoDup (od_keys counts)
  /\ (forall x, x ∈ od_keys counts <-> x ∈ l)
  /\ Forall (fun e => 1 <= e.2)%Q counts.
Proof.
  unfold DebiasingFit.Counter.
  set (step := fun (counts : odict) (x : string) => _).
  assert (H : forall acc : odict,
            NoDup (od_keys acc) -> Forall (fun e => 1 <= e.2)%Q acc ->
            NoDup (od_keys (foldl step acc l))
            /\ (forall x, x ∈ od_keys (foldl step acc l) <-> x ∈ od_keys acc \/ x ∈ l)
            /\ Forall (fun e => 1 <= e.2)%Q (foldl step acc l)).
  { induction l as [|y l IH]; intros acc Hnd Hall; cbn [foldl].
    - split; [done|]. split; [|done]. intros x. split; [by left|].
      intros [H|H]; [done|by apply elem_of_nil in H].
    - destruct (IH (step acc y)) as (IH1 & IH2 & IH3).
      + by apply od_set_nodup.
      + apply (od_set_values (fun q => 1 <= q)%Q); [|done].
        destruct (od_get y acc) as [c|] eqn:Hc; cbn [default from_option]; [|discriminate].
        apply od_get_elem in Hc. rewrite Forall_forall in Hall.
        specialize (Hall _ Hc). cbn in Hall. unfold Datatypes.id. lra.
      + split; [done|]. split; [|done]. intros x. rewrite IH2, elem_of_cons.
        subst step. cbn beta.
        pose proof (od_set_key_in y (default 0%Q (od_get y acc) + 1)%Q acc) as [Hk Hsub].
        pose proof (od_set_keys y (default 0%Q (od_get y acc) + 1)%Q acc) as Hsup.
        split.
        * intros [[->|Hx]%Hsup%elem_of_cons|Hx]; auto.
        * intros [Hx|[->|Hx]]; auto. }
  destruct (H [] (NoDup_nil_2 : NoDup (od_keys [])) (Forall_nil_2 _)) as (H1 & H2 & H3).
  split; [done|]. split; [|done]. intros x. rewrite H2. split; [|by right].
  intros [Hx|Hx]; [by apply elem_of_nil in Hx|done].
Qed.

(** X21: [_calculate_genre_distribution] is a probability distribution over
    the genres that the tracks mention: each genre that some track mentions
    gets exactly one share, nothing else gets one, every share lies in
    (0, 1], and unless no track mentions a genre (the distribution is then
    empty) the shares add up to 1. *)
Theorem genre_distribution_sums_to_one (tracks : list TrackInfo) :
  let distribution := DebiasingFit._calculate_genre_distribution tracks in
  NoDup (od_keys distribution)
  /\ (forall genre,
        genre ∈ od_keys distribution
        <-> exists track, track ∈ tracks /\ genre ∈ default [] (track_genres track))
  /\ Forall (fun e => 0 < e.2 <= 1)%Q distribution
  /\ (distribution = [] \/ (foldl Qplus 0 distribution.*2 == 1)%Q).
Proof.
  intros distribution. subst distribution.
  unfold DebiasingFit._calculate_genre_distribution.
  set (all_genres := tracks ≫= _).
  destruct (Counter_spec all_genres) as (Hnd & Hkeys & Hcounts).
  set (counts := DebiasingFit.Counter all_genres) in *.
  set (total := foldl Qplus 0%Q counts.*2).
  set (share := fun '(genre, count) => (genre, (count / total)%Q)).
  assert (Hk : od_keys (share <$> counts) = od_keys counts).
  { unfold od_keys. rewrite <- list_fmap_compose. apply list_fmap_ext.
    by intros _ [genre count] _. }
  assert (Hv : (share <$> counts).*2 = (fun v => (v / total)%Q) <$> counts.*2).
  { rewrite <- !list_fmap_compose. apply list_fmap_ext. by intros _ [genre count] _. }
  assert (Hpos : Forall (fun q => 0 <= q)%Q counts.*2).
  { apply Forall_fmap. eapply Forall_impl; [exact Hcounts|]. intros e He. cbn in *. lra. }
  assert (Htotal : counts <> [] -> (1 <= total)%Q).
  { destruct counts as [|[g c] counts'] eqn:Hc; [done|]. intros _.
    apply Forall_cons in Hcounts as [Hc1 _]. cbn in Hc1.
    eapply Qle_trans; [exact Hc1|]. apply elem_le_total; [done|]. by left. }
  rewrite Hk. split; [exact Hnd|]. split.
  { intros genre. rewrite Hkeys. subst all_genres. rewrite list_elem_of_bind.
    split; intros (track & H1 & H2); by exists track. }
  split.
  { apply Forall_fmap, Forall_forall. intros [genre count] Hin.
    assert (Hne : counts <> []) by (intros Hnil; rewrite Hnil in Hin; by apply elem_of_nil in Hin).
    specialize (Htotal Hne).
    assert (H1 : (1 <= count)%Q).
    { rewrite Forall_forall in Hcounts. apply (Hcounts _ Hin). }
    assert (H2 : (count <= total)%Q).
    { apply elem_le_total; [done|]. apply list_elem_of_fmap. by exists (genre, count). }
    cbn. split.
    - apply Qlt_shift_div_l; lra.
    - apply Qle_shift_div_r; lra. }
  assert (Hcases : counts = [] \/ counts <> []) by (destruct counts; [by left|by right]).
  destruct Hcases as [->|Hne]; [by left|]. right.
  rewrite Hv, foldl_Qplus_scaled. fold total.
  specialize (Htotal Hne). apply Qmult_inv_r. lra.
Qed.

(** ** [evaluation.py]: coverage and serendipity *)

Lemma count_tier_spec (tiers : EvaluationMetrics.PopularityTiers) (track_info : TrackInfo) :
  let total t := (EvaluationMetrics.niche t + EvaluationMetrics.emerging t
                  + EvaluationMetrics.popular t + EvaluationMetrics.mainstream t)%Q in
  let nonneg t := (0 <= EvaluationMetrics.niche t)%Q
                  /\ (0 <= EvaluationMetrics.emerging t)%Q
                  /\ (0 <= EvaluationMetrics.popular t)%Q
                  /\ (0 <= EvaluationMetrics.mainstream t)%Q in
  (total (EvaluationMetrics.count_tier tiers track_info) == total tiers + 1)%Q
  /\ (nonneg tiers -> nonneg (EvaluationMetrics.count_tier tiers track_info)).
Proof.
  destruct tiers as [n e p m]. unfold EvaluationMetrics.count_tier.
  destruct (negb (Qle_bool 30 _)); [|destruct (negb (Qle_bool 60 _));
    [|destruct (negb (Qle_bool 80 _))]]; cbn; (split; [ring|intros (?&?&?&?)]);
    repeat split; lra.
Qed.

Lemma count_tiers_fold (track_infos : list TrackInfo)
    (tiers : EvaluationMetrics.PopularityTiers) :
  let total t := (EvaluationMetrics.niche t + EvaluationMetrics.emerging t
                  + EvaluationMetrics.popular t + EvaluationMetrics.mainstream t)%Q in
  let nonneg t := (0 <= EvaluationMetrics.niche t)%Q
                  /\ (0 <= EvaluationMetrics.emerging t)%Q
                  /\ (0 <= EvaluationMetrics.popular t)%Q
                  /\ (0 <= EvaluationMetrics.mainstream t)%Q in
  (total (foldl EvaluationMetrics.count_tier tiers track_infos)
   == total tiers + inject_Z (Z.of_nat (length track_infos)))%Q
  /\ (nonneg tiers -> nonneg (foldl EvaluationMetrics.count_tier tiers track_infos)).
Proof.
  intros total nonneg. revert tiers.
  induction track_infos as [|t track_infos IH]; intros tiers; cbn [foldl length].
  - change (inject_Z (Z.of_nat 0)) with 0%Q. split; [ring|done].
  - destruct (IH (EvaluationMetrics.count_tier tiers t)) as [IH1 IH2].
    destruct (count_tier_spec tiers t) as [H1 H2]. fold total in H1.
    split; [|by intros H; apply IH2, H2].
    eapply Qeq_trans; [exact IH1|]. rewrite inject_nat_succ.
    unfold total in *. lra.
Qed.

Lemma recommended_genres_possible (track_metadata : gmap string TrackInfo)
    (items : list value) :
  (⋃ (EvaluationMetrics.genres_of <$> (track_get track_metadata <$> items)) : gset string)
  ⊆ ⋃ (EvaluationMetrics.genres_of <$> (map_to_list track_metadata).*2).
Proof.
  intros g (X & HX & Hg)%elem_of_union_list.
  apply list_elem_of_fmap in HX as (t & -> & Ht).
  apply list_elem_of_fmap in Ht as (item & -> & _).
  unfold track_get in Hg. destruct item as [| | |s]; try by apply elem_of_empty in Hg.
  destruct (track_metadata !! s) as [t|] eqn:Hs; cbn [default from_option] in Hg;
    [|by apply elem_of_empty in Hg].
  apply elem_of_union_list. exists (EvaluationMetrics.genres_of t).
  split; [|exact Hg]. apply list_elem_of_fmap. exists t. split; [done|].
  apply list_elem_of_fmap. exists (s, t). split; [done|]. by apply elem_of_map_to_list.
Qed.

(** X22: the coverage metrics are proper shares.  Whenever
    [_calculate_coverage_metrics] computes its dictionary, the number of
    covered genres is at most the number of possible genres and
    [genre_coverage] lies in [0, 1]; the four popularity-tier entries are not
    negative, they add up to 1 for a non-empty recommendation list, and they
    are all 0 for an empty one. *)
Theorem coverage_metrics_are_shares (recommendations : list pydict)
    (track_metadata : gmap string TrackInfo) (m : EvaluationMetrics.CoverageMetrics) :
  EvaluationMetrics._calculate_coverage_metrics recommendations track_metadata = Some m ->
  let tiers := EvaluationMetrics.popularity_tier_coverage m in
  (EvaluationMetrics.covered_genres m <= EvaluationMetrics.total_possible_genres m)%nat
  /\ (0 <= EvaluationMetrics.genre_coverage m <= 1)%Q
  /\ ((0 <= EvaluationMetrics.niche tiers)%Q /\ (0 <= EvaluationMetrics.emerging tiers)%Q
      /\ (0 <= EvaluationMetrics.popular tiers)%Q
      /\ (0 <= EvaluationMetrics.mainstream tiers)%Q)
  /\ (recommendations <> [] ->
      (EvaluationMetrics.niche tiers + EvaluationMetrics.emerging tiers
       + EvaluationMetrics.popular tiers + EvaluationMetrics.mainstream tiers == 1)%Q)
  /\ (recommendations = [] ->
      tiers = {| EvaluationMetrics.niche := 0; EvaluationMetrics.emerging := 0;
                 EvaluationMetrics.popular := 0; EvaluationMetrics.mainstream := 0 |}).
Proof.
  unfold EvaluationMetrics._calculate_coverage_metrics.
  destruct (mapM (fun rec : pydict => rec !! "item_id") recommendations) as [items|] eqn:Hitems;
    [|done].
  cbn [mbind option_bind]. intros [= <-].
  cbn [EvaluationMetrics.popularity_tier_coverage EvaluationMetrics.covered_genres
         EvaluationMetrics.total_possible_genres EvaluationMetrics.genre_coverage].
  pose proof (recommended_genres_possible track_metadata items) as Hsub.
  set (covered := ⋃ (EvaluationMetrics.genres_of <$> (track_get track_metadata <$> items))
                  : gset string) in *.
  set (possible := ⋃ (EvaluationMetrics.genres_of <$> (map_to_list track_metadata).*2)
                   : gset string) in *.
  assert (Hsize : (size covered <= size possible)%nat) by (by apply subseteq_size).
  assert (Hlen : length items = length recommendations).
  { symmetry. by eapply length_mapM. }
  destruct (count_tiers_fold (track_get track_metadata <$> items)
              {| EvaluationMetrics.niche := 0; EvaluationMetrics.emerging := 0;
                 EvaluationMetrics.popular := 0; EvaluationMetrics.mainstream := 0 |})
    as [Hsum Hnonneg].
  specialize (Hnonneg ltac:(cbn; repeat split; discriminate)).
  rewrite length_fmap, Hlen in Hsum. cbn [EvaluationMetrics.niche EvaluationMetrics.emerging
    EvaluationMetrics.popular EvaluationMetrics.mainstream] in Hsum.
  set (counted := foldl EvaluationMetrics.count_tier _ _) in *.
  destruct Hnonneg as (Hn & He & Hp & Hm).
  split; [exact Hsize|]. split.
  { case_bool_decide as Hempty; [split; discriminate|].
    apply size_ratio_bounds; [done|].
    destruct (decide (size possible = 0)%nat) as [Hz|]; [|lia].
    by apply size_empty_iff, leibniz_equiv in Hz. }
  destruct recommendations as [|rec0 recommendations'].
  { cbn in Hitems. injection Hitems as <-.
    split; [by repeat split|]. split; [done|]. intros _. reflexivity. }
  set (total_recs := inject_Z (Z.of_nat (length (rec0 :: recommendations')))) in *.
  assert (Htotal : (0 < total_recs)%Q).
  { unfold total_recs. change 0%Q with (inject_Z 0). rewrite <- Zlt_Qlt. cbn [length]. lia. }
  cbn [EvaluationMetrics.niche EvaluationMetrics.emerging EvaluationMetrics.popular
         EvaluationMetrics.mainstream].
  split.
  { repeat split; (apply Qle_shift_div_l; [exact Htotal|]; rewrite Qmult_0_l; assumption). }
  split; [|done]. intros _.
  apply Qeq_trans with ((EvaluationMetrics.niche counted + EvaluationMetrics.emerging counted
                         + EvaluationMetrics.popular counted
                         + EvaluationMetrics.mainstream counted) / total_recs)%Q;
    [unfold Qdiv; ring|].
  apply Qeq_trans with (total_recs * / total_recs)%Q; [|apply Qmult_inv_r; lra].
  unfold Qdiv. apply Qmult_comp; [lra|reflexivity].
Qed.

Lemma coverage_metrics_are_shares_witness :
  exists m,
    EvaluationMetrics._calculate_coverage_metrics CoverageDemo.recommendations
      DebiasDemo.track_metadata = Some m
    /\ (EvaluationMetrics.covered_genres m <= EvaluationMetrics.total_possible_genres m)%nat
    /\ (0 <= EvaluationMetrics.genre_coverage m <= 1)%Q.
Proof.
  eexists. split; [vm_compute; reflexivity|].
  split; [|split];
    eapply (coverage_metrics_are_shares CoverageDemo.recommendations
              DebiasDemo.track_metadata); vm_compute; reflexivity.
Defined.

Lemma serendipity_score_bounds (user_genres : gset string) (user_avg_popularity : Q)
    (track_info : TrackInfo) :
  (0 <= user_avg_popularity <= 100)%Q ->
  (0 <= default 0 (track_popularity track_info) <= 100)%Q ->
  (0 <= EvaluationMetrics.serendipity_score user_genres user_avg_popularity track_info
     <= 1 # 2)%Q.
Proof.
  intros Havg Hpop. unfold EvaluationMetrics.serendipity_score.
  set (tg := EvaluationMetrics.genres_of track_info).
  set (o := if bool_decide (user_genres ∪ tg = ∅) then 0%Q
            else (inject_Z (Z.of_nat (size (user_genres ∩ tg)))
                  / inject_Z (Z.of_nat (size (user_genres ∪ tg))))%Q).
  set (d := (Qabs (default 0 (track_popularity track_info) - user_avg_popularity) / 100)%Q).
  assert (Ho : (0 <= o <= 1)%Q).
  { subst o. case_bool_decide as Hempty; [split; discriminate|].
    apply size_ratio_bounds.
    - apply subseteq_size. intros x [Hx _]%elem_of_intersection.
      apply elem_of_union. by left.
    - destruct (decide (size (user_genres ∪ tg) = 0)%nat) as [Hz|]; [|lia].
      by apply size_empty_iff, leibniz_equiv in Hz. }
  assert (Hd : (0 <= d <= 1)%Q).
  { subst d. split.
    - apply Qle_shift_div_l; [done|]. rewrite Qmult_0_l. apply Qabs_nonneg.
    - apply Qle_shift_div_r; [done|]. rewrite Qmult_1_l.
      apply Qabs_Qle_condition. split; lra. }
  set (u := ((1 - o + d) / 2)%Q).
  assert (Hu : (0 <= u <= 1)%Q).
  { subst u. split.
    - apply Qle_shift_div_l; [done|]. lra.
    - apply Qle_shift_div_r; [done|]. lra. }
  assert (Hsq : (0 <= (1 - u) * (1 - u))%Q) by (apply Qmult_le_0_compat; lra).
  assert (Hprod : (0 <= u * (1 - u * (1 # 2)))%Q) by (apply Qmult_le_0_compat; lra).
  split; [exact Hprod|].
  assert (Heq : (u * (1 - u * (1 # 2)) == (1 # 2) - (1 # 2) * ((1 - u) * (1 - u)))%Q) by ring.
  rewrite Heq. lra.
Qed.

Lemma foldl_Qplus_upper (c : Q) (l : list Q) :
  Forall (fun q => q <= c)%Q l ->
  forall acc : Q, (foldl Qplus acc l <= acc + c * inject_Z (Z.of_nat (length l)))%Q.
Proof.
  induction 1 as [|q l Hq Hl IH]; intros acc; cbn [foldl length].
  - change (inject_Z (Z.of_nat 0)) with 0%Q. lra.
  - eapply Qle_trans; [apply IH|]. rewrite inject_nat_succ. lra.
Qed.

(** X23: when the popularities of the track metadata and the user's average
    popularity lie in [0, 100], every serendipity score that
    [_calculate_serendipity_metrics] reports lies in [0, 1/2], and so does
    their average: the assumed relevance [1 - unexpectedness / 2] caps the
    product at one half. *)
Theorem serendipity_at_most_half (recommendations : list pydict)
    (track_metadata : gmap string TrackInfo) (user_profile : Debiasing.UserProfile)
    (avg_serendipity : Q) (serendipity_scores : list Q) :
  (forall item t, track_metadata !! item = Some t ->
                  (0 <= default 0 (track_popularity t) <= 100)%Q) ->
  (0 <= default 50 (Debiasing.avg_popularity user_profile) <= 100)%Q ->
  EvaluationMetrics._calculate_serendipity_metrics recommendations track_metadata
    user_profile = Some (avg_serendipity, serendipity_scores) ->
  length serendipity_scores = length recommendations
  /\ Forall (fun s => 0 <= s <= 1 # 2)%Q serendipity_scores
  /\ (0 <= avg_serendipity <= 1 # 2)%Q.
Proof.
  intros Htracks Havg. unfold EvaluationMetrics._calculate_serendipity_metrics.
  destruct (mapM (fun rec : pydict => rec !! "item_id") recommendations) as [items|] eqn:Hitems;
    [|done].
  cbn [mbind option_bind]. intros [= <- <-].
  set (scores := (fun item => EvaluationMetrics.serendipity_score _ _ _) <$> items).
  assert (Hall : Forall (fun s => 0 <= s <= 1 # 2)%Q scores).
  { apply Forall_fmap, Forall_forall. intros item _. cbn.
    apply serendipity_score_bounds; [exact Havg|].
    unfold track_get. destruct item as [| | |s]; try (split; discriminate).
    destruct (track_metadata !! s) as [t|] eqn:Hs; cbn [default from_option];
      [by apply (Htracks s)|split; discriminate]. }
  split; [|split; [exact Hall|]].
  { subst scores. rewrite length_fmap. symmetry. by eapply length_mapM. }
  destruct scores as [|s0 scores'] eqn:Hscores; [split; discriminate|].
  rewrite <- Hscores in *.
  assert (Hlen : (0 < inject_Z (Z.of_nat (length scores)))%Q).
  { change 0%Q with (inject_Z 0). rewrite <- Zlt_Qlt. rewrite Hscores. cbn [length]. lia. }
  assert (Hlow : Forall (fun q => 0 <= q)%Q scores).
  { eapply Forall_impl; [exact Hall|]. by intros q [? _]. }
  assert (Hup : Forall (fun q => q <= 1 # 2)%Q scores).
  { eapply Forall_impl; [exact Hall|]. by intros q [_ ?]. }
  pose proof (proj1 (foldl_Qplus_bounds scores 0) Hlow) as H0.
  pose proof (foldl_Qplus_upper (1 # 2) scores Hup 0) as H1.
  split.
  - apply Qle_shift_div_l; [exact Hlen|]. lra.
  - apply Qle_shift_div_r; [exact Hlen|]. lra.
Qed.

Lemma serendipity_at_most_half_witness :
  exists avg scores,
    EvaluationMetrics._calculate_serendipity_metrics CoverageDemo.recommendations
      DebiasDemo.track_metadata DebiasDemo.profile = Some (avg, scores)
    /\ Forall (fun s => 0 <= s <= 1 # 2)%Q scores
    /\ (0 <= avg <= 1 # 2)%Q.
Proof.
  eexists _, _. split; [vm_compute; reflexivity|].
  apply (serendipity_at_most_half CoverageDemo.recommendations DebiasDemo.track_metadata
           DebiasDemo.profile).
  - intros item t Ht.
    assert (Hall : map_Forall (fun _ t => (0 <= default 0 (track_popularity t) <= 100)%Q)
                     DebiasDemo.track_metadata).
    { apply map_Forall_to_list. vm_compute. repeat constructor; discriminate. }
    exact (Hall item t Ht).
  - vm_compute. split; discriminate.
  - vm_compute. reflexivity.
Defined.

(** The fitted tiers of the demo table: "star" (92) and "idol" (85) are
    mainstream, "band" (50) is emerging; the row without an artist and the
    artist without metadata are skipped. *)
Example fit_demo :
  Debiasing.artist_stats
    (DebiasingFit.fit DebiasDemo.enforcer FitDemo.tracks_df DebiasDemo.artist_metadata)
  = {[ "niche" := []; "emerging" := ["band"]; "established" := [];
       "mainstream" := ["star"; "idol"] ]}.
Proof. vm_compute. reflexivity. Qed.

(** ** [models.py]: exploration *)

Lemma py_slice_to_take {A} (n : Z) (l : list A) :
  (0 <= n)%Z -> py_slice_to n l = take (Z.to_nat n) l.
Proof.
  intros Hn. unfold py_slice_to, py_bound.
  destruct (n <? 0)%Z eqn:Hneg; [apply Z.ltb_lt in Hneg; lia|].
  destruct (Z.le_gt_cases n (Z.of_nat (length l))) as [Hle|Hgt].
  - by rewrite Z.min_l.
  - rewrite Z.min_r by lia. rewrite Nat2Z.id.
    rewrite !take_ge; [done|lia|lia].
Qed.

Lemma mapM_lookup_elem {A B} (f : A -> option B) (l : list A) (k : list B) (x : A) (y : B) :
  mapM f l = Some k -> x ∈ l -> f x = Some y -> y ∈ k.
Proof.
  intros Hm%mapM_Some_1 [i Hi]%list_elem_of_lookup Hx.
  destruct (Forall2_lookup_l _ _ _ _ _ Hm Hi) as (y' & Hy' & Hf).
  rewrite Hx in Hf. injection Hf as <-. by eapply list_elem_of_lookup_2.
Qed.

Lemma py_int_between (q : Q) (n : Z) :
  (0 <= q <= inject_Z n)%Q -> (0 <= py_int q <= n)%Z.
Proof.
  intros [Hq0 Hq1].
  assert (Hfloor : py_int q = Qfloor q).
  { unfold py_int. destruct q as [qn qd]. simpl.
    apply Z.quot_div_nonneg; [|lia].
    unfold Qle in Hq0. simpl in Hq0. lia. }
  rewrite Hfloor. split.
  - change 0%Z with (Qfloor 0). by apply Qfloor_resp_le.
  - rewrite <- (Qfloor_Z n). by apply Qfloor_resp_le.
Qed.

(** X24: epsilon-greedy exploration keeps the head of the list and explores
    only new items.  Let [n_explore = int(len(recommendations) * epsilon)],
    the product being the one the code computes on floats.  For
    [0 <= epsilon <= 1], a float product that stays between 0 and the factor
    it scales, and a random choice that picks [size] of its candidates,
    [apply_exploration] with the strategy ['epsilon_greedy'] changes neither
    a dictionary nor the caller's list, and never returns more entries than
    it was given.  On its normal path the result is the first
    [len - n_explore] recommendations, in order, followed by at most
    [n_explore] entries of the candidate pool whose item id differs from the
    item id of every recommendation; on the handler's path it is the input
    list.  With an empty candidate pool no item id is read: the call takes
    the normal path and returns the first [len - n_explore] recommendations,
    whatever the dictionaries hold. *)
Theorem epsilon_greedy_keeps_top (py_float_mul : Q -> Q -> Q)
    (np_random_choice : list addr -> nat -> list addr)
    (np_random_normal : nat -> Q) (self : Exploration.ExplorationStrategy) (h : heap)
    (recommendations candidate_pool : list addr) :
  (forall x e, (0 <= x)%Q -> (0 <= e <= 1)%Q -> (0 <= py_float_mul x e <= x)%Q) ->
  (forall l k, (k <= length l)%nat ->
               np_random_choice l k ⊆ l /\ length (np_random_choice l k) = k) ->
  Exploration.strategy self = "epsilon_greedy" ->
  (0 <= Exploration.epsilon self <= 1)%Q ->
  let out := Exploration.apply_exploration py_float_mul np_random_choice np_random_normal
               self h recommendations candidate_pool in
  let n_explore :=
    Z.to_nat (py_int (py_float_mul (inject_Z (Z.of_nat (length recommendations)))
                        (Exploration.epsilon self))) in
  store out = h
  /\ caller_list out = recommendations
  /\ (length (returned out) <= length recommendations)%nat
  /\ (raised out = true -> returned out = recommendations)
  /\ (raised out = false ->
      exists explored,
        returned out = take (length recommendations - n_explore) recommendations ++ explored
        /\ (length explored <= n_explore)%nat
        /\ Forall (fun c =>
                     c ∈ candidate_pool
                     /\ exists item,
                          Exploration.item_id_of h c = Some item
                          /\ forall r ir,
                               r ∈ recommendations ->
                               Exploration.item_id_of h r = Some ir ->
                               value_eqb item ir = false)
                  explored)
  /\ (candidate_pool = [] ->
      raised out = false
      /\ returned out = take (length recommendations - n_explore) recommendations).
Proof.
  intros Hmul Hchoice Hstrategy Heps out n_explore. subst out.
  unfold Exploration.apply_exploration. rewrite Hstrategy.
  change (String.eqb "epsilon_greedy" "epsilon_greedy") with true. cbn match.
  unfold Exploration._epsilon_greedy_exploration.
  assert (Hk : (0 <= py_int (py_float_mul (inject_Z (Z.of_nat (length recommendations)))
                               (Exploration.epsilon self))
                <= Z.of_nat (length recommendations))%Z).
  { apply py_int_between, Hmul; [|exact Heps].
    change 0%Q with (inject_Z 0). rewrite <- Zle_Qle. lia. }
  destruct Hk as [Hk0 Hk1].
  set (k := py_int (py_float_mul (inject_Z (Z.of_nat (length recommendations)))
                      (Exploration.epsilon self))) in *.
  assert (Hn : (n_explore <= length recommendations)%nat) by (subst n_explore; lia).
  assert (Hfinal : py_slice_to (Z.of_nat (length recommendations) - k) recommendations
                   = take (length recommendations - n_explore) recommendations).
  { rewrite py_slice_to_take by lia. f_equal. subst n_explore. lia. }
  rewrite Hfinal. clear Hfinal.
  set (final := take (length recommendations - n_explore) recommendations).
  assert (Hflen : length final = (length recommendations - n_explore)%nat).
  { subst final. rewrite length_take. lia. }
  assert (Hplain : forall P : Prop,
            let out := {| returned := final; caller_list := recommendations;
                          store := h; raised := false |} in
            store out = h /\ caller_list out = recommendations
            /\ (length (returned out) <= length recommendations)%nat
            /\ (raised out = true -> returned out = recommendations)
            /\ (raised out = false ->
                exists explored,
                  returned out = final ++ explored
                  /\ (length explored <= n_explore)%nat
                  /\ Forall (fun c =>
                       c ∈ candidate_pool
                       /\ exists item,
                            Exploration.item_id_of h c = Some item
                            /\ forall r ir,
                                 r ∈ recommendations ->
                                 Exploration.item_id_of h r = Some ir ->
                                 value_eqb item ir = false) explored)
            /\ (P -> raised out = false /\ returned out = final)).
  { intros P. cbn. repeat split; [lia|done|]. intros _. exists []. rewrite app_nil_r.
    repeat split; [cbn; lia|constructor]. }
  destruct candidate_pool as [|c0 pool']; [apply Hplain|].
  set (pool := c0 :: pool') in *.
  destruct (0 <? k)%Z; [|apply Hplain].
  destruct (mapM (Exploration.item_id_of h) recommendations) as [recommended_ids|] eqn:Hrec;
    cbn [mbind option_bind]; [|by cbn].
  destruct (mapM (fun c => item ← Exploration.item_id_of h c; Some (c, item)) pool)
    as [pool_ids|] eqn:Hpool; cbn [mbind option_bind]; [|by cbn].
  set (cands := (List.filter _ pool_ids).*1).
  assert (Hcands : Forall (fun c =>
                     c ∈ pool
                     /\ exists item,
                          Exploration.item_id_of h c = Some item
                          /\ forall r ir,
                               r ∈ recommendations ->
                               Exploration.item_id_of h r = Some ir ->
                               value_eqb item ir = false) cands).
  { apply Forall_forall. intros c Hc. subst cands.
    apply list_elem_of_fmap in Hc as ([c' item] & -> & Hin).
    apply list_elem_of_In, filter_In in Hin as [Hin Hnew]. apply list_elem_of_In in Hin.
    apply negb_true_iff in Hnew. cbn [fst].
    apply mapM_Some_1 in Hpool. apply list_elem_of_lookup in Hin as [i Hi].
    destruct (Forall2_lookup_r _ _ _ _ _ Hpool Hi) as (c & Hc & Hf).
    destruct (Exploration.item_id_of h c) as [item'|] eqn:Hitem; [|done].
    cbn in Hf. injection Hf as -> ->.
    split; [by eapply list_elem_of_lookup_2|].
    exists item. split; [done|]. intros r ir Hr Hir.
    pose proof (mapM_lookup_elem _ _ _ _ _ Hrec Hr Hir) as Hmem.
    by apply (proj1 (existsb_false _ _) Hnew). }
  destruct cands as [|c1 cands'] eqn:Hc; [apply Hplain|]. rewrite <- Hc in *.
  destruct (Hchoice cands (Nat.min n_explore (length cands))) as [Hsub Hlen]; [lia|].
  change (Z.to_nat k) with n_explore.
  cbn [store caller_list returned raised].
  split; [done|]. split; [done|].
  split; [rewrite length_app, Hflen, Hlen; lia|]. split; [done|].
  split; [|intros Hnil; unfold pool in Hnil; discriminate Hnil].
  intros _.
  exists (np_random_choice cands (Nat.min n_explore (length cands))).
  repeat split; [lia|].
  apply Forall_forall. intros c Hin. rewrite Forall_forall in Hcands.
  apply Hcands, Hsub, Hin.
Qed.

Lemma exact_mul_fraction (x e : Q) :
  (0 <= x)%Q -> (0 <= e <= 1)%Q -> (0 <= ExplorationDemo.exact_mul x e <= x)%Q.
Proof.
  intros Hx [He0 He1]. unfold ExplorationDemo.exact_mul. split.
  - by apply Qmult_le_0_compat.
  - apply Qle_trans with (x * 1)%Q; [|rewrite Qmult_1_r; apply Qle_refl].
    apply Qmult_le_compat_nonneg; split; (assumption || apply Qle_refl).
Qed.

Lemma epsilon_greedy_keeps_top_witness :
  let out := Exploration.apply_exploration ExplorationDemo.exact_mul
               ExplorationDemo.first_choice ExplorationDemo.no_noise
               ExplorationDemo.greedy DebiasDemo.objects
               DebiasDemo.recommendations [4; 5; 6; 7]%nat in
  store out = DebiasDemo.objects
  /\ caller_list out = DebiasDemo.recommendations
  /\ (length (returned out) <= length DebiasDemo.recommendations)%nat.
Proof.
  intros out.
  destruct (epsilon_greedy_keeps_top ExplorationDemo.exact_mul ExplorationDemo.first_choice
              ExplorationDemo.no_noise ExplorationDemo.greedy DebiasDemo.objects
              DebiasDemo.recommendations [4; 5; 6; 7]%nat)
    as (Hstore & Hcaller & Hlen & _).
  - exact exact_mul_fraction.
  - intros l k Hk. unfold ExplorationDemo.first_choice. split.
    + apply subseteq_take.
    + rewrite length_take. lia.
  - reflexivity.
  - vm_compute. split; discriminate.
  - repeat split; assumption.
Defined.

(** The demo run: half of the four recommendations are kept, and the first
    two pool entries with a new item id follow. *)
Example epsilon_greedy_demo :
  returned (Exploration.apply_exploration ExplorationDemo.exact_mul
              ExplorationDemo.first_choice ExplorationDemo.no_noise
              ExplorationDemo.greedy DebiasDemo.objects
              DebiasDemo.recommendations [4; 5; 6; 7]%nat)
  = [0; 1; 4; 5]%nat.
Proof. vm_compute. reflexivity. Qed.

Lemma add_uncertainty_spec (np_random_normal : nat -> Q) (l : list addr) :
  forall (h : heap) (draw : nat),
    (forall a, a ∈ l -> exists rec s, h !! a = Some rec /\ get_num rec "score" = Some s) ->
    let res := Exploration.add_uncertainty np_random_normal h draw l in
    res.2 = true
    /\ length res.1 = length h
    /\ forall a d,
         h !! a = Some d ->
         exists d', res.1 !! a = Some d'
                    /\ (a ∉ l -> d' = d)
                    /\ (forall k, k ≠ "exploration_score" -> d' !! k = d !! k)
                    /\ (a ∈ l -> forall s, get_num d "score" = Some s ->
                        exists i, (draw <= i < draw + length l)%nat
                                  /\ d' !! "exploration_score"
                                     = Some (VNum (s + np_random_normal i))).
Proof.
  induction l as [|a0 l IH]; intros h draw Hnum res; subst res.
  - cbn. split; [done|]. split; [done|]. intros a d Hd. exists d.
    repeat split; try done. by intros ?%elem_of_nil.
  - cbn [Exploration.add_uncertainty].
    destruct (Hnum a0 ltac:(by left)) as (rec0 & s0 & Hrec0 & Hs0).
    rewrite Hrec0. cbn [mbind option_bind]. rewrite Hs0.
    set (h' := heap_set a0 "exploration_score" (VNum (s0 + np_random_normal draw)) h).
    assert (Hh'0 : h' !! a0 = Some (<["exploration_score" :=
                                      VNum (s0 + np_random_normal draw)]> rec0)).
    { unfold h', heap_set. by rewrite list_lookup_alter_eq, Hrec0. }
    assert (Hh'ne : forall a, a ≠ a0 -> h' !! a = h !! a).
    { intros a Hne. unfold h', heap_set. by rewrite list_lookup_alter_ne. }
    assert (Hscore : get_num (<["exploration_score" :=
                                VNum (s0 + np_random_normal draw)]> rec0) "score"
                     = get_num rec0 "score").
    { unfold get_num. by rewrite lookup_insert_ne. }
    destruct (IH h' (S draw)) as (Hflag & Hlen & Hframe).
    { intros a Ha. destruct (decide (a = a0)) as [->|Hne].
      - eexists _, s0. split; [exact Hh'0|]. by rewrite Hscore.
      - rewrite (Hh'ne a Hne). apply Hnum. by right. }
    split; [exact Hflag|]. split; [rewrite Hlen; apply length_alter|].
    intros a d Hd. destruct (decide (a = a0)) as [->|Hne].
    + rewrite Hrec0 in Hd. injection Hd as <-.
      destruct (Hframe a0 _ Hh'0) as (d' & Hd' & Hsame & Hkeys & Hexp).
      exists d'. split; [exact Hd'|].
      split; [intros Hn; exfalso; apply Hn; by left|].
      split; [intros k Hk; rewrite Hkeys by done; by rewrite lookup_insert_ne|].
      intros _ s Hs. rewrite Hs0 in Hs. injection Hs as <-.
      destruct (decide (a0 ∈ l)) as [Hin|Hnin].
      * destruct (Hexp Hin s0) as (i & Hi & Hv); [by rewrite Hscore|].
        exists i. split; [cbn [length]; lia|exact Hv].
      * rewrite (Hsame Hnin). exists draw. split; [cbn [length]; lia|].
        by rewrite lookup_insert_eq.
    + destruct (Hframe a d) as (d' & Hd' & Hsame & Hkeys & Hexp).
      { by rewrite Hh'ne. }
      exists d'. split; [exact Hd'|].
      split; [intros Hn; apply Hsame; intros Hin; apply Hn; by right|].
      split; [exact Hkeys|].
      intros [->|Hin]%elem_of_cons; [done|]. intros s Hs.
      destruct (Hexp Hin s Hs) as (i & Hi & Hv).
      exists i. split; [cbn [length]; lia|exact Hv].
Qed.

(** X25: Thompson-sampling exploration only reorders.  When every
    recommendation carries a numeric score, [apply_exploration] with the
    strategy ['thompson_sampling'] returns the caller's own list, sorted in
    place by descending [exploration_score]: a permutation of the input, no
    entry lost or added.  Each entry's [exploration_score] is its score plus
    one of the random draws; no other key of any dictionary changes, and
    dictionaries outside the list are not touched. *)
Theorem thompson_sampling_reorders (py_float_mul : Q -> Q -> Q)
    (np_random_choice : list addr -> nat -> list addr)
    (np_random_normal : nat -> Q) (self : Exploration.ExplorationStrategy) (h : heap)
    (recommendations candidate_pool : list addr) :
  Exploration.strategy self = "thompson_sampling" ->
  Forall (fun a => exists rec s, h !! a = Some rec /\ get_num rec "score" = Some s)
         recommendations ->
  let out := Exploration.apply_exploration py_float_mul np_random_choice np_random_normal
               self h recommendations candidate_pool in
  raised out = false
  /\ returned out ≡ₚ recommendations
  /\ caller_list out = returned out
  /\ StronglySorted (fun a b => (num_field (store out) "exploration_score" b
                                 <= num_field (store out) "exploration_score" a)%Q)
                    (returned out)
  /\ length (store out) = length h
  /\ forall a d,
       h !! a = Some d ->
       exists d', store out !! a = Some d'
                  /\ (a ∉ recommendations -> d' = d)
                  /\ (forall k, k ≠ "exploration_score" -> d' !! k = d !! k)
                  /\ (a ∈ recommendations -> forall s, get_num d "score" = Some s ->
                      exists i, (i < length recommendations)%nat
                                /\ d' !! "exploration_score"
                                   = Some (VNum (s + np_random_normal i))).
Proof.
  intros Hstrategy Hnum out. subst out.
  unfold Exploration.apply_exploration. rewrite Hstrategy.
  change (String.eqb "thompson_sampling" "epsilon_greedy") with false.
  change (String.eqb "thompson_sampling" "thompson_sampling") with true. cbn match.
  rewrite Forall_forall in Hnum.
  destruct (add_uncertainty_spec np_random_normal recommendations h 0 Hnum)
    as (Hflag & Hlen & Hframe).
  destruct (Exploration.add_uncertainty np_random_normal h 0 recommendations)
    as [h1 flag]. cbn [fst snd] in *. subst flag.
  cbn [raised returned caller_list store].
  split; [done|]. split; [apply py_sort_perm|]. split; [done|].
  split; [apply py_sorted_desc_sorted|]. split; [exact Hlen|].
  intros a d Hd. destruct (Hframe a d Hd) as (d' & Hd' & Hsame & Hkeys & Hexp).
  exists d'. repeat split; try done.
  intros Hin s Hs. destruct (Hexp Hin s Hs) as (i & Hi & Hv). exists i. split; [lia|done].
Qed.

Lemma thompson_sampling_reorders_witness :
  let out := Exploration.apply_exploration ExplorationDemo.exact_mul
               ExplorationDemo.first_choice ExplorationDemo.no_noise
               ExplorationDemo.thompson DebiasDemo.objects
               DebiasDemo.recommendations [] in
  raised out = false /\ returned out ≡ₚ DebiasDemo.recommendations.
Proof.
  intros out.
  destruct (thompson_sampling_reorders ExplorationDemo.exact_mul
              ExplorationDemo.first_choice ExplorationDemo.no_noise
              ExplorationDemo.thompson DebiasDemo.objects DebiasDemo.recommendations [])
    as (Hraised & Hperm & _).
  - reflexivity.
  - repeat constructor; eexists _, _; (split; [reflexivity|vm_compute; reflexivity]).
  - by split.
Defined.

(** ** [debiasing.py]: the corrections of the adversarial debiaser *)

Lemma mark_for_correction_spec (l : list addr) :
  forall h : heap,
    NoDup l ->
    (forall a, a ∈ l -> exists rec s, h !! a = Some rec /\ get_num rec "score" = Some s) ->
    let res := Adversarial.mark_for_correction h l in
    res.2 = true
    /\ length res.1 = length h
    /\ forall a d,
         h !! a = Some d ->
         (a ∉ l -> res.1 !! a = Some d)
         /\ (a ∈ l -> forall s, get_num d "score" = Some s ->
             res.1 !! a
             = Some (<["score" := VNum (s * (7 # 10))]>
                       (<["needs_bias_correction" := VBool true]> d))).
Proof.
  induction l as [|a0 l IH]; intros h Hnd Hnum res; subst res.
  - cbn. split; [done|]. split; [done|]. intros a d Hd.
    split; [done|]. by intros ?%elem_of_nil.
  - apply NoDup_cons in Hnd as [Ha0 Hnd].
    cbn [Adversarial.mark_for_correction].
    destruct (Hnum a0 ltac:(by left)) as (rec0 & s0 & Hrec0 & Hs0).
    assert (Hh1 : heap_set a0 "needs_bias_correction" (VBool true) h !! a0
                  = Some (<["needs_bias_correction" := VBool true]> rec0)).
    { unfold heap_set. by rewrite list_lookup_alter_eq, Hrec0. }
    rewrite Hh1. cbn [mbind option_bind].
    assert (Hscore : get_num (<["needs_bias_correction" := VBool true]> rec0) "score"
                     = Some s0).
    { unfold get_num. by rewrite lookup_insert_ne. }
    rewrite Hscore.
    set (h2 := heap_set a0 "score" (VNum (s0 * (7 # 10)))
                 (heap_set a0 "needs_bias_correction" (VBool true) h)).
    assert (Hh2 : h2 !! a0 = Some (<["score" := VNum (s0 * (7 # 10))]>
                                     (<["needs_bias_correction" := VBool true]> rec0))).
    { unfold h2, heap_set. by rewrite !list_lookup_alter_eq, Hrec0. }
    assert (Hne : forall a, a ≠ a0 -> h2 !! a = h !! a).
    { intros a Hn. unfold h2, heap_set. by rewrite !list_lookup_alter_ne. }
    destruct (IH h2 Hnd) as (Hflag & Hlen & Hframe).
    { intros a Ha. rewrite Hne by (intros ->; done). apply Hnum. by right. }
    split; [exact Hflag|]. split; [rewrite Hlen; unfold h2, heap_set; by rewrite !length_alter|].
    intros a d Hd. destruct (decide (a = a0)) as [->|Hn].
    + rewrite Hrec0 in Hd. injection Hd as <-.
      split; [intros H; exfalso; apply H; by left|].
      intros _ s Hs. rewrite Hs0 in Hs. injection Hs as <-.
      by apply (Hframe a0 _ Hh2).
    + destruct (Hframe a d) as [H1 H2]; [by rewrite Hne|].
      split.
      * intros Hnin. apply H1. intros Hin. apply Hnin. by right.
      * intros [->|Hin]%elem_of_cons; [done|]. by apply H2.
Qed.

(** X26: what the bias corrections do to a list of distinct dictionaries
    with numeric scores and popularities.  [_apply_bias_corrections] takes
    its normal path and returns the caller's own list, reordered in place: a
    permutation of the input sorted by descending (corrected) score.  The
    [int(0.3 * len)] most popular entries are corrected: each gets
    [needs_bias_correction = True] and 0.7 times its score, and nothing else
    about it changes; no entry left uncorrected is more popular than a
    corrected one; every other dictionary is left as it was. *)
Theorem bias_corrections_demote_most_popular (h : heap) (recommendations : list addr) :
  NoDup recommendations ->
  Forall (fun a => (exists rec s, h !! a = Some rec /\ get_num rec "score" = Some s)
                   /\ is_Some (Adversarial.popularity_key h a)) recommendations ->
  exists out corrected rest,
    Adversarial._apply_bias_corrections h recommendations = Some out
    /\ raised out = false
    /\ returned out ≡ₚ recommendations
    /\ caller_list out = returned out
    /\ StronglySorted (fun a b => (num_field (store out) "score" b
                                   <= num_field (store out) "score" a)%Q) (returned out)
    /\ length (store out) = length h
    /\ corrected ++ rest ≡ₚ recommendations
    /\ Z.of_nat (length corrected)
       = py_int (inject_Z (Z.of_nat (length recommendations)) * (3 # 10))
    /\ (forall x y, x ∈ corrected -> y ∈ rest ->
          (default 0 (Adversarial.popularity_key h y)
           <= default 0 (Adversarial.popularity_key h x))%Q)
    /\ forall a d,
         h !! a = Some d ->
         (a ∉ corrected -> store out !! a = Some d)
         /\ (a ∈ corrected -> forall s, get_num d "score" = Some s ->
             store out !! a
             = Some (<["score" := VNum (s * (7 # 10))]>
                       (<["needs_bias_correction" := VBool true]> d))).
Proof.
  intros Hnd Hall. rewrite Forall_forall in Hall.
  unfold Adversarial._apply_bias_corrections.
  destruct (mapM (Adversarial.popularity_key h) recommendations) as [pops|] eqn:Hpops.
  2: { exfalso. assert (His : is_Some (mapM (Adversarial.popularity_key h) recommendations)).
       { apply mapM_is_Some_2, Forall_forall. intros a Ha. apply (Hall a Ha). }
       rewrite Hpops in His. by destruct His. }
  cbn [mbind option_bind].
  set (key := fun a => default 0%Q (Adversarial.popularity_key h a)).
  set (by_popularity := py_sorted_desc key recommendations).
  set (n := py_int (inject_Z (Z.of_nat (length recommendations)) * (3 # 10))).
  assert (Hn : (0 <= n <= Z.of_nat (length recommendations))%Z).
  { apply py_int_fraction. split; discriminate. }
  assert (Hperm : by_popularity ≡ₚ recommendations) by apply py_sort_perm.
  destruct (top_of_sorted_desc key n recommendations) as (_ & rest & Hsplit & Htop).
  fold by_popularity in Hsplit, Htop.
  set (corrected := py_slice_to n by_popularity) in *.
  assert (Hclen : Z.of_nat (length corrected) = n).
  { subst corrected. rewrite py_slice_to_take by lia. rewrite length_take.
    rewrite Hperm. lia. }
  assert (Hcsub : forall a, a ∈ corrected -> a ∈ recommendations).
  { intros a Ha. rewrite <- Hsplit. apply elem_of_app. by left. }
  assert (Hcnd : NoDup corrected).
  { rewrite <- Hsplit in Hnd. by apply NoDup_app in Hnd as (? & _ & _). }
  destruct (mark_for_correction_spec corrected h Hcnd) as (Hflag & Hlen & Hframe).
  { intros a Ha. apply (Hall a (Hcsub a Ha)). }
  destruct (Adversarial.mark_for_correction h corrected) as [h1 flag].
  cbn [fst snd] in *. subst flag.
  assert (Hscores : forall a, a ∈ by_popularity ->
            exists d' s', h1 !! a = Some d' /\ get_num d' "score" = Some s').
  { intros a Ha. rewrite Hperm in Ha.
    destruct (Hall a Ha) as [(d & s & Hd & Hs) _].
    destruct (Hframe a d Hd) as [Hout Hin].
    destruct (decide (a ∈ corrected)) as [Hc|Hc].
    - eexists _, _. split; [exact (Hin Hc s Hs)|].
      unfold get_num. by rewrite lookup_insert_eq.
    - exists d, s. split; [by apply Hout|done]. }
  destruct (mapM (fun a => rec ← h1 !! a; rec !! "score") by_popularity) as [raw|] eqn:Hraw.
  2: { exfalso.
       assert (His : is_Some (mapM (fun a => rec ← h1 !! a; rec !! "score") by_popularity)).
       { apply mapM_is_Some_2, Forall_forall. intros a Ha.
         destruct (Hscores a Ha) as (d' & s' & Hd' & Hs'). cbn. rewrite Hd'. cbn.
         unfold get_num in Hs'. destruct (d' !! "score"); [done|discriminate]. }
       rewrite Hraw in His. by destruct His. }
  destruct (mapM (fun a => rec ← h1 !! a; get_num rec "score") by_popularity)
    as [scores|] eqn:Hnum.
  2: { exfalso.
       assert (His : is_Some (mapM (fun a => rec ← h1 !! a; get_num rec "score")
                                by_popularity)).
       { apply mapM_is_Some_2, Forall_forall. intros a Ha.
         destruct (Hscores a Ha) as (d' & s' & Hd' & Hs'). cbn. rewrite Hd'. cbn.
         by rewrite Hs'. }
       rewrite Hnum in His. by destruct His. }
  cbn [mbind option_bind].
  eexists _, corrected, rest. split; [reflexivity|].
  cbn [raised returned caller_list store].
  split; [done|]. split; [etrans; [apply py_sort_perm|exact Hperm]|]. split; [done|].
  split; [apply py_sorted_desc_sorted|]. split; [exact Hlen|].
  split; [exact Hsplit|]. split; [exact Hclen|]. split; [exact Htop|exact Hframe].
Qed.

Lemma bias_corrections_demote_most_popular_witness :
  exists out,
    Adversarial._apply_bias_corrections AdversarialDemo.objects
      AdversarialDemo.recommendations = Some out
    /\ raised out = false
    /\ returned out ≡ₚ AdversarialDemo.recommendations.
Proof.
  destruct (bias_corrections_demote_most_popular AdversarialDemo.objects
              AdversarialDemo.recommendations)
    as (out & corrected & rest & Hout & Hraised & Hperm & _).
  - apply (bool_decide_unpack _). vm_compute. exact I.
  - repeat constructor;
      first [eexists _, _; split; [reflexivity|vm_compute; reflexivity]
            |vm_compute; by eexists].
  - exists out. by repeat split.
Defined.

(** The demo run: the most popular entry (address 0) is flagged, its score
    drops from 4 to 2.8, and it falls behind the entry with score 3. *)
Example bias_corrections_demo :
  (fun out => (returned out, caller_list out, raised out,
               (fun d => (d !! "score", d !! "needs_bias_correction")) <$> store out))
    <$> Adversarial._apply_bias_corrections AdversarialDemo.objects
          AdversarialDemo.recommendations
  = Some ([1; 0; 2; 3]%nat, [1; 0; 2; 3]%nat, false,
          [ (Some (VNum (28 # 10)), Some (VBool true)); (Some (VNum 3), None);
            (Some (VNum 2), None); (Some (VNum 1), None) ]).
Proof. vm_compute. reflexivity. Qed.
